(** * ai-changelog-action: the changelog pipeline, embedded and verified

    A shallow embedding of [src/sumarize-changelog.js] (Summarizer, Merger
    and commit projection), [src/github-utils.js] (hosting API wrappers) and
    [src/index.js] (the orchestration), followed by the properties the
    specification states about them.

    JavaScript strings are sequences of UTF-16 code units; they are modelled
    as [list N].  Asynchronous functions are modelled in a trace-and-exception
    monad: every call to a collaborator (hosting API, model service, console,
    action outputs) appends an event to the trace, and a rejected promise is
    an exception value.  A synchronous function that logs returns what it
    logs together with its value.  Numbers are doubles: an integer stands
    for the double nearest to it. *)

From Stdlib Require Import String Ascii DecimalString DecimalNat.
From Stdlib Require Import List NArith ZArith Bool Arith Lia.
Import ListNotations.

Set Implicit Arguments.

(** ** JavaScript strings and the built-ins the program uses *)

Module JS.

Abbreviation jsstring := (list N).

(** String literals: the ASCII text of a Rocq string, the two characters
    backslash-n standing for a line feed as in the JavaScript source. *)
Fixpoint js (s : string) : jsstring :=
  match s with
  | EmptyString => []
  | String a s' =>
      match a, s' with
      | "\"%char, String "n"%char s'' => 10%N :: js s''
      | _, _ => N_of_ascii a :: js s'
      end
  end.

Definition NL : N := 10%N.

(** WhiteSpace and LineTerminator code units of ECMAScript: the class of
    [\s] and the characters [trim] removes. *)
Definition isWhiteSpace (c : N) : bool :=
  ((9 <=? c) && (c <=? 13)
   || (c =? 32) || (c =? 160) || (c =? 5760)
   || ((8192 <=? c) && (c <=? 8202))
   || (c =? 8232) || (c =? 8233) || (c =? 8239) || (c =? 8287)
   || (c =? 12288) || (c =? 65279))%N.

(** The class of [\d]. *)
Definition isDigit (c : N) : bool := ((48 <=? c) && (c <=? 57))%N.

Fixpoint eqb (s t : jsstring) : bool :=
  match s, t with
  | [], [] => true
  | a :: s', b :: t' => (a =? b)%N && eqb s' t'
  | _, _ => false
  end.

Fixpoint dropWhile (p : N -> bool) (s : jsstring) : jsstring :=
  match s with
  | [] => []
  | c :: s' => if p c then dropWhile p s' else s
  end.

Definition trimStart (s : jsstring) : jsstring := dropWhile isWhiteSpace s.
Definition trimEnd (s : jsstring) : jsstring := rev (dropWhile isWhiteSpace (rev s)).
(** [String.prototype.trim] *)
Definition trim (s : jsstring) : jsstring := trimEnd (trimStart s).

(** [s.startsWith(t)]: [t] is a prefix of [s]. *)
Fixpoint startsWith (s t : jsstring) {struct t} : bool :=
  match t, s with
  | [], _ => true
  | b :: t', a :: s' => (a =? b)%N && startsWith s' t'
  | _ :: _, [] => false
  end.

(** [s.indexOf(t)]: the first position at which [t] occurs in [s];
    [None] is JavaScript's -1. *)
Fixpoint indexOfFrom (s t : jsstring) (i : nat) : option nat :=
  if startsWith s t then Some i
  else match s with
       | [] => None
       | _ :: s' => indexOfFrom s' t (S i)
       end.

Definition indexOf (s t : jsstring) : option nat := indexOfFrom s t 0.

(** [s.includes(t)] *)
Definition includes (s t : jsstring) : bool :=
  match indexOf s t with Some _ => true | None => false end.

(** [s.substring(i)] and [s.substring(i, j)] for [i <= j]. *)
Definition substringFrom (s : jsstring) (i : nat) : jsstring := skipn i s.
Definition substring (s : jsstring) (i j : nat) : jsstring :=
  firstn (j - i) (skipn i s).

(** [s.split(sep)] for a separator of one code unit: never empty. *)
Fixpoint split (sep : N) (s : jsstring) : list jsstring :=
  match s with
  | [] => [[]]
  | c :: s' =>
      if (c =? sep)%N then [] :: split sep s'
      else match split sep s' with
           | [] => [[c]]
           | l :: ls => (c :: l) :: ls
           end
  end.

(** [parts.join(sep)] *)
Fixpoint join (sep : jsstring) (parts : list jsstring) : jsstring :=
  match parts with
  | [] => []
  | [p] => p
  | p :: ps => p ++ sep ++ join sep ps
  end.

(** Truthiness of a possibly undefined string: [undefined] and the empty
    string are falsy. *)
Definition truthy (v : option jsstring) : bool :=
  match v with
  | Some (_ :: _) => true
  | _ => false
  end.

(** [a || b] on possibly undefined strings. *)
Definition or_else (a b : option jsstring) : option jsstring :=
  if truthy a then a else b.

(** A possibly undefined string inside a template literal. *)
Definition interpolate (v : option jsstring) : jsstring :=
  match v with
  | Some s => s
  | None => js "undefined"
  end.

(** Decimal rendering of numbers inside template literals. *)
Definition digitsOfNat (n : nat) : jsstring :=
  js (NilZero.string_of_uint (Nat.to_uint n)).

Definition digitsOfZ (z : Z) : jsstring :=
  match z with
  | Z0 => js "0"
  | Zpos p => digitsOfNat (Pos.to_nat p)
  | Zneg p => js "-" ++ digitsOfNat (Pos.to_nat p)
  end.

(** *** Regular expressions

    The patterns of the program are sequences of single characters,
    character classes, greedy stars over a class and one capture group;
    [X+] is [X X*] and [X{n,}] is [n] copies of [X] then [X*].  [matchHere]
    is the backtracking matcher anchored at the head of [s]: it returns the
    end of the match and the bounds of the capture group, as offsets from
    the anchor. *)

Inductive node :=
| Chr (c : N)
| Class (p : N -> bool)
| Star (p : N -> bool)
| GroupOpen
| GroupClose.

Definition regex := list node.

Fixpoint matchHere (re : regex) (s : jsstring) (pos gs ge : nat) {struct re}
  : option (nat * nat * nat) :=
  match re with
  | [] => Some (pos, gs, ge)
  | Chr c :: re' =>
      match s with
      | x :: s' => if (x =? c)%N then matchHere re' s' (S pos) gs ge else None
      | [] => None
      end
  | Class p :: re' =>
      match s with
      | x :: s' => if p x then matchHere re' s' (S pos) gs ge else None
      | [] => None
      end
  | Star p :: re' =>
      (fix star (s : jsstring) (pos : nat) {struct s} : option (nat * nat * nat) :=
         match s with
         | x :: s' =>
             if p x then
               match star s' (S pos) with
               | Some r => Some r
               | None => matchHere re' s pos gs ge
               end
             else matchHere re' s pos gs ge
         | [] => matchHere re' s pos gs ge
         end) s pos
  | GroupOpen :: re' => matchHere re' s pos pos ge
  | GroupClose :: re' => matchHere re' s pos gs pos
  end.

Definition plus (p : N -> bool) : regex := [Class p; Star p].
Definition times (n : nat) (p : N -> bool) : regex := repeat (Class p) n.
Definition atLeast (n : nat) (p : N -> bool) : regex := times n p ++ [Star p].

(** The result of a successful [s.match(re)] for a regex without the [g]
    flag: where the match starts, the matched text, and capture group 1. *)
Record MatchResult := {
  index : nat;
  matched : jsstring;
  group1 : jsstring
}.

Fixpoint matchFrom (re : regex) (s : jsstring) (i : nat) : option MatchResult :=
  match matchHere re s 0 0 0 with
  | Some (e, gs, ge) =>
      Some {| index := i; matched := firstn e s; group1 := substring s gs ge |}
  | None =>
      match s with
      | [] => None
      | _ :: s' => matchFrom re s' (S i)
      end
  end.

(** [s.match(re)]: the leftmost match; [None] is [null]. *)
Definition match_ (s : jsstring) (re : regex) : option MatchResult :=
  matchFrom re s 0.

(** [s.replace(re, rep)] for a regex with the [g] flag and a replacement
    without [$]: matches are found left to right, each search resuming where
    the previous match ended; [skip] counts the code units of the current
    match still to be passed over. *)
Fixpoint replaceFrom (re : regex) (rep : jsstring) (s : jsstring) (skip : nat)
  {struct s} : jsstring :=
  match s with
  | [] =>
      match skip, matchHere re [] 0 0 0 with
      | O, Some _ => rep
      | _, _ => []
      end
  | x :: s' =>
      match skip with
      | S k => replaceFrom re rep s' k
      | O =>
          match matchHere re s 0 0 0 with
          | Some (S e, _, _) => rep ++ replaceFrom re rep s' e
          | Some (O, _, _) => rep ++ x :: replaceFrom re rep s' 0
          | None => x :: replaceFrom re rep s' 0
          end
      end
  end.

Definition replaceAll (s : jsstring) (re : regex) (rep : jsstring) : jsstring :=
  replaceFrom re rep s 0.

End JS.

Import JS.

(** ** Dates: [new Date(string)] and [toLocaleDateString("pl-PL", ...)]

    A Date holds a time value, milliseconds since the epoch, or NaN
    ([None]).  Two parts of the platform are not fixed by ECMAScript and are
    parameters of the model: how strings outside the date-time string format
    are parsed, and the offset of the local time zone. *)

Module JSDate.

Local Open Scope Z_scope.

Definition msPerDay : Z := 86400000.

(** Days since the epoch of a proleptic Gregorian date, and back. *)
Definition daysFromCivil (y m d : Z) : Z :=
  let y' := if m <=? 2 then y - 1 else y in
  let era := y' / 400 in
  let yoe := y' - era * 400 in
  let mp := if 2 <? m then m - 3 else m + 9 in
  let doy := (153 * mp + 2) / 5 + d - 1 in
  let doe := yoe * 365 + yoe / 4 - yoe / 100 + doy in
  era * 146097 + doe - 719468.

Definition civilFromDays (z : Z) : Z * Z * Z :=
  let z' := z + 719468 in
  let era := z' / 146097 in
  let doe := z' - era * 146097 in
  let yoe := (doe - doe / 1460 + doe / 36524 - doe / 146096) / 365 in
  let doy := doe - (365 * yoe + yoe / 4 - yoe / 100) in
  let mp := (5 * doy + 2) / 153 in
  let d := doy - (153 * mp + 2) / 5 + 1 in
  let m := if mp <? 10 then mp + 3 else mp - 9 in
  let y := yoe + era * 400 in
  ((if m <=? 2 then y + 1 else y), m, d).

Definition digitValue (c : N) : option Z :=
  if isDigit c then Some (Z.of_N c - 48) else None.

(** The value of a string of decimal digits; [None] when a code unit is
    not a digit. *)
Fixpoint digitsValue (acc : Z) (s : jsstring) : option Z :=
  match s with
  | [] => Some acc
  | c :: s' =>
      match digitValue c with
      | Some v => digitsValue (10 * acc + v) s'
      | None => None
      end
  end.

Definition field (s : jsstring) (i n : nat) : option Z :=
  let f := firstn n (skipn i s) in
  if (length f =? n)%nat then digitsValue 0 f else None.

Definition unitAt (s : jsstring) (i : nat) (c : string) : bool :=
  JS.eqb (firstn 1 (skipn i s)) (js c).

Definition inRange (lo hi v : Z) : bool := (lo <=? v) && (v <=? hi).

(** The date [YYYY-MM-DD] at the head of [s], as days since the epoch. *)
Definition parseCalendarDate (s : jsstring) : option Z :=
  match field s 0 4, field s 5 2, field s 8 2 with
  | Some y, Some m, Some d =>
      if unitAt s 4 "-" && unitAt s 7 "-" && inRange 1 12 m && inRange 1 31 d
      then Some (daysFromCivil y m 1 + d - 1)
      else None
  | _, _, _ => None
  end.

(** The time [THH:mm:ssZ] at position 10 of [s], as milliseconds. *)
Definition parseUTCTime (s : jsstring) : option Z :=
  match field s 11 2, field s 14 2, field s 17 2 with
  | Some h, Some mi, Some se =>
      if unitAt s 10 "T" && unitAt s 13 ":" && unitAt s 16 ":" && unitAt s 19 "Z"
         && inRange 0 23 h && inRange 0 59 mi && inRange 0 59 se
      then Some ((h * 60 + mi) * 60000 + se * 1000)
      else None
  | _, _, _ => None
  end.

Section Platform.

(** [Date.parse] on strings that are not of the two forms handled below;
    ECMAScript leaves it to the implementation. *)
Variable parseFallback : jsstring -> option Z.

(** Offset of the local time zone, in milliseconds, at a UTC time value. *)
Variable LocalTZA : Z -> Z.

(** [new Date(v)] for a string or undefined [v]: the date-only form
    [YYYY-MM-DD] is UTC midnight, the form [YYYY-MM-DDTHH:mm:ssZ] is the UTC
    instant it names. *)
Definition newDate (v : option jsstring) : option Z :=
  match v with
  | None => None
  | Some s =>
      match length s, parseCalendarDate s with
      | 10%nat, Some day => Some (day * msPerDay)
      | 20%nat, Some day =>
          match parseUTCTime s with
          | Some ms => Some (day * msPerDay + ms)
          | None => parseFallback s
          end
      | _, _ => parseFallback s
      end
  end.

Definition pad2 (v : Z) : jsstring :=
  if v <? 10 then js "0" ++ digitsOfZ v else digitsOfZ v.

(** [d.toLocaleDateString("pl-PL", {day: "2-digit", month: "2-digit",
    year: "numeric"})]: day, month and year of the local date, joined by
    full stops; the year is the year of the era. *)
Definition toLocaleDateString_plPL (t : option Z) : jsstring :=
  match t with
  | None => js "Invalid Date"
  | Some t =>
      let '(y, m, d) := civilFromDays ((t + LocalTZA t) / msPerDay) in
      let eraYear := if y <=? 0 then 1 - y else y in
      pad2 d ++ js "." ++ pad2 m ++ js "." ++ digitsOfZ eraYear
  end.

End Platform.

End JSDate.

(** ** Values exchanged with the collaborators *)

(** A thrown value: an [Error] with its message and, for a failed request
    of the hosting API, the HTTP status. *)
Record JsError := {
  err_message : jsstring;
  err_status : option Z
}.

(** [new Error(msg)] *)
Definition newError (msg : string) : JsError :=
  {| err_message := js msg; err_status := None |}.

(** A Number, as far as the program has them: an integer, standing for the
    double nearest to it, an infinity, or NaN. *)
Inductive JsNumber :=
| Num (z : Z)
| Infinity (negative : bool)
| NaN.

(** *** Numbers are doubles

    Integers up to 2^53 are doubles.  Above, a double has 53 significant
    bits, and an integer stands for the nearest one, ties to the even
    significand; from 2^1024 - 2^970 on that is infinity. *)
Module JSNumber.

Local Open Scope Z_scope.

(** The double nearest to the integer [v >= 0]; 2^1024 stands for
    infinity. *)
Definition nearestDouble (v : Z) : Z :=
  if v <? 2 ^ 53 then v
  else
    let e := Z.log2 v - 52 in
    let q := Z.shiftr v e in
    let r := v - Z.shiftl q e in
    let half := 2 ^ (e - 1) in
    let q' := if (r <? half) || ((r =? half) && Z.even q) then q else q + 1 in
    Z.shiftl q' e.

(** The Number value of a mathematical integer. *)
Definition ofInteger (v : Z) : JsNumber :=
  let m := nearestDouble (Z.abs v) in
  if 2 ^ 1024 <=? m then Infinity (v <? 0)
  else Num (if v <? 0 then - m else m).

(** The decimal digits of the integer [v >= 0], and how many they are. *)
Definition decimal (v : Z) : jsstring :=
  js (NilZero.string_of_uint (N.to_uint (Z.to_N v))).

Definition decimalLength (v : Z) : Z := Z.of_nat (length (decimal v)).

(** The integers [s] of [k] digits for which [x] is the double nearest to
    [s * 10^(n-k)]. *)
Definition candidates (x n k : Z) : list Z :=
  let unit := 10 ^ (n - k) in
  filter (fun s => (10 ^ (k - 1) <=? s) && (s <? 10 ^ k)
                   && (nearestDouble (s * unit) =? x))
         [x / unit; x / unit + 1].

(** Of the candidates, the one nearest to [x], the even one of two as near. *)
Definition nearestCandidate (x unit : Z) (ss : list Z) : option Z :=
  match ss with
  | [] => None
  | [s] => Some s
  | s :: s' :: _ =>
      let d := Z.abs (s * unit - x) in
      let d' := Z.abs (s' * unit - x) in
      if d <? d' then Some s
      else if d' <? d then Some s'
      else if Z.even s then Some s else Some s'
  end.

(** [n], [k] and [s] of Number::toString for a double [x >= 2^53]: as few
    digits [k] as possible such that [x] is the double nearest to
    [s * 10^(n-k)]. *)
Fixpoint fewestDigits (x n : Z) (ks : list Z) : Z * Z * Z :=
  match ks with
  | [] => (n, n, x)
  | k :: ks' =>
      match nearestCandidate x (10 ^ (n - k)) (candidates x n k) with
      | Some s => (n, k, s)
      | None => fewestDigits x n ks'
      end
  end.

Definition shortest (x : Z) : Z * Z * Z :=
  let n := decimalLength x in
  if nearestDouble (10 ^ n) =? x then (n + 1, 1, 1)
  else fewestDigits x n [1; 2; 3; 4; 5; 6; 7; 8; 9; 10; 11; 12; 13; 14; 15; 16; 17].

(** Number::toString of the double [x >= 0]: the digits, with zeros up to
    the decimal point below 10^21 and in exponential notation from there. *)
Definition magnitudeToString (x : Z) : jsstring :=
  if x <? 2 ^ 53 then decimal x
  else
    let '(n, k, s) := shortest x in
    if n <=? 21 then decimal s ++ repeat 48%N (Z.to_nat (n - k))
    else
      match decimal s with
      | d :: ds =>
          d :: (if k =? 1 then [] else js "." ++ ds) ++ js "e+" ++ decimal (n - 1)
      | [] => []
      end.

End JSNumber.

(** [String(n)], and [n] inside a template literal. *)
Definition numberToString (n : JsNumber) : jsstring :=
  match match n with Num z => JSNumber.ofInteger z | _ => n end with
  | Num z =>
      (if (z <? 0)%Z then js "-" else []) ++ JSNumber.magnitudeToString (Z.abs z)
  | Infinity negative => (if negative then js "-" else []) ++ js "Infinity"
  | NaN => js "NaN"
  end.

(** An element of the hosting API's commit list, with the fields the
    program reads: [sha], [commit.message], [commit.author.name],
    [commit.author.date] and [commit.committer.date]. *)
Module GitHub.

Record User := {
  name : option jsstring;
  date : option jsstring
}.

Record CommitData := {
  message : jsstring;
  author : User;
  committer : User
}.

Record Commit := {
  sha : jsstring;
  commit : CommitData
}.

End GitHub.

Abbreviation RawCommit := GitHub.Commit.

(** The Commit of the data model: [{sha, message, date, author}]. *)
Record Commit := {
  sha : jsstring;
  message : jsstring;
  date : option jsstring;
  author : option jsstring
}.

(** [data] of a [repos.getContent] response: a file, a directory listing
    (an array) or nothing. *)
Inductive ContentData :=
| FileData (content : jsstring) (file_sha : jsstring)
| DirectoryListing
| NoData.

Record PullRequest := {
  number : Z;
  html_url : jsstring
}.

Inductive OutputValue :=
| OutNumber (z : Z)
| OutString (s : jsstring).

(** ** Effects

    What a run does to the outside world, in order. *)
Inductive Event :=
| ConsoleLog (msg : jsstring)
| ConsoleError (msg : option jsstring) (e : JsError)
| CoreError (msg : jsstring)
| CoreSetOutput (key : jsstring) (value : OutputValue)
| CoreSetFailed (msg : jsstring)
| ListCommits (owner : jsstring) (repo : option jsstring) (ref : jsstring)
              (per_page : JsNumber)
| GetContent (owner : jsstring) (repo : option jsstring) (path ref : jsstring)
| CreateOrUpdateFileContents (owner : jsstring) (repo : option jsstring)
              (path msg encoded branch : jsstring) (prior : option jsstring)
| GetRef (owner : jsstring) (repo : option jsstring) (ref : jsstring)
| CreateRef (owner : jsstring) (repo : option jsstring) (ref sha : jsstring)
| PullsCreate (owner : jsstring) (repo : option jsstring)
              (title body head base : jsstring)
| GenerateContent (model contents : jsstring).

Definition Trace := list Event.

(** How a promise settles (or how a call returns or throws). *)
Inductive Outcome (A : Type) :=
| Resolved (a : A)
| Rejected (e : JsError).

Arguments Resolved {A} a.
Arguments Rejected {A} e.

(** A computation extends the trace of what happened so far and settles. *)
Definition Async (A : Type) := Trace -> Trace * Outcome A.

Definition ret {A} (a : A) : Async A := fun tr => (tr, Resolved a).

Definition throw {A} (e : JsError) : Async A := fun tr => (tr, Rejected e).

Definition bind {A B} (m : Async A) (k : A -> Async B) : Async B :=
  fun tr =>
    match m tr with
    | (tr', Resolved a) => k a tr'
    | (tr', Rejected e) => (tr', Rejected e)
    end.

(** [try { m } catch (error) { h error }] *)
Definition tryCatch {A} (m : Async A) (h : JsError -> Async A) : Async A :=
  fun tr =>
    match m tr with
    | (tr', Resolved a) => (tr', Resolved a)
    | (tr', Rejected e) => h e tr'
    end.

Definition emit (ev : Event) : Async unit := fun tr => (tr ++ [ev], Resolved tt).

(** A synchronous call that returns: what it logs on the way, and the value
    it returns. *)
Record Sync (A : Type) := {
  logs : Trace;
  returned : A
}.

(** The call made in the course of a computation. *)
Definition perform {A} (call : Sync A) : Async A :=
  fun tr => (tr ++ logs call, Resolved (returned call)).

(** A request to a collaborator: the request is recorded, and the answer
    may depend on everything that happened before it. *)
Definition request {A} (ev : Event) (answer : Trace -> Outcome A) : Async A :=
  fun tr => (tr ++ [ev], answer tr).

Declare Scope async_scope.
Delimit Scope async_scope with async.

Notation "x <- m ;; k" := (bind m (fun x => k))
  (at level 61, m at next level, right associativity) : async_scope.
Notation "m ;; k" := (bind m (fun _ => k))
  (at level 61, right associativity) : async_scope.

Local Open Scope async_scope.

(** The hosting API client, [getOctokit(token).rest]. *)
Record Octokit := {
  repos_listCommits :
    jsstring -> option jsstring -> jsstring -> JsNumber ->
    Trace -> Outcome (list RawCommit);
  repos_getContent :
    jsstring -> option jsstring -> jsstring -> jsstring ->
    Trace -> Outcome ContentData;
  repos_createOrUpdateFileContents :
    jsstring -> option jsstring -> jsstring -> jsstring -> jsstring ->
    jsstring -> option jsstring -> Trace -> Outcome unit;
  git_getRef :
    jsstring -> option jsstring -> jsstring -> Trace -> Outcome jsstring;
  git_createRef :
    jsstring -> option jsstring -> jsstring -> jsstring ->
    Trace -> Outcome unit;
  pulls_create :
    jsstring -> option jsstring -> jsstring -> jsstring -> jsstring ->
    jsstring -> Trace -> Outcome PullRequest
}.

(** What the program takes from its platform and libraries. *)
Record Platform := {
  (** [getOctokit] of @actions/github *)
  getOctokit : jsstring -> Octokit;
  (** [new GoogleGenAI({apiKey}).models.generateContent({model, contents})],
      answering with [response.text], which is undefined ([None]) when the
      response carries no text *)
  generateContent :
    jsstring -> jsstring -> jsstring -> Trace -> Outcome (option jsstring);
  (** [Date.parse] outside the date-time string format *)
  parseFallback : jsstring -> option Z;
  (** offset of the local time zone *)
  LocalTZA : Z -> Z;
  (** [Buffer.from(s, "base64").toString("utf-8")] *)
  base64Decode : jsstring -> jsstring;
  (** [Buffer.from(s, "utf-8").toString("base64")] *)
  base64Encode : jsstring -> jsstring
}.

Definition withDefault {A} (d : A) (v : option A) : A :=
  match v with
  | Some x => x
  | None => d
  end.

(** ** src/sumarize-changelog.js *)

Module SumarizeChangelog.

Record MergeResult := {
  content : jsstring;
  hasChanges : bool
}.

(** The text of a regex, unit by unit. *)
Definition lit (s : string) : regex := map Chr (js s).

(** The class of the one code unit [c]. *)
Definition only (c : N) : N -> bool := fun x => (x =? c)%N.

(** [/\n{3,}/g] *)
Definition threeOrMoreNewlines : regex := atLeast 3 (only NL).

(** [\d{2}\.\d{2}\.\d{4}] *)
Definition dayMonthYear : regex :=
  times 2 isDigit ++ lit "." ++ times 2 isDigit ++ lit "." ++ times 4 isDigit.

(** [/###\s+(\d{2}\.\d{2}\.\d{4}\s*-\s*\d{2}\.\d{2}\.\d{4})/] *)
Definition dateRangePattern : regex :=
  lit "###" ++ plus isWhiteSpace
  ++ [GroupOpen]
  ++ dayMonthYear ++ [Star isWhiteSpace] ++ lit "-" ++ [Star isWhiteSpace]
  ++ dayMonthYear
  ++ [GroupClose].

(** [formatChangelogEntry(aiResponse, repoName)] *)
Definition formatChangelogEntry (aiResponse : jsstring) (repoName : option jsstring)
  : jsstring :=
  let entry := trim aiResponse in
  let entry :=
    if negb (startsWith entry (js "###")) then js "### " ++ entry else entry in
  let entry := replaceAll entry threeOrMoreNewlines (js "\n\n") in
  entry.

(** [updateChangelogFile(newEntry, repoName, existingContent = "")]: the
    object it returns, and the line it logs when the entry is there
    already. *)
Definition updateChangelogFile (newEntry : jsstring) (repoName : option jsstring)
  (existingContent : option jsstring) : Sync MergeResult :=
  let existingContent := withDefault (js "") existingContent in
  let header := js "## " ++ interpolate repoName ++ js " - Changelog\n\n" in
  let dateRangeMatch := match_ newEntry dateRangePattern in
  if match dateRangeMatch with
     | Some m => includes existingContent (group1 m)
     | None => false
     end
  then
    {| logs := [ConsoleLog (js "Changelog entry for this date range already exists")];
       returned := {| content := existingContent; hasChanges := false |} |}
  else
    let newContent :=
      if JS.eqb (trim existingContent) (js "")
         || negb (includes existingContent (trim header))
      then header ++ newEntry
      else
        match indexOf existingContent header with
        | Some headerIndex =>
            let afterHeader :=
              substringFrom existingContent (headerIndex + length header) in
            header ++ newEntry ++ js "\n\n" ++ afterHeader
        | None => header ++ newEntry ++ js "\n\n" ++ existingContent
        end in
    {| logs := []; returned := {| content := newContent; hasChanges := true |} |}.

(** [getCommitsForChangelog(commits)] *)
Definition getCommitsForChangelog (commits : list RawCommit) : list Commit :=
  map (fun c =>
         {| sha := GitHub.sha c;
            message := nth 0 (split NL (GitHub.message (GitHub.commit c))) [];
            date := or_else (GitHub.date (GitHub.author (GitHub.commit c)))
                      (GitHub.date (GitHub.committer (GitHub.commit c)));
            author := GitHub.name (GitHub.author (GitHub.commit c)) |})
      commits.

Section Summarizer.

Variable P : Platform.

(** [new Date(d).toLocaleDateString("pl-PL", {day: "2-digit",
    month: "2-digit", year: "numeric"})] *)
Definition localDate (d : option jsstring) : jsstring :=
  JSDate.toLocaleDateString_plPL (LocalTZA P) (JSDate.newDate (parseFallback P) d).

Definition commitsText (commits : list Commit) : jsstring :=
  join (js "\n")
    (map (fun c =>
            js "- " ++ localDate (date c) ++ js ": " ++ message c
            ++ js " (" ++ substring (sha c) 0 7 ++ js ")")
         commits).

(** The date range; [None] when [commits[commits.length - 1]] or
    [commits[0]] is undefined, where reading its date throws. *)
Definition dateRange (commits : list Commit) : option jsstring :=
  match nth_error commits (length commits - 1), nth_error commits 0 with
  | Some oldest, Some newest =>
      let firstDate := date oldest in
      let lastDate := date newest in
      Some (localDate firstDate ++ js " - " ++ localDate lastDate)
  | _, _ => None
  end.

Definition prompt (commitsText dateRange : jsstring) : jsstring :=
  js "\n"
  ++ js "        You are a technical writer creating a changelog entry for a software project.\n"
  ++ js "        Analyze the following commits and create a concise, professional changelog entry in Polish.\n"
  ++ js "\n"
  ++ js "        Commits to analyze:\n"
  ++ js "        "
  ++ commitsText
  ++ js "\n"
  ++ js "\n"
  ++ js "        Requirements:\n"
  ++ js "        1. Create a changelog entry in the following format:\n"
  ++ js "           ### "
  ++ dateRange
  ++ js "\n"
  ++ js "           \n"
  ++ js "           - Brief description of change 1\n"
  ++ js "           - Brief description of change 2\n"
  ++ js "           - Brief description of change 3\n"
  ++ js "\n"
  ++ js "        2. Group similar changes together\n"
  ++ js "        3. Use clear, concise language in Polish\n"
  ++ js "        4. Focus on user-visible changes and important technical improvements\n"
  ++ js "        5. Ignore trivial changes like typo fixes unless they are significant\n"
  ++ js "        6. Use bullet points starting with "
  ++ [34%N]
  ++ js "- "
  ++ [34%N]
  ++ js "\n"
  ++ js "        7. Each bullet point should be on a new line\n"
  ++ js "        8. Return ONLY the changelog entry (### date range and bullet points), nothing else\n"
  ++ js "        9. Do not include the repository name or any other headers\n"
  ++ js "\n"
  ++ js "        Example format:\n"
  ++ js "        ### 07.04.2025 - 14.04.2025\n"
  ++ js "\n"
  ++ js "        - Wdro"
  ++ [380%N]
  ++ js "ono poprawki do styli na stronie g"
  ++ [322%N]
  ++ [243%N]
  ++ js "wnej\n"
  ++ js "        - Zaktualizowano zale"
  ++ [380%N]
  ++ js "no"
  ++ [347%N]
  ++ js "ci w package.json\n"
  ++ js "        - Wykonano modernizacj"
  ++ [281%N]
  ++ js " kodu client-side (jQuery -> Svelte)\n"
  ++ js "      ".

Definition typeError : JsError :=
  newError "Cannot read properties of undefined (reading 'date')".

(** What [response.text.trim()] throws when the response carries no text. *)
Definition noText : JsError :=
  newError "Cannot read properties of undefined (reading 'trim')".

(** [generateChangelogWithAI(commits, apiKey, repoName)]; a missing
    [commits] is [None]. *)
Definition generateChangelogWithAI (commits : option (list Commit))
  (apiKey : option jsstring) (repoName : option jsstring) : Async jsstring :=
  match commits with
  | None | Some [] => throw (newError "No commits provided for changelog generation")
  | Some commits =>
      match apiKey with
      | None | Some [] => throw (newError "Google API key is required")
      | Some apiKey =>
          let commitsText := commitsText commits in
          match dateRange commits with
          | None => throw typeError
          | Some dateRange =>
              tryCatch
                (text <- request
                           (GenerateContent (js "gemini-2.0-flash")
                              (prompt commitsText dateRange))
                           (generateContent P apiKey (js "gemini-2.0-flash")
                              (prompt commitsText dateRange)) ;;
                 match text with
                 | Some text => ret (trim text)
                 | None => throw noText
                 end)
                (fun error =>
                   emit (ConsoleError
                           (Some (js "Error during AI changelog generation:")) error) ;;
                   throw error)
          end
      end
  end.

End Summarizer.

End SumarizeChangelog.

(** ** The process environment *)

(** [process.env] as far as the program reads it, and the clock:
    [now_toISOString] is what [new Date().toISOString()] returns. *)
Record Env := {
  GITHUB_TOKEN : option jsstring;
  GOOGLE_API_KEY : option jsstring;
  INPUT_COMMIT_COUNT : option jsstring;
  INPUT_BRANCH : option jsstring;
  GITHUB_BASE_REF : option jsstring;
  GITHUB_REPOSITORY : option jsstring;
  now_toISOString : jsstring
}.

(** ** src/github-utils.js *)

Module GithubUtils.

Local Open Scope async_scope.

(** [getRepoInfo()]: owner and repo; [repo] is undefined when
    GITHUB_REPOSITORY has no slash. *)
Definition getRepoInfo (env : Env) : jsstring * option jsstring :=
  let repository := withDefault (js "") (or_else (GITHUB_REPOSITORY env) (Some (js ""))) in
  let parts := split 47%N repository in
  (nth 0 parts [], nth_error parts 1).

Section Wrappers.

Variable P : Platform.

(** [getRecentCommits({token, owner, repo, sha = "HEAD", count = 10})] *)
Definition getRecentCommits (token owner : jsstring) (repo : option jsstring)
  (sha : option jsstring) (count : option JsNumber) : Async (list RawCommit) :=
  let sha := withDefault (js "HEAD") sha in
  let count := withDefault (Num 10) count in
  let octokit := getOctokit P token in
  tryCatch
    (emit (ConsoleLog (js "Getting last " ++ numberToString count
                       ++ js " commits from " ++ owner ++ js "/"
                       ++ interpolate repo ++ js " (" ++ sha ++ js ")")) ;;
     data <- request (ListCommits owner repo sha count)
                     (repos_listCommits octokit owner repo sha count) ;;
     emit (ConsoleLog (js "Retrieved " ++ digitsOfNat (length data)
                       ++ js " commits")) ;;
     ret data)
    (fun error =>
       emit (CoreError (js "Error getting recent commits: " ++ err_message error)) ;;
       throw error).

(** [createPR({token, owner, repo, title, body, head, base = "main"})] *)
Definition createPR (token owner : jsstring) (repo : option jsstring)
  (title body head : jsstring) (base : option jsstring) : Async PullRequest :=
  let base := withDefault (js "main") base in
  let octokit := getOctokit P token in
  tryCatch
    (emit (ConsoleLog (js "Creating PR: " ++ title ++ js " (" ++ head
                       ++ js " -> " ++ base ++ js ")")) ;;
     data <- request (PullsCreate owner repo title body head base)
                     (pulls_create octokit owner repo title body head base) ;;
     emit (ConsoleLog (js "Successfully created PR #" ++ digitsOfZ (number data))) ;;
     ret data)
    (fun error =>
       emit (CoreError (js "Error creating PR: " ++ err_message error)) ;;
       throw error).

(** [getFileContent({token, owner, repo, path, branch = "main"})]; [None]
    is [null]. *)
Definition getFileContent (token owner : jsstring) (repo : option jsstring)
  (path : jsstring) (branch : option jsstring) : Async (option jsstring) :=
  let branch := withDefault (js "main") branch in
  let octokit := getOctokit P token in
  tryCatch
    (data <- request (GetContent owner repo path branch)
                     (repos_getContent octokit owner repo path branch) ;;
     match data with
     | FileData encoded _ =>
         let content := base64Decode P encoded in
         ret (Some content)
     | DirectoryListing | NoData => ret None
     end)
    (fun error =>
       if match err_status error with Some st => (st =? 404)%Z | None => false end
       then ret None
       else
         emit (CoreError (js "Error getting file content: " ++ err_message error)) ;;
         throw error).

(** [updateOrCreateFile({token, owner, repo, path, content, message,
    branch = "main"})] *)
Definition updateOrCreateFile (token owner : jsstring) (repo : option jsstring)
  (path content message : jsstring) (branch : option jsstring) : Async unit :=
  let branch := withDefault (js "main") branch in
  let octokit := getOctokit P token in
  tryCatch
    (emit (ConsoleLog (js "Updating file " ++ path ++ js " on branch " ++ branch)) ;;
     sha <- tryCatch
              (data <- request (GetContent owner repo path branch)
                               (repos_getContent octokit owner repo path branch) ;;
               match data with
               | FileData _ file_sha => ret (Some file_sha)
               | DirectoryListing | NoData => ret None
               end)
              (fun _ =>
                 emit (ConsoleLog (js "File " ++ path
                                   ++ js " doesn't exist, will create it")) ;;
                 ret None) ;;
     let encodedContent := base64Encode P content in
     data <- request
               (CreateOrUpdateFileContents owner repo path message
                  encodedContent branch sha)
               (repos_createOrUpdateFileContents octokit owner repo path message
                  encodedContent branch sha) ;;
     emit (ConsoleLog (js "Successfully "
                       ++ (if truthy sha then js "updated" else js "created")
                       ++ js " file " ++ path)) ;;
     ret data)
    (fun error =>
       emit (CoreError (js "Error updating file: " ++ err_message error)) ;;
       throw error).

(** [createBranch({token, owner, repo, branchName, baseBranch = "main"})] *)
Definition createBranch (token owner : jsstring) (repo : option jsstring)
  (branchName : jsstring) (baseBranch : option jsstring) : Async jsstring :=
  let baseBranch := withDefault (js "main") baseBranch in
  let octokit := getOctokit P token in
  tryCatch
    (emit (ConsoleLog (js "Creating branch " ++ branchName ++ js " from "
                       ++ baseBranch)) ;;
     baseRef <- request (GetRef owner repo (js "heads/" ++ baseBranch))
                        (git_getRef octokit owner repo (js "heads/" ++ baseBranch)) ;;
     request (CreateRef owner repo (js "refs/heads/" ++ branchName) baseRef)
             (git_createRef octokit owner repo (js "refs/heads/" ++ branchName)
                baseRef) ;;
     emit (ConsoleLog (js "Successfully created branch " ++ branchName)) ;;
     ret baseRef)
    (fun error =>
       if match err_status error with Some st => (st =? 422)%Z | None => false end
       then
         emit (ConsoleLog (js "Branch " ++ branchName
                           ++ js " already exists, using it")) ;;
         existingRef <- request (GetRef owner repo (js "heads/" ++ branchName))
                                (git_getRef octokit owner repo
                                   (js "heads/" ++ branchName)) ;;
         ret existingRef
       else
         emit (CoreError (js "Error creating branch: " ++ err_message error)) ;;
         throw error).

End Wrappers.

End GithubUtils.

(** ** src/index.js *)

Module Index.

Local Open Scope async_scope.

(** [parseInt(s, 10)]: leading white space, a sign, then the longest run
    of decimal digits, read as the Number nearest to their value (the exact
    value of all the digits, as V8 takes it); NaN when there is no digit. *)
Fixpoint takeWhile (p : N -> bool) (s : jsstring) : jsstring :=
  match s with
  | [] => []
  | c :: s' => if p c then c :: takeWhile p s' else []
  end.

Definition parseInt (s : jsstring) : JsNumber :=
  let s := trimStart s in
  let '(negative, s) :=
    match s with
    | c :: s' =>
        if (c =? 45)%N then (true, s')
        else if (c =? 43)%N then (false, s')
        else (false, s)
    | [] => (false, [])
    end in
  match takeWhile isDigit s with
  | [] => NaN
  | ds =>
      match JSDate.digitsValue 0 ds with
      | Some v => JSNumber.ofInteger (if negative then (- v)%Z else v)
      | None => NaN
      end
  end.

(** The inputs [run] reads first: the commit count and the target branch. *)
Definition commitCount (env : Env) : JsNumber :=
  parseInt (withDefault (js "10")
              (or_else (INPUT_COMMIT_COUNT env) (Some (js "10")))).

Definition targetBranch (env : Env) : jsstring :=
  withDefault (js "main")
    (or_else (INPUT_BRANCH env) (or_else (GITHUB_BASE_REF env) (Some (js "main")))).

(** The branch of the pull request: [changelog/update-] and the date of
    [new Date().toISOString()] without its dashes. *)
Definition branchName (env : Env) : jsstring :=
  js "changelog/update-"
  ++ replaceAll (nth 0 (split 84%N (now_toISOString env)) [])
       (SumarizeChangelog.lit "-") (js "").

(** [run] over what index.js imports: the functions of github-utils.js and
    sumarize-changelog.js are the parameters of the section. *)
Section Run.

Variable getRepoInfo : Env -> jsstring * option jsstring.
Variable getRecentCommits :
  jsstring -> jsstring -> option jsstring -> option jsstring ->
  option JsNumber -> Async (list RawCommit).
Variable createPR :
  jsstring -> jsstring -> option jsstring -> jsstring -> jsstring -> jsstring ->
  option jsstring -> Async PullRequest.
Variable updateOrCreateFile :
  jsstring -> jsstring -> option jsstring -> jsstring -> jsstring -> jsstring ->
  option jsstring -> Async unit.
Variable createBranch :
  jsstring -> jsstring -> option jsstring -> jsstring -> option jsstring ->
  Async jsstring.
Variable getFileContent :
  jsstring -> jsstring -> option jsstring -> jsstring -> option jsstring ->
  Async (option jsstring).
Variable generateChangelogWithAI :
  option (list Commit) -> option jsstring -> option jsstring -> Async jsstring.
Variable formatChangelogEntry : jsstring -> option jsstring -> jsstring.
Variable updateChangelogFile :
  jsstring -> option jsstring -> option jsstring ->
  Sync SumarizeChangelog.MergeResult.
Variable getCommitsForChangelog : list RawCommit -> list Commit.

(** The body of the [try] block of [run]. *)
Definition runBody (env : Env) : Async unit :=
  let githubToken := GITHUB_TOKEN env in
  let googleApiKey := GOOGLE_API_KEY env in
  let commitCount := commitCount env in
  let targetBranch := targetBranch env in
  match githubToken with
  | None | Some [] => throw (newError "GITHUB_TOKEN is required")
  | Some githubToken =>
  if negb (truthy googleApiKey) then throw (newError "GOOGLE_API_KEY is required")
  else
    let '(owner, repo) := getRepoInfo env in
    emit (ConsoleLog (js "Processing repository: " ++ owner ++ js "/"
                      ++ interpolate repo)) ;;
    emit (ConsoleLog (js "Fetching last " ++ numberToString commitCount
                      ++ js " commits...")) ;;
    commits <- getRecentCommits githubToken owner repo (Some targetBranch)
                 (Some commitCount) ;;
    if (length commits =? 0)%nat then
      emit (ConsoleLog (js "No commits found, skipping changelog generation")) ;;
      ret tt
    else
      emit (ConsoleLog (js "Found " ++ digitsOfNat (length commits)
                        ++ js " commits to analyze")) ;;
      let formattedCommits := getCommitsForChangelog commits in
      emit (ConsoleLog (js "Generating changelog with AI...")) ;;
      aiChangelog <- generateChangelogWithAI (Some formattedCommits)
                       googleApiKey repo ;;
      let changelogEntry := formatChangelogEntry aiChangelog repo in
      emit (ConsoleLog (js "Fetching existing CHANGELOG.md from repository...")) ;;
      fetched <- getFileContent githubToken owner repo (js "CHANGELOG.md")
                   (Some targetBranch) ;;
      let existingContent := or_else fetched (Some (js "")) in
      merged <- perform (updateChangelogFile changelogEntry repo existingContent) ;;
      let updatedContent := SumarizeChangelog.content merged in
      let hasChanges := SumarizeChangelog.hasChanges merged in
      if negb hasChanges then
        emit (ConsoleLog (js "No changes to CHANGELOG.md, skipping PR creation")) ;;
        ret tt
      else
        let branchName := branchName env in
        emit (ConsoleLog (js "Creating branch: " ++ branchName)) ;;
        createBranch githubToken owner repo branchName (Some targetBranch) ;;
        emit (ConsoleLog (js "Updating CHANGELOG.md in repository...")) ;;
        updateOrCreateFile githubToken owner repo (js "CHANGELOG.md")
          updatedContent (js "chore: update CHANGELOG.md with recent changes")
          (Some branchName) ;;
        emit (ConsoleLog (js "Creating pull request...")) ;;
        pr <- createPR githubToken owner repo (js "chore: Update CHANGELOG.md")
                (js "This PR updates the CHANGELOG.md with recent changes analyzed by AI.\n\nGenerated from the last "
                 ++ digitsOfNat (length commits) ++ js " commits.")
                branchName (Some targetBranch) ;;
        emit (ConsoleLog (js "Successfully created PR #" ++ digitsOfZ (number pr)
                          ++ js ": " ++ html_url pr)) ;;
        emit (CoreSetOutput (js "pr_number") (OutNumber (number pr))) ;;
        emit (CoreSetOutput (js "pr_url") (OutString (html_url pr))) ;;
        ret tt
  end.

(** [run()]: every error of the body is caught and reported; the promise
    of [run] itself always resolves. *)
Definition run (env : Env) : Async unit :=
  tryCatch (runBody env)
    (fun error =>
       emit (CoreSetFailed (js "Action failed with error: " ++ err_message error)) ;;
       emit (ConsoleError None error) ;;
       ret tt).

End Run.

(** The module as it is loaded: [run] over the real imports. *)
Definition main (P : Platform) (env : Env) : Async unit :=
  run GithubUtils.getRepoInfo
      (GithubUtils.getRecentCommits P)
      (GithubUtils.createPR P)
      (GithubUtils.updateOrCreateFile P)
      (GithubUtils.createBranch P)
      (GithubUtils.getFileContent P)
      (SumarizeChangelog.generateChangelogWithAI P)
      SumarizeChangelog.formatChangelogEntry
      SumarizeChangelog.updateChangelogFile
      SumarizeChangelog.getCommitsForChangelog
      env.

End Index.

(** ** Notions of the specification *)

Module Spec.

Import SumarizeChangelog Index.




(** The normalization of [formatChangelogEntry]: runs of three or more
    line feeds become two. *)
Definition collapseNewlines (s : jsstring) : jsstring :=
  replaceAll s threeOrMoreNewlines (js "\n\n").

(** Length of the run of [p]-units at the head of a string. *)
Fixpoint lead (p : N -> bool) (s : jsstring) : nat :=
  match s with
  | [] => 0
  | c :: s' => if p c then S (lead p s') else 0
  end.

(** No run of three line feeds anywhere in the string. *)
Fixpoint noTriple (s : jsstring) : bool :=
  match s with
  | [] => true
  | _ :: s' => (lead (only NL) s <? 3) && noTriple s'
  end.

(** The header of the changelog of a repository. *)
Definition headerLine (repoName : option jsstring) : jsstring :=
  js "## " ++ interpolate repoName ++ js " - Changelog".

Definition header (repoName : option jsstring) : jsstring :=
  headerLine repoName ++ js "\n\n".

(** The date range the Merger extracts from an entry, when the pattern
    matches. *)
Definition dateRangeOf (newEntry : jsstring) : option jsstring :=
  option_map group1 (match_ newEntry dateRangePattern).

(** The text [DD.MM.YYYY]: two digits, a full stop, two digits, a full
    stop, four digits. *)
Definition isDateText (d : jsstring) : bool :=
  match d with
  | [d1; d2; p1; m1; m2; p2; y1; y2; y3; y4] =>
      isDigit d1 && isDigit d2 && (p1 =? 46)%N
      && isDigit m1 && isDigit m2 && (p2 =? 46)%N
      && isDigit y1 && isDigit y2 && isDigit y3 && isDigit y4
  | _ => false
  end.

(** A date range as the pattern captures it: two such dates around a
    hyphen, with optional white space on either side of the hyphen. *)
Definition isDateRange (d : jsstring) : Prop :=
  exists from sp1 sp2 to,
    d = from ++ sp1 ++ js "-" ++ sp2 ++ to
    /\ isDateText from = true /\ isDateText to = true
    /\ forallb isWhiteSpace sp1 = true /\ forallb isWhiteSpace sp2 = true.

(** A value that is defined and not the empty string. *)
Definition present (v : option jsstring) : Prop :=
  exists s, v = Some s /\ s <> [].

(** Events by which the Publisher changes the repository, and the call of
    the model service. *)
Definition isPublication (ev : Event) : bool :=
  match ev with
  | CreateRef _ _ _ _ => true
  | CreateOrUpdateFileContents _ _ _ _ _ _ _ => true
  | PullsCreate _ _ _ _ _ _ => true
  | _ => false
  end.

Definition isServiceCall (ev : Event) : bool :=
  match ev with
  | GenerateContent _ _ => true
  | _ => false
  end.

Definition serviceCalls (tr : Trace) : nat := length (filter isServiceCall tr).

(** What [run] logs before it calls the Fetcher. *)
Definition preamble (env : Env) (owner : jsstring) (repo : option jsstring) : Trace :=
  [ConsoleLog (js "Processing repository: " ++ owner ++ js "/" ++ interpolate repo);
   ConsoleLog (js "Fetching last " ++ numberToString (commitCount env)
               ++ js " commits...")].

Definition isFailure (ev : Event) : bool :=
  match ev with
  | CoreSetFailed _ => true
  | _ => false
  end.

(** Neither a change of the repository nor the failure signal. *)
Definition quiet (ev : Event) : bool :=
  negb (isPublication ev) && negb (isFailure ev).

(** A computation that only appends quiet events to the trace. *)
Definition quietly {A} (m : Async A) : Prop :=
  forall tr, exists added,
    fst (m tr) = tr ++ added /\ forallb quiet added = true.

Section Exits.

Variable getRepoInfo : Env -> jsstring * option jsstring.
Variable getRecentCommits :
  jsstring -> jsstring -> option jsstring -> option jsstring ->
  option JsNumber -> Async (list RawCommit).
Variable getFileContent :
  jsstring -> jsstring -> option jsstring -> jsstring -> option jsstring ->
  Async (option jsstring).
Variable generateChangelogWithAI :
  option (list Commit) -> option jsstring -> option jsstring -> Async jsstring.
Variable formatChangelogEntry : jsstring -> option jsstring -> jsstring.
Variable updateChangelogFile :
  jsstring -> option jsstring -> option jsstring -> Sync MergeResult.
Variable getCommitsForChangelog : list RawCommit -> list Commit.

(** Both credentials are configured and the repository is known. *)
Definition configured (env : Env) (token owner : jsstring)
  (repo : option jsstring) : Prop :=
  GITHUB_TOKEN env = Some token /\ token <> []
  /\ truthy (GOOGLE_API_KEY env) = true
  /\ getRepoInfo env = (owner, repo).

(** The Fetcher returns zero commits; [tr1] is the trace when it returns. *)
Definition fetcherReturnsNone (env : Env) (tr tr1 : Trace) : Prop :=
  exists token owner repo,
    configured env token owner repo
    /\ getRecentCommits token owner repo (Some (targetBranch env))
         (Some (commitCount env)) (tr ++ preamble env owner repo)
       = (tr1, Resolved []).

(** Fetcher, Summarizer and the read of CHANGELOG.md succeed and the Merger
    returns [hasChanges = false]; [tr3] is the trace when the file has been
    read, and [said] is what the Merger logs. *)
Definition mergerReturnsNoChanges (env : Env) (tr tr3 said : Trace) : Prop :=
  exists token owner repo commits tr1 aiChangelog tr2 fetched,
    configured env token owner repo
    /\ getRecentCommits token owner repo (Some (targetBranch env))
         (Some (commitCount env)) (tr ++ preamble env owner repo)
       = (tr1, Resolved commits)
    /\ commits <> []
    /\ generateChangelogWithAI (Some (getCommitsForChangelog commits))
         (GOOGLE_API_KEY env) repo
         (tr1 ++ [ConsoleLog (js "Found " ++ digitsOfNat (length commits)
                              ++ js " commits to analyze");
                  ConsoleLog (js "Generating changelog with AI...")])
       = (tr2, Resolved aiChangelog)
    /\ getFileContent token owner repo (js "CHANGELOG.md")
         (Some (targetBranch env))
         (tr2 ++ [ConsoleLog (js "Fetching existing CHANGELOG.md from repository...")])
       = (tr3, Resolved fetched)
    /\ hasChanges
         (returned
            (updateChangelogFile (formatChangelogEntry aiChangelog repo) repo
               (or_else fetched (Some (js ""))))) = false
    /\ said
       = logs (updateChangelogFile (formatChangelogEntry aiChangelog repo) repo
                 (or_else fetched (Some (js "")))).

End Exits.

Definition rejected {A} (o : Outcome A) : Prop := exists e, o = Rejected e.

End Spec.

(** ** Collaborators for concrete runs *)

Module Example.

Definition alreadyExists (st : Z) : JsError :=
  {| err_message := js "Reference already exists"; err_status := Some st |}.

Definition notFound : JsError :=
  {| err_message := js "Not Found"; err_status := Some 404%Z |}.

(** A hosting API with the given commits on every branch, the given
    CHANGELOG.md (or none), a ref for every branch name, and a [createRef]
    that succeeds or fails with the given status. *)
Definition octokit (commits : list RawCommit) (changelog : option jsstring)
  (createRefFails : option Z) : Octokit :=
  {| repos_listCommits := fun _ _ _ _ _ => Resolved commits;
     repos_getContent := fun _ _ _ _ _ =>
       match changelog with
       | Some text => Resolved (FileData text (js "f00dfeed"))
       | None => Rejected notFound
       end;
     repos_createOrUpdateFileContents := fun _ _ _ _ _ _ _ _ => Resolved tt;
     git_getRef := fun _ _ ref _ => Resolved (js "sha-of-" ++ ref);
     git_createRef := fun _ _ _ _ _ =>
       match createRefFails with
       | Some st => Rejected (alreadyExists st)
       | None => Resolved tt
       end;
     pulls_create := fun _ _ _ _ _ _ _ =>
       Resolved {| number := 7%Z; html_url := js "https://example.test/pull/7" |} |}.

(** A platform in the UTC time zone whose model service answers
    [aiText]; file contents are exchanged unencoded. *)
Definition platform (commits : list RawCommit) (changelog : option jsstring)
  (createRefFails : option Z) (aiText : jsstring) : Platform :=
  {| getOctokit := fun _ => octokit commits changelog createRefFails;
     generateContent := fun _ _ _ _ => Resolved (Some aiText);
     parseFallback := fun _ => None;
     LocalTZA := fun _ => 0%Z;
     base64Decode := fun s => s;
     base64Encode := fun s => s |}.

(** The same platform five hours behind UTC. *)
Definition platformWest (commits : list RawCommit) (changelog : option jsstring)
  (createRefFails : option Z) (aiText : jsstring) : Platform :=
  {| getOctokit := fun _ => octokit commits changelog createRefFails;
     generateContent := fun _ _ _ _ => Resolved (Some aiText);
     parseFallback := fun _ => None;
     LocalTZA := fun _ => (-18000000)%Z;
     base64Decode := fun s => s;
     base64Encode := fun s => s |}.

Definition env : Env :=
  {| GITHUB_TOKEN := Some (js "ghs_token");
     GOOGLE_API_KEY := Some (js "google-key");
     INPUT_COMMIT_COUNT := Some (js "5");
     INPUT_BRANCH := None;
     GITHUB_BASE_REF := None;
     GITHUB_REPOSITORY := Some (js "acme/demo");
     now_toISOString := js "2024-01-08T09:30:00.000Z" |}.

Definition rawCommit (id msg when : string) : RawCommit :=
  {| GitHub.sha := js id;
     GitHub.commit :=
       {| GitHub.message := js msg;
          GitHub.author :=
            {| GitHub.name := Some (js "Ann"); GitHub.date := Some (js when) |};
          GitHub.committer :=
            {| GitHub.name := Some (js "Ann"); GitHub.date := Some (js when) |} |} |}.

Definition twoCommits : list RawCommit :=
  [ rawCommit "1111111aaaa" "fix bug\n\nlong text" "2024-01-07T10:00:00Z";
    rawCommit "2222222bbbb" "add feature" "2024-01-01T08:00:00Z" ].

(** A repository without commits, and one whose CHANGELOG.md already has
    the entry the model service answers with. *)
Definition emptyRepo : Platform := platform [] None None (js "").

Definition upToDate : Platform :=
  platform twoCommits
    (Some (js "## demo - Changelog\n\n### 01.01.2024 - 07.01.2024\n\n- fix\n"))
    None (js "### 01.01.2024 - 07.01.2024\n\n- fix").

End Example.

Import SumarizeChangelog GithubUtils Index Spec.

(** ** Notions for the further properties *)

Module Shape.

(** A non-empty string that neither begins nor ends with white space. *)
Definition cleanEnds (s : jsstring) : Prop :=
  (exists c, s = [c] /\ isWhiteSpace c = false)
  \/ (exists c m l, s = c :: m ++ [l]
                    /\ isWhiteSpace c = false /\ isWhiteSpace l = false).

(** An entry as [formatChangelogEntry] leaves it: trimmed, headed by [###],
    without three line feeds in a row. *)
Definition wellFormedEntry (e : jsstring) : Prop :=
  trim e = e /\ startsWith e (js "###") = true
  /\ includes e (js "\n\n\n") = false.

End Shape.

Import Shape.

(** ** Collaborators that answer as told *)

Module Scenario.

(** What each collaborator answers, at any time. *)
Record Answers := {
  commitsAnswer : Outcome (list RawCommit);
  contentAnswer : Outcome ContentData;
  writeAnswer : Outcome unit;
  refAnswer : jsstring -> Outcome jsstring;
  createRefAnswer : Outcome unit;
  pullAnswer : Outcome PullRequest;
  modelAnswer : Outcome (option jsstring)
}.

(** The platform that gives these answers, in the UTC time zone, with file
    contents exchanged unencoded. *)
Definition platformOf (a : Answers) : Platform :=
  {| getOctokit := fun _ =>
       {| repos_listCommits := fun _ _ _ _ _ => commitsAnswer a;
          repos_getContent := fun _ _ _ _ _ => contentAnswer a;
          repos_createOrUpdateFileContents := fun _ _ _ _ _ _ _ _ => writeAnswer a;
          git_getRef := fun _ _ ref _ => refAnswer a ref;
          git_createRef := fun _ _ _ _ _ => createRefAnswer a;
          pulls_create := fun _ _ _ _ _ _ _ => pullAnswer a |};
     generateContent := fun _ _ _ _ => modelAnswer a;
     parseFallback := fun _ => None;
     LocalTZA := fun _ => 0%Z;
     base64Decode := fun s => s;
     base64Encode := fun s => s |}.

Definition serverError : JsError :=
  {| err_message := js "Server Error"; err_status := Some 500%Z |}.

Definition pull7 : PullRequest :=
  {| number := 7%Z; html_url := js "https://example.test/pull/7" |}.

(** Everything succeeds: two commits, no CHANGELOG.md yet. *)
Definition allGood : Answers :=
  {| commitsAnswer := Resolved Example.twoCommits;
     contentAnswer := Rejected Example.notFound;
     writeAnswer := Resolved tt;
     refAnswer := fun ref => Resolved (js "sha-of-" ++ ref);
     createRefAnswer := Resolved tt;
     pullAnswer := Resolved pull7;
     modelAnswer := Resolved (Some (js "### 01.01.2024 - 07.01.2024\n\n- fix")) |}.

(** The same with one collaborator failing. *)
Definition refsFail : Answers :=
  {| commitsAnswer := commitsAnswer allGood;
     contentAnswer := contentAnswer allGood;
     writeAnswer := writeAnswer allGood;
     refAnswer := fun _ => Rejected serverError;
     createRefAnswer := createRefAnswer allGood;
     pullAnswer := pullAnswer allGood;
     modelAnswer := modelAnswer allGood |}.

Definition commitsFail : Answers :=
  {| commitsAnswer := Rejected serverError;
     contentAnswer := contentAnswer allGood;
     writeAnswer := writeAnswer allGood;
     refAnswer := refAnswer allGood;
     createRefAnswer := createRefAnswer allGood;
     pullAnswer := pullAnswer allGood;
     modelAnswer := modelAnswer allGood |}.

Definition modelFails : Answers :=
  {| commitsAnswer := commitsAnswer allGood;
     contentAnswer := contentAnswer allGood;
     writeAnswer := writeAnswer allGood;
     refAnswer := refAnswer allGood;
     createRefAnswer := createRefAnswer allGood;
     pullAnswer := pullAnswer allGood;
     modelAnswer := Rejected serverError |}.

(** The model service answers, but its response carries no text. *)
Definition modelSilent : Answers :=
  {| commitsAnswer := commitsAnswer allGood;
     contentAnswer := contentAnswer allGood;
     writeAnswer := writeAnswer allGood;
     refAnswer := refAnswer allGood;
     createRefAnswer := createRefAnswer allGood;
     pullAnswer := pullAnswer allGood;
     modelAnswer := Resolved None |}.

Definition writeFails : Answers :=
  {| commitsAnswer := commitsAnswer allGood;
     contentAnswer := contentAnswer allGood;
     writeAnswer := Rejected serverError;
     refAnswer := refAnswer allGood;
     createRefAnswer := createRefAnswer allGood;
     pullAnswer := pullAnswer allGood;
     modelAnswer := modelAnswer allGood |}.

Definition pullFails : Answers :=
  {| commitsAnswer := commitsAnswer allGood;
     contentAnswer := contentAnswer allGood;
     writeAnswer := writeAnswer allGood;
     refAnswer := refAnswer allGood;
     createRefAnswer := createRefAnswer allGood;
     pullAnswer := Rejected serverError;
     modelAnswer := modelAnswer allGood |}.

(** The environment of the examples without the token of the hosting API. *)
Definition noToken : Env :=
  {| GITHUB_TOKEN := None;
     GOOGLE_API_KEY := GOOGLE_API_KEY Example.env;
     INPUT_COMMIT_COUNT := INPUT_COMMIT_COUNT Example.env;
     INPUT_BRANCH := INPUT_BRANCH Example.env;
     GITHUB_BASE_REF := GITHUB_BASE_REF Example.env;
     GITHUB_REPOSITORY := GITHUB_REPOSITORY Example.env;
     now_toISOString := now_toISOString Example.env |}.

End Scenario.

(** ** The stages of a run, for the further properties *)

Module Pipeline.

(** What the catch block of [run] does with an error. *)
Definition failureReport (e : JsError) : Trace :=
  [CoreSetFailed (js "Action failed with error: " ++ err_message e);
   ConsoleError None e].

(** The body of the pull request for a number of commits. *)
Definition pullBody (n : nat) : jsstring :=
  js "This PR updates the CHANGELOG.md with recent changes analyzed by AI.\n\nGenerated from the last "
  ++ digitsOfNat n ++ js " commits.".

Section Stages.

Variable getRepoInfo : Env -> jsstring * option jsstring.
Variable getRecentCommits :
  jsstring -> jsstring -> option jsstring -> option jsstring ->
  option JsNumber -> Async (list RawCommit).
Variable getFileContent :
  jsstring -> jsstring -> option jsstring -> jsstring -> option jsstring ->
  Async (option jsstring).
Variable generateChangelogWithAI :
  option (list Commit) -> option jsstring -> option jsstring -> Async jsstring.
Variable formatChangelogEntry : jsstring -> option jsstring -> jsstring.
Variable updateChangelogFile :
  jsstring -> option jsstring -> option jsstring -> Sync MergeResult.
Variable getCommitsForChangelog : list RawCommit -> list Commit.

(** The Fetcher returns the non-empty [commits]; [tr1] is the trace when
    [run] has logged their number and that it calls the Summarizer. *)
Definition fetched (env : Env) (token owner : jsstring) (repo : option jsstring)
  (tr : Trace) (commits : list RawCommit) (tr1 : Trace) : Prop :=
  configured getRepoInfo env token owner repo
  /\ commits <> []
  /\ exists tr0,
       getRecentCommits token owner repo (Some (targetBranch env))
         (Some (commitCount env)) (tr ++ preamble env owner repo)
       = (tr0, Resolved commits)
       /\ tr1 = tr0 ++ [ConsoleLog (js "Found " ++ digitsOfNat (length commits)
                                    ++ js " commits to analyze");
                        ConsoleLog (js "Generating changelog with AI...")].

(** Fetcher and Summarizer succeed; [tr2] is the trace when [run] has
    logged that it reads the existing file. *)
Definition summarized (env : Env) (token owner : jsstring)
  (repo : option jsstring) (tr : Trace) (commits : list RawCommit)
  (aiChangelog : jsstring) (tr2 : Trace) : Prop :=
  exists tr1 tr1',
    fetched env token owner repo tr commits tr1
    /\ generateChangelogWithAI (Some (getCommitsForChangelog commits))
         (GOOGLE_API_KEY env) repo tr1
       = (tr1', Resolved aiChangelog)
    /\ tr2 = tr1' ++ [ConsoleLog (js "Fetching existing CHANGELOG.md from repository...")].

(** Fetcher, Summarizer and the read of the file succeed and the Merger
    reports a change with [content]; [tr3] is the trace when the Merger
    has returned and [run] has logged the branch it creates. *)
Definition merged (env : Env) (token owner : jsstring) (repo : option jsstring)
  (tr : Trace) (commits : list RawCommit) (content : jsstring) (tr3 : Trace)
  : Prop :=
  exists aiChangelog tr2 tr2' existing,
    summarized env token owner repo tr commits aiChangelog tr2
    /\ getFileContent token owner repo (js "CHANGELOG.md")
         (Some (targetBranch env)) tr2
       = (tr2', Resolved existing)
    /\ returned
         (updateChangelogFile (formatChangelogEntry aiChangelog repo) repo
            (or_else existing (Some (js ""))))
       = {| SumarizeChangelog.content := content; hasChanges := true |}
    /\ tr3 = tr2'
             ++ logs (updateChangelogFile (formatChangelogEntry aiChangelog repo)
                        repo (or_else existing (Some (js ""))))
             ++ [ConsoleLog (js "Creating branch: " ++ branchName env)].

End Stages.

End Pipeline.

Import Pipeline.

(** ** What a run asks of the repository, and how it ends *)

Module Protocol.

(** The events that count: the three requests that change the repository,
    an output of the action, and the failure signal. *)
Inductive Mark := Branch | File | Pull | Output | Failed.

Definition mark (ev : Event) : option Mark :=
  match ev with
  | CreateRef _ _ _ _ => Some Branch
  | CreateOrUpdateFileContents _ _ _ _ _ _ _ => Some File
  | PullsCreate _ _ _ _ _ _ => Some Pull
  | CoreSetOutput _ _ => Some Output
  | CoreSetFailed _ => Some Failed
  | _ => None
  end.

Fixpoint marks (tr : Trace) : list Mark :=
  match tr with
  | [] => []
  | ev :: tr' =>
      match mark ev with
      | Some m => m :: marks tr'
      | None => marks tr'
      end
  end.

(** A computation only appends to the trace, and what it appends shows one
    of the given sequences of marks. *)
Definition leaves {A} (m : Async A) (options : list (list Mark)) : Prop :=
  forall tr, exists added,
    fst (m tr) = tr ++ added /\ In (marks added) options.

(** The courses a run can take. *)
Definition courses : list (list Mark) :=
  [ [];
    [Failed];
    [Branch; Failed];
    [File; Failed];
    [Branch; File; Failed];
    [File; Pull; Failed];
    [Branch; File; Pull; Failed];
    [File; Pull; Output; Output];
    [Branch; File; Pull; Output; Output] ].

End Protocol.

Import Protocol.

(** ** Lemmas on strings *)

Section StringLemmas.

Lemma startsWith_app (t r : jsstring) : startsWith (t ++ r) t = true.
Proof.
  induction t as [|b t IH]; simpl; [reflexivity|].
  now rewrite N.eqb_refl, IH.
Qed.

Lemma startsWith_inv (s t : jsstring) :
  startsWith s t = true -> exists r, s = t ++ r.
Proof.
  revert s; induction t as [|b t IH]; intros s H; simpl in *.
  - now exists s.
  - destruct s as [|a s]; [discriminate|].
    apply andb_prop in H as [Hab Hst].
    apply N.eqb_eq in Hab; subst b.
    destruct (IH _ Hst) as [r ->]. now exists r.
Qed.

Lemma indexOfFrom_Some (s t : jsstring) (i j : nat) :
  indexOfFrom s t i = Some j ->
  exists before after,
    s = before ++ t ++ after /\ j = i + length before.
Proof.
  revert i; induction s as [|a s IH]; intros i H.
  - simpl in H. destruct (startsWith [] t) eqn:E; [|discriminate].
    injection H as <-. apply startsWith_inv in E as [r Hr].
    exists [], r. simpl. split; [assumption|lia].
  - simpl in H. destruct (startsWith (a :: s) t) eqn:E.
    + injection H as <-. apply startsWith_inv in E as [r Hr].
      exists [], r. simpl. split; [assumption|lia].
    + destruct (IH _ H) as (before & after & -> & ->).
      exists (a :: before), after. simpl. split; [reflexivity|lia].
Qed.

Lemma indexOfFrom_app (before t after : jsstring) (i : nat) :
  exists j, indexOfFrom (before ++ t ++ after) t i = Some j.
Proof.
  revert i; induction before as [|a before IH]; intros i.
  - simpl app. exists i.
    destruct (t ++ after) eqn:E; simpl; rewrite <- E, startsWith_app; reflexivity.
  - simpl. destruct (startsWith (a :: before ++ t ++ after) t).
    + now exists i.
    + apply IH.
Qed.

Lemma includes_iff (s t : jsstring) :
  includes s t = true <-> exists before after, s = before ++ t ++ after.
Proof.
  unfold includes, indexOf. split.
  - destruct (indexOfFrom s t 0) eqn:E; [|discriminate]. intros _.
    destruct (indexOfFrom_Some _ _ _ E) as (b & a & H & _). now exists b, a.
  - intros (b & a & ->). destruct (indexOfFrom_app b t a 0) as [j ->].
    reflexivity.
Qed.

Lemma includes_trans (s t u : jsstring) :
  includes s t = true -> includes t u = true -> includes s u = true.
Proof.
  rewrite !includes_iff. intros (b & a & ->) (b' & a' & ->).
  exists (b ++ b'), (a' ++ a). now rewrite <- !app_assoc.
Qed.

Lemma indexOf_Some (s t : jsstring) (i : nat) :
  indexOf s t = Some i ->
  s = firstn i s ++ t ++ skipn (i + length t) s.
Proof.
  intros H. apply indexOfFrom_Some in H as (b & a & -> & ->). simpl.
  rewrite firstn_app, Nat.sub_diag, firstn_all. simpl. rewrite app_nil_r.
  rewrite app_assoc, skipn_app, length_app.
  rewrite <- length_app, skipn_all, Nat.sub_diag. simpl.
  now rewrite <- app_assoc.
Qed.

Lemma indexOfFrom_min (s t : jsstring) (i j : nat) :
  indexOfFrom s t i = Some j ->
  forall before after, s = before ++ t ++ after -> j <= i + length before.
Proof.
  revert i; induction s as [|c s IH]; intros i H before after Hs.
  - simpl in H. destruct (startsWith [] t); [|discriminate].
    injection H as <-. lia.
  - simpl in H. destruct (startsWith (c :: s) t) eqn:E.
    + injection H as <-. lia.
    + destruct before as [|b before].
      * simpl in Hs. rewrite Hs, startsWith_app in E. discriminate.
      * simpl in Hs. injection Hs as _ Hs.
        specialize (IH _ H _ _ Hs). simpl. lia.
Qed.

Lemma forallb_rev (p : N -> bool) (s : jsstring) :
  forallb p (rev s) = forallb p s.
Proof.
  induction s as [|a s IH]; simpl; [reflexivity|].
  rewrite forallb_app, IH. simpl. rewrite andb_true_r. apply andb_comm.
Qed.

Lemma dropWhile_nil_iff (p : N -> bool) (s : jsstring) :
  dropWhile p s = [] <-> forallb p s = true.
Proof.
  induction s as [|a s IH]; simpl; [tauto|].
  destruct (p a); simpl; [assumption|]. split; discriminate.
Qed.

Lemma dropWhile_forallb (p : N -> bool) (s : jsstring) :
  forallb p s = false -> forallb p (dropWhile p s) = false.
Proof.
  induction s as [|a s IH]; simpl; [trivial|].
  destruct (p a) eqn:E; simpl; [assumption|]. now rewrite E.
Qed.

(** A string trims to the empty string exactly when it consists of white
    space only. *)
Lemma trim_nil_iff (s : jsstring) :
  trim s = [] <-> forallb isWhiteSpace s = true.
Proof.
  unfold trim, trimEnd, trimStart. split.
  - intros H. apply (f_equal (@rev N)) in H. rewrite rev_involutive in H.
    simpl in H. apply dropWhile_nil_iff in H. rewrite forallb_rev in H.
    destruct (forallb isWhiteSpace s) eqn:E; [reflexivity|].
    apply dropWhile_forallb in E. congruence.
  - intros H. apply dropWhile_nil_iff in H. rewrite H. reflexivity.
Qed.

Lemma eqb_eq (s t : jsstring) : JS.eqb s t = true <-> s = t.
Proof.
  revert t; induction s as [|a s IH]; intros [|b t]; simpl;
    try (split; [discriminate|discriminate]); [tauto|].
  rewrite andb_true_iff, N.eqb_eq, IH. split.
  - now intros [-> ->].
  - intros H; injection H; auto.
Qed.

Lemma trimEnd_app_ws (x w : jsstring) :
  forallb isWhiteSpace w = true -> trimEnd (x ++ w) = trimEnd x.
Proof.
  intros H. unfold trimEnd. rewrite rev_app_distr. f_equal.
  rewrite <- forallb_rev in H.
  induction (rev w) as [|a l IH]; simpl in *; [reflexivity|].
  apply andb_prop in H as [-> H]. auto.
Qed.

Lemma trimEnd_last (x : jsstring) (c : N) :
  isWhiteSpace c = false -> trimEnd (x ++ [c]) = x ++ [c].
Proof.
  intros H. unfold trimEnd. rewrite rev_app_distr. simpl. rewrite H.
  simpl. now rewrite rev_involutive.
Qed.

Lemma trim_header (repoName : option jsstring) :
  trim (header repoName) = headerLine repoName.
Proof.
  assert (Hs : trimStart (header repoName) = header repoName) by reflexivity.
  unfold trim. rewrite Hs. unfold header.
  rewrite trimEnd_app_ws by reflexivity.
  unfold headerLine.
  change (js " - Changelog") with (js " - Changelo" ++ [103%N]).
  rewrite !app_assoc. apply trimEnd_last. reflexivity.
Qed.

(** The first element of a split is the text before the first separator. *)
Lemma split_head (sep : N) (s : jsstring) :
  exists rest,
    s = nth 0 (split sep s) [] ++ rest
    /\ ~ In sep (nth 0 (split sep s) [])
    /\ (rest = [] \/ exists r, rest = sep :: r).
Proof.
  induction s as [|c s IH].
  - exists []. simpl. auto.
  - simpl. destruct (N.eqb_spec c sep) as [->|Hne].
    + exists (sep :: s). simpl. split; [reflexivity|]. split; [tauto|].
      right. now exists s.
    + destruct IH as (rest & Hs & Hnot & Hrest).
      destruct (split sep s) as [|l ls] eqn:E.
      * simpl in *. exists rest. split; [now rewrite Hs at 1|].
        split; [|assumption]. intros [H|[]]. congruence.
      * simpl in *. exists rest. split; [now rewrite Hs at 1|].
        split; [|assumption]. intros [H|H]; [congruence|tauto].
Qed.

End StringLemmas.

(** ** The newline normalization of [formatChangelogEntry] *)

Section NewlineNormalization.

Lemma matchHere_star (p : N -> bool) (s : jsstring) (pos gs ge : nat) :
  matchHere [Star p] s pos gs ge = Some (pos + lead p s, gs, ge).
Proof.
  revert pos; induction s as [|c s IH]; intros pos.
  - simpl. now rewrite Nat.add_0_r.
  - simpl in *. destruct (p c).
    + rewrite IH. do 3 f_equal. lia.
    + now rewrite Nat.add_0_r.
Qed.

Lemma matchHere_class_nil (p : N -> bool) (re : regex) (pos gs ge : nat) :
  matchHere (Class p :: re) [] pos gs ge = None.
Proof. reflexivity. Qed.

Lemma matchHere_class_cons (p : N -> bool) (re : regex) (x : N) (s : jsstring)
  (pos gs ge : nat) :
  matchHere (Class p :: re) (x :: s) pos gs ge =
  if p x then matchHere re s (S pos) gs ge else None.
Proof. reflexivity. Qed.

Lemma matchHere_newlines (s : jsstring) :
  matchHere threeOrMoreNewlines s 0 0 0 =
  if 3 <=? lead (only NL) s then Some (lead (only NL) s, 0, 0) else None.
Proof.
  change threeOrMoreNewlines
    with [Class (only NL); Class (only NL); Class (only NL); Star (only NL)].
  destruct s as [|a s]; [reflexivity|].
  rewrite matchHere_class_cons. cbn [lead].
  destruct (only NL a); [|reflexivity].
  destruct s as [|b s]; [reflexivity|].
  rewrite matchHere_class_cons. cbn [lead].
  destruct (only NL b); [|reflexivity].
  destruct s as [|c s]; [reflexivity|].
  rewrite matchHere_class_cons. cbn [lead].
  destruct (only NL c); [|reflexivity].
  rewrite matchHere_star. reflexivity.
Qed.

Lemma replaceFrom_skip (re : regex) (rep s : jsstring) (k : nat) :
  k <= length s ->
  replaceFrom re rep s k = replaceFrom re rep (skipn k s) 0.
Proof.
  revert k; induction s as [|x s IH]; intros k Hk.
  - simpl in Hk. assert (k = 0) as -> by lia. reflexivity.
  - destruct k as [|k]; [reflexivity|].
    simpl. simpl in Hk. apply IH. lia.
Qed.

Lemma lead_le_length (p : N -> bool) (s : jsstring) : lead p s <= length s.
Proof.
  induction s as [|c s IH]; simpl; [lia|]. destruct (p c); lia.
Qed.

(** The equations of the normalization. *)
Lemma collapseNewlines_nil : collapseNewlines [] = [].
Proof. reflexivity. Qed.

Lemma collapseNewlines_cons (x : N) (s : jsstring) :
  collapseNewlines (x :: s) =
  if 3 <=? lead (only NL) (x :: s)
  then js "\n\n" ++ collapseNewlines (skipn (lead (only NL) (x :: s)) (x :: s))
  else x :: collapseNewlines s.
Proof.
  unfold collapseNewlines, replaceAll.
  cbn [replaceFrom]. rewrite matchHere_newlines.
  destruct (3 <=? lead (only NL) (x :: s)) eqn:E; [|reflexivity].
  apply Nat.leb_le in E.
  destruct (lead (only NL) (x :: s)) as [|e] eqn:El; [lia|].
  rewrite replaceFrom_skip; [reflexivity|].
  pose proof (lead_le_length (only NL) (x :: s)) as H. rewrite El in H.
  simpl in H. lia.
Qed.

Lemma lead_skipn (p : N -> bool) (s : jsstring) :
  lead p (skipn (lead p s) s) = 0.
Proof.
  induction s as [|c s IH]; simpl; [reflexivity|].
  destruct (p c) eqn:E; simpl; [assumption|]. now rewrite E.
Qed.

Lemma lead_collapse_short (s : jsstring) :
  lead (only NL) s < 3 ->
  lead (only NL) (collapseNewlines s) = lead (only NL) s.
Proof.
  induction s as [|x s IH]; intros H; [reflexivity|].
  rewrite collapseNewlines_cons.
  destruct (3 <=? lead (only NL) (x :: s)) eqn:E.
  - apply Nat.leb_le in E. lia.
  - simpl in *. destruct (only NL x); [|reflexivity].
    f_equal. apply IH. lia.
Qed.

Lemma noTriple_collapse (s : jsstring) : noTriple (collapseNewlines s) = true.
Proof.
  remember (length s) as n eqn:Hn. revert s Hn.
  induction n as [n IH] using lt_wf_ind. intros s Hn.
  destruct s as [|x s]; [reflexivity|].
  rewrite collapseNewlines_cons.
  destruct (3 <=? lead (only NL) (x :: s)) eqn:E.
  - set (r := skipn (lead (only NL) (x :: s)) (x :: s)).
    assert (Hr : lead (only NL) (collapseNewlines r) = 0).
    { rewrite lead_collapse_short; unfold r; rewrite lead_skipn; lia. }
    assert (Hlen : length r < n).
    { unfold r. rewrite length_skipn. apply Nat.leb_le in E.
      subst n. simpl length in *. lia. }
    change (js "\n\n" ++ collapseNewlines r)
      with (NL :: NL :: collapseNewlines r).
    cbn [noTriple lead]. change (only NL NL) with true. cbn iota.
    rewrite Hr. rewrite (IH _ Hlen r eq_refl). reflexivity.
  - cbn [noTriple]. rewrite (IH (length s)); [|subst n; simpl; lia|reflexivity].
    rewrite andb_true_r. apply Nat.ltb_lt.
    apply Nat.leb_gt in E. simpl in *.
    destruct (only NL x); [|lia].
    rewrite lead_collapse_short; lia.
Qed.

Lemma collapse_noTriple (s : jsstring) :
  noTriple s = true -> collapseNewlines s = s.
Proof.
  induction s as [|x s IH]; intros H; [reflexivity|].
  cbn [noTriple] in H. apply andb_prop in H as [H1 H2].
  rewrite collapseNewlines_cons. apply Nat.ltb_lt in H1.
  destruct (3 <=? lead (only NL) (x :: s)) eqn:E.
  - apply Nat.leb_le in E. lia.
  - f_equal. auto.
Qed.

End NewlineNormalization.

(** C10.  Collapsing runs of three or more line feeds to two, as
    [formatChangelogEntry] does with [replace(/\n{3,}/g, "\n\n")], is
    idempotent: applied twice it yields the same text as applied once. *)
Theorem newline_normalization_idempotent (s : jsstring) :
  replaceAll (replaceAll s threeOrMoreNewlines (js "\n\n"))
    threeOrMoreNewlines (js "\n\n")
  = replaceAll s threeOrMoreNewlines (js "\n\n").
Proof.
  apply (collapse_noTriple (collapseNewlines s)), noTriple_collapse.
Qed.

(** ** The date-range pattern *)

Section Pattern.

Lemma matchHere_chr (c : N) (re : regex) (s : jsstring) (pos gs ge : nat) :
  matchHere (Chr c :: re) (c :: s) pos gs ge = matchHere re s (S pos) gs ge.
Proof. simpl. now rewrite N.eqb_refl. Qed.

Lemma matchHere_class (p : N -> bool) (re : regex) (x : N) (s : jsstring)
  (pos gs ge : nat) :
  p x = true ->
  matchHere (Class p :: re) (x :: s) pos gs ge = matchHere re s (S pos) gs ge.
Proof. intros H. simpl. now rewrite H. Qed.

(** A greedy star takes the whole run of its class when what follows the
    run matches the rest of the pattern. *)
Lemma matchHere_star_greedy (p : N -> bool) (re : regex) (w s : jsstring)
  (pos gs ge : nat) (r : nat * nat * nat) :
  forallb p w = true ->
  lead p s = 0 ->
  matchHere re s (pos + length w) gs ge = Some r ->
  matchHere (Star p :: re) (w ++ s) pos gs ge = Some r.
Proof.
  revert pos; induction w as [|x w IH]; intros pos Hw Hs Hr.
  - simpl in Hr. rewrite Nat.add_0_r in Hr. simpl app.
    destruct s as [|y s]; simpl; [assumption|].
    simpl in Hs. destruct (p y); [discriminate|assumption].
  - simpl in Hw. apply andb_prop in Hw as [Hx Hw].
    specialize (IH (S pos) Hw Hs).
    simpl length in Hr. rewrite Nat.add_succ_r in Hr. specialize (IH Hr).
    simpl in *. rewrite Hx, IH. reflexivity.
Qed.

Lemma isDigit_not_space (c : N) : isDigit c = true -> isWhiteSpace c = false.
Proof.
  unfold isDigit, isWhiteSpace. intros H.
  apply andb_prop in H as [H1 H2]. apply N.leb_le in H1, H2.
  replace (c <=? 13)%N with false by (symmetry; apply N.leb_gt; lia).
  replace (8192 <=? c)%N with false by (symmetry; apply N.leb_gt; lia).
  repeat match goal with
         | |- context [(c =? ?b)%N] =>
             replace (c =? b)%N with false by (symmetry; apply N.eqb_neq; lia)
         end.
  now rewrite andb_false_r.
Qed.

Lemma isDateText_length (d : jsstring) : isDateText d = true -> length d = 10.
Proof.
  destruct d as [|? [|? [|? [|? [|? [|? [|? [|? [|? [|? [|? ?]]]]]]]]]]];
    try discriminate. reflexivity.
Qed.

Lemma isDateText_lead (d s : jsstring) :
  isDateText d = true -> lead isWhiteSpace (d ++ s) = 0.
Proof.
  destruct d as [|c d]; [discriminate|]. intros H.
  assert (Hc : isDigit c = true).
  { destruct d as [|? [|? [|? [|? [|? [|? [|? [|? [|? [|? ?]]]]]]]]]];
      try discriminate.
    simpl in H. rewrite !andb_true_iff in H. tauto. }
  simpl. now rewrite (isDigit_not_space c Hc).
Qed.

Lemma matchHere_dayMonthYear (re : regex) (d s : jsstring) (pos gs ge : nat) :
  isDateText d = true ->
  matchHere (dayMonthYear ++ re) (d ++ s) pos gs ge
  = matchHere re s (pos + 10) gs ge.
Proof.
  intros H.
  destruct d as [|? [|? [|? [|? [|? [|? [|? [|? [|? [|? [|? ?]]]]]]]]]]];
    try discriminate.
  simpl in H. rewrite !andb_true_iff, !N.eqb_eq in H.
  destruct H as [[[[[[[[[? ?] ->] ?] ?] ->] ?] ?] ?] ?].
  change (dayMonthYear ++ re)
    with (Class isDigit :: Class isDigit :: Chr 46 :: Class isDigit
          :: Class isDigit :: Chr 46 :: Class isDigit :: Class isDigit
          :: Class isDigit :: Class isDigit :: re).
  cbn [app].
  repeat first [rewrite matchHere_chr | rewrite matchHere_class by assumption].
  f_equal. lia.
Qed.

(** On a heading [###], white space, a date range, the pattern matches at
    the head and captures the date range. *)
Lemma matchHere_heading (ws d rest : jsstring) :
  ws <> [] -> forallb isWhiteSpace ws = true -> isDateRange d ->
  matchHere dateRangePattern (js "###" ++ ws ++ d ++ rest) 0 0 0
  = Some (3 + length ws + length d, 3 + length ws, 3 + length ws + length d).
Proof.
  intros Hne Hws (from & sp1 & sp2 & to & -> & Hfrom & Hto & Hsp1 & Hsp2).
  destruct ws as [|w ws]; [congruence|]. simpl in Hws.
  apply andb_prop in Hws as [Hw Hws].
  change dateRangePattern
    with (Chr 35 :: Chr 35 :: Chr 35 :: Class isWhiteSpace :: Star isWhiteSpace
          :: GroupOpen
          :: dayMonthYear
             ++ Star isWhiteSpace :: Chr 45 :: Star isWhiteSpace
             :: dayMonthYear ++ [GroupClose]).
  change (js "###" ++ (w :: ws) ++ ?x) with (35%N :: 35%N :: 35%N :: w :: ws ++ x).
  rewrite !matchHere_chr, matchHere_class by assumption.
  rewrite <- !app_assoc.
  pose proof (isDateText_length _ Hfrom) as Lf.
  pose proof (isDateText_length _ Hto) as Lt.
  apply matchHere_star_greedy; [assumption|now apply isDateText_lead|].
  cbn [matchHere]. rewrite matchHere_dayMonthYear by assumption.
  apply matchHere_star_greedy; [assumption|reflexivity|].
  change (js "-" ++ sp2 ++ to ++ rest) with (45%N :: sp2 ++ to ++ rest).
  rewrite matchHere_chr.
  apply matchHere_star_greedy; [assumption|now apply isDateText_lead|].
  rewrite matchHere_dayMonthYear by assumption.
  cbn [matchHere]. rewrite !length_app, Lf, Lt. simpl length.
  do 2 f_equal; [f_equal|]; lia.
Qed.

Lemma matchFrom_here (re : regex) (s : jsstring) (i e gs ge : nat) :
  matchHere re s 0 0 0 = Some (e, gs, ge) ->
  matchFrom re s i
  = Some {| index := i; matched := firstn e s; group1 := substring s gs ge |}.
Proof. intros H. destruct s; simpl; rewrite H; reflexivity. Qed.

Lemma dateRangeOf_heading (ws d rest : jsstring) :
  ws <> [] -> forallb isWhiteSpace ws = true -> isDateRange d ->
  dateRangeOf (js "###" ++ ws ++ d ++ rest) = Some d.
Proof.
  intros Hne Hws Hd. unfold dateRangeOf, match_.
  rewrite (matchFrom_here _ _ 0 (matchHere_heading rest Hne Hws Hd)).
  simpl option_map. f_equal. unfold substring.
  change (js "###" ++ ws ++ d ++ rest) with (35%N :: 35%N :: 35%N :: ws ++ d ++ rest).
  cbn [Nat.add skipn].
  rewrite skipn_app, skipn_all, Nat.sub_diag. cbn [skipn app].
  replace (S (S (S (length ws + length d))) - S (S (S (length ws))))
    with (length d) by lia.
  rewrite firstn_app, firstn_all, Nat.sub_diag. cbn [firstn].
  apply app_nil_r.
Qed.

End Pattern.

(** ** The Merger *)

Section Merger.

Lemma header_eq (repoName : option jsstring) :
  js "## " ++ interpolate repoName ++ js " - Changelog\n\n" = header repoName.
Proof.
  unfold header, headerLine. now rewrite <- !app_assoc.
Qed.

Lemma includes_forallb (p : N -> bool) (s t : jsstring) :
  includes s t = true -> forallb p t = false -> forallb p s = false.
Proof.
  intros H Ht. apply includes_iff in H as (b & a & ->).
  rewrite !forallb_app, Ht. simpl. apply andb_false_r.
Qed.

Lemma header_includes_line (repoName : option jsstring) :
  includes (header repoName) (headerLine repoName) = true.
Proof.
  apply includes_iff. exists [], (js "\n\n"). reflexivity.
Qed.

Lemma header_not_blank (repoName : option jsstring) :
  forallb isWhiteSpace (headerLine repoName) = false.
Proof. reflexivity. Qed.

Lemma indexOf_first (s t : jsstring) (i : nat) :
  indexOf s t = Some i ->
  exists before after,
    s = before ++ t ++ after /\ i = length before
    /\ skipn (i + length t) s = after.
Proof.
  intros H. apply indexOfFrom_Some in H as (b & a & -> & ->).
  exists b, a. split; [reflexivity|]. split; [reflexivity|].
  replace (0 + length b + length t) with (length (b ++ t))
    by (rewrite length_app; lia).
  now rewrite app_assoc, skipn_app, skipn_all, Nat.sub_diag.
Qed.

(** The three ways [updateChangelogFile] answers. *)
Lemma update_duplicate (newEntry : jsstring) (repoName : option jsstring)
  (existing d : jsstring) :
  dateRangeOf newEntry = Some d ->
  includes existing d = true ->
  returned (updateChangelogFile newEntry repoName (Some existing))
  = {| content := existing; hasChanges := false |}.
Proof.
  unfold dateRangeOf, updateChangelogFile. simpl withDefault.
  destruct (match_ newEntry dateRangePattern) as [m|]; [|discriminate].
  simpl. intros [= <-] ->. reflexivity.
Qed.

Lemma update_fresh (newEntry : jsstring) (repoName : option jsstring)
  (existing : jsstring) :
  (forall d, dateRangeOf newEntry = Some d -> includes existing d = false) ->
  returned (updateChangelogFile newEntry repoName (Some existing))
  = {| content :=
         if JS.eqb (trim existing) (js "")
            || negb (includes existing (headerLine repoName))
         then header repoName ++ newEntry
         else match indexOf existing (header repoName) with
              | Some headerIndex =>
                  header repoName ++ newEntry ++ js "\n\n"
                  ++ skipn (headerIndex + length (header repoName)) existing
              | None => header repoName ++ newEntry ++ js "\n\n" ++ existing
              end;
       hasChanges := true |}.
Proof.
  intros H. unfold dateRangeOf in H. unfold updateChangelogFile.
  simpl withDefault. cbv zeta. rewrite !header_eq, trim_header.
  destruct (match_ newEntry dateRangePattern) as [m|].
  - rewrite (H _ eq_refl). reflexivity.
  - reflexivity.
Qed.

End Merger.

(** C1.  Merger idempotence: when the pattern extracts a date range from
    the new entry and the existing document already contains that date
    range, [updateChangelogFile] answers [hasChanges = false] with the
    existing document as content, and does so however many times its
    answer is merged again.  This is the case of every entry that begins
    with a heading [###], white space, [DD.MM.YYYY - DD.MM.YYYY]. *)
Theorem merger_idempotence :
  (forall (newEntry : jsstring) (repoName : option jsstring)
          (existing dateRange : jsstring),
      dateRangeOf newEntry = Some dateRange ->
      includes existing dateRange = true ->
      returned (updateChangelogFile newEntry repoName (Some existing))
      = {| content := existing; hasChanges := false |}
      /\ forall n : nat,
           Nat.iter n
             (fun doc =>
                content (returned (updateChangelogFile newEntry repoName (Some doc))))
             existing = existing
           /\ hasChanges
                (returned (updateChangelogFile newEntry repoName
                   (Some (Nat.iter n
                            (fun doc =>
                               content
                                 (returned
                                    (updateChangelogFile newEntry repoName
                                       (Some doc))))
                            existing)))) = false)
  /\ (forall (ws dateRange rest : jsstring) (repoName : option jsstring)
             (existing : jsstring),
         ws <> [] -> forallb isWhiteSpace ws = true -> isDateRange dateRange ->
         includes existing dateRange = true ->
         returned (updateChangelogFile (js "###" ++ ws ++ dateRange ++ rest) repoName
           (Some existing))
         = {| content := existing; hasChanges := false |}).
Proof.
  split.
  - intros newEntry repoName existing dateRange Hd Hin.
    pose proof (update_duplicate newEntry repoName existing Hd Hin) as Hu.
    split; [exact Hu|].
    assert (Hit : forall n, Nat.iter n
       (fun doc =>
          content (returned (updateChangelogFile newEntry repoName (Some doc))))
       existing = existing).
    { induction n as [|n IH]; simpl; [reflexivity|]. rewrite IH, Hu. reflexivity. }
    intros n. split; [apply Hit|]. rewrite Hit, Hu. reflexivity.
  - intros ws dateRange rest repoName existing Hne Hws Hd Hin.
    apply update_duplicate with (d := dateRange); [|assumption].
    now apply dateRangeOf_heading.
Qed.

Lemma merger_idempotence_witness :
  (dateRangeOf (js "### 01.01.2024 - 07.01.2024\n- did stuff")
   = Some (js "01.01.2024 - 07.01.2024")
   /\ includes (js "## demo - Changelog\n\n### 01.01.2024 - 07.01.2024\n- did stuff")
        (js "01.01.2024 - 07.01.2024") = true
   /\ returned (updateChangelogFile (js "### 01.01.2024 - 07.01.2024\n- did stuff")
        (Some (js "demo"))
        (Some (js "## demo - Changelog\n\n### 01.01.2024 - 07.01.2024\n- did stuff")))
      = {| content := js "## demo - Changelog\n\n### 01.01.2024 - 07.01.2024\n- did stuff";
           hasChanges := false |})
  /\ (js " " <> []
      /\ forallb isWhiteSpace (js " ") = true
      /\ isDateRange (js "01.01.2024 - 07.01.2024")
      /\ includes (js "see 01.01.2024 - 07.01.2024") (js "01.01.2024 - 07.01.2024")
         = true
      /\ returned (updateChangelogFile
           (js "###" ++ js " " ++ js "01.01.2024 - 07.01.2024" ++ js "\n- did stuff")
           None (Some (js "see 01.01.2024 - 07.01.2024")))
         = {| content := js "see 01.01.2024 - 07.01.2024"; hasChanges := false |}).
Proof.
  split.
  - split; [reflexivity|]. split; [reflexivity|].
    apply (proj1 merger_idempotence
             (js "### 01.01.2024 - 07.01.2024\n- did stuff") (Some (js "demo"))
             (js "## demo - Changelog\n\n### 01.01.2024 - 07.01.2024\n- did stuff")
             (js "01.01.2024 - 07.01.2024"));
      reflexivity.
  - assert (H1 : js " " <> []) by discriminate.
    assert (H2 : forallb isWhiteSpace (js " ") = true) by reflexivity.
    assert (H3 : isDateRange (js "01.01.2024 - 07.01.2024")).
    { exists (js "01.01.2024"), (js " "), (js " "), (js "07.01.2024").
      repeat split. }
    assert (H4 : includes (js "see 01.01.2024 - 07.01.2024")
                   (js "01.01.2024 - 07.01.2024") = true) by reflexivity.
    repeat (split; [assumption|]).
    exact (proj2 merger_idempotence (js " ") (js "01.01.2024 - 07.01.2024")
             (js "\n- did stuff") None (js "see 01.01.2024 - 07.01.2024")
             H1 H2 H3 H4).
Defined.

(** C3.  Insertion after the header: when the existing document contains
    the header (the line [## <repoName> - Changelog] followed by a blank
    line) and the date range of the new entry is absent from it,
    [updateChangelogFile] answers [hasChanges = true] and the content is
    the header, the new entry, a blank line, and then everything that
    followed the first occurrence of the header, unchanged.  The document
    of the specification's example yields the stated result. *)
Theorem merger_inserts_after_header :
  (forall (newEntry : jsstring) (repoName : option jsstring) (existing : jsstring),
      includes existing (header repoName) = true ->
      (forall d, dateRangeOf newEntry = Some d -> includes existing d = false) ->
      exists before after,
        existing = before ++ header repoName ++ after
        /\ (forall before' after',
              existing = before' ++ header repoName ++ after' ->
              length before <= length before')
        /\ returned (updateChangelogFile newEntry repoName (Some existing))
           = {| content := header repoName ++ newEntry ++ js "\n\n" ++ after;
                hasChanges := true |})
  /\ returned (updateChangelogFile (js "### B\n- y") (Some (js "R"))
       (Some (js "## R - Changelog\n\n### A\n- x\n")))
     = {| content := js "## R - Changelog\n\n### B\n- y\n\n### A\n- x\n";
          hasChanges := true |}.
Proof.
  split; [|reflexivity].
  intros newEntry repoName existing Hin Hfresh.
  rewrite (update_fresh _ repoName _ Hfresh).
  assert (Hline : includes existing (headerLine repoName) = true)
    by (eapply includes_trans; [eassumption|apply header_includes_line]).
  assert (Htrim : JS.eqb (trim existing) (js "") = false).
  { destruct (JS.eqb (trim existing) (js "")) eqn:E; [|reflexivity].
    apply eqb_eq, trim_nil_iff in E.
    pose proof (includes_forallb isWhiteSpace _ _ Hline
                  (header_not_blank repoName)). congruence. }
  rewrite Htrim, Hline. cbn [orb negb].
  unfold includes in Hin.
  destruct (indexOf existing (header repoName)) as [i|] eqn:Ei; [|discriminate].
  destruct (indexOf_first _ _ Ei) as (before & after & Hex & Hi & Hsk).
  exists before, after. rewrite Hsk. split; [assumption|]. split; [|reflexivity].
  intros before' after' Hex'. subst i.
  apply (@indexOfFrom_min existing (header repoName) 0 _ Ei before' after' Hex').
Qed.

Lemma merger_inserts_after_header_witness :
  includes (js "## R - Changelog\n\n### A\n- x\n") (header (Some (js "R"))) = true
  /\ (forall d, dateRangeOf (js "### 02.01.2024 - 03.01.2024\n- y") = Some d ->
        includes (js "## R - Changelog\n\n### A\n- x\n") d = false)
  /\ exists before after,
       js "## R - Changelog\n\n### A\n- x\n" = before ++ header (Some (js "R")) ++ after
       /\ (forall before' after',
             js "## R - Changelog\n\n### A\n- x\n"
             = before' ++ header (Some (js "R")) ++ after' ->
             length before <= length before')
       /\ returned
            (updateChangelogFile (js "### 02.01.2024 - 03.01.2024\n- y")
               (Some (js "R")) (Some (js "## R - Changelog\n\n### A\n- x\n")))
          = {| content := header (Some (js "R"))
                          ++ js "### 02.01.2024 - 03.01.2024\n- y" ++ js "\n\n" ++ after;
               hasChanges := true |}.
Proof.
  assert (H1 : includes (js "## R - Changelog\n\n### A\n- x\n")
                 (header (Some (js "R"))) = true) by reflexivity.
  assert (H2 : forall d,
             dateRangeOf (js "### 02.01.2024 - 03.01.2024\n- y") = Some d ->
             includes (js "## R - Changelog\n\n### A\n- x\n") d = false).
  { intros d Hd. vm_compute in Hd. injection Hd as <-. reflexivity. }
  split; [exact H1|]. split; [exact H2|].
  exact (proj1 merger_inserts_after_header _ _ _ H1 H2).
Defined.

(** C4.  Empty or headerless document: when the date range of the new
    entry is absent from the existing content, and that content is empty or
    white space only, or does not contain the header line
    [## <repoName> - Changelog], [updateChangelogFile] answers
    [hasChanges = true] with exactly the header followed by the new entry.
    The empty document of the specification's example yields the stated
    content. *)
Theorem merger_creates_document :
  (forall (newEntry : jsstring) (repoName : option jsstring) (existing : jsstring),
      (forall d, dateRangeOf newEntry = Some d -> includes existing d = false) ->
      forallb isWhiteSpace existing = true
      \/ includes existing (headerLine repoName) = false ->
      returned (updateChangelogFile newEntry repoName (Some existing))
      = {| content := header repoName ++ newEntry; hasChanges := true |})
  /\ returned (updateChangelogFile (js "### 01.01.2024 - 07.01.2024\n- did stuff")
       (Some (js "demo")) (Some (js "")))
     = {| content := js "## demo - Changelog\n\n### 01.01.2024 - 07.01.2024\n- did stuff";
          hasChanges := true |}.
Proof.
  split; [|reflexivity].
  intros newEntry repoName existing Hfresh Hcase.
  rewrite (update_fresh _ repoName _ Hfresh).
  destruct Hcase as [Hblank | Hno].
  - apply trim_nil_iff in Hblank. rewrite Hblank. reflexivity.
  - rewrite Hno. cbn [negb]. rewrite orb_true_r. reflexivity.
Qed.

Lemma merger_creates_document_witness :
  (forall d, dateRangeOf (js "### 01.01.2024 - 07.01.2024\n- did stuff") = Some d ->
     includes (js "# notes\n") d = false)
  /\ (forallb isWhiteSpace (js "# notes\n") = true
      \/ includes (js "# notes\n") (headerLine (Some (js "demo"))) = false)
  /\ returned (updateChangelogFile (js "### 01.01.2024 - 07.01.2024\n- did stuff")
       (Some (js "demo")) (Some (js "# notes\n")))
     = {| content := header (Some (js "demo"))
                     ++ js "### 01.01.2024 - 07.01.2024\n- did stuff";
          hasChanges := true |}.
Proof.
  assert (H1 : forall d,
             dateRangeOf (js "### 01.01.2024 - 07.01.2024\n- did stuff") = Some d ->
             includes (js "# notes\n") d = false).
  { intros d Hd. vm_compute in Hd. injection Hd as <-. reflexivity. }
  assert (H2 : forallb isWhiteSpace (js "# notes\n") = true
               \/ includes (js "# notes\n") (headerLine (Some (js "demo"))) = false)
    by (right; reflexivity).
  split; [exact H1|]. split; [exact H2|].
  exact (proj1 merger_creates_document _ _ _ H1 H2).
Defined.

(** The remaining case of the Merger: the document has the header line but
    not the header with its blank line; the new entry is then put, under a
    header of its own, before the whole existing content. *)
Lemma merger_prepends_to_other_header (newEntry : jsstring)
  (repoName : option jsstring) (existing : jsstring) :
  (forall d, dateRangeOf newEntry = Some d -> includes existing d = false) ->
  includes existing (headerLine repoName) = true ->
  includes existing (header repoName) = false ->
  returned (updateChangelogFile newEntry repoName (Some existing))
  = {| content := header repoName ++ newEntry ++ js "\n\n" ++ existing;
       hasChanges := true |}.
Proof.
  intros Hfresh Hline Hno.
  rewrite (update_fresh _ repoName _ Hfresh).
  assert (Htrim : JS.eqb (trim existing) (js "") = false).
  { destruct (JS.eqb (trim existing) (js "")) eqn:E; [|reflexivity].
    apply eqb_eq, trim_nil_iff in E.
    pose proof (includes_forallb isWhiteSpace _ _ Hline
                  (header_not_blank repoName)). congruence. }
  rewrite Htrim, Hline. cbn [orb negb].
  unfold includes in Hno.
  destruct (indexOf existing (header repoName)); [discriminate|reflexivity].
Qed.

(** ** Headings of a document *)

Section Headings.

Lemma split_nonempty (sep : N) (s : jsstring) : split sep s <> [].
Proof.
  destruct s as [|c s]; simpl; [discriminate|].
  destruct (c =? sep)%N; [discriminate|].
  destruct (split sep s); discriminate.
Qed.

Lemma split_app_sep (sep : N) (a b : jsstring) :
  split sep (a ++ sep :: b) = split sep a ++ split sep b.
Proof.
  induction a as [|c a IH]; simpl.
  - now rewrite N.eqb_refl.
  - destruct (c =? sep)%N; [now rewrite IH|].
    rewrite IH. pose proof (split_nonempty sep a) as Hne.
    destruct (split sep a) as [|l ls]; [congruence|reflexivity].
Qed.

Lemma split_no_sep (sep : N) (s : jsstring) :
  ~ In sep s -> split sep s = [s].
Proof.
  induction s as [|c s IH]; intros H; [reflexivity|].
  simpl. destruct (N.eqb_spec c sep) as [->|_].
  - exfalso. apply H. now left.
  - rewrite IH; [reflexivity|]. intros Hin. apply H. now right.
Qed.

Lemma includes_cons (c : N) (s t : jsstring) :
  includes s t = true -> includes (c :: s) t = true.
Proof.
  rewrite !includes_iff. intros (b & a & ->). now exists (c :: b), a.
Qed.







End Headings.




(** ** The commit projection *)

Section Projection.

Lemma or_else_present (a b : option jsstring) :
  present a -> or_else a b = a.
Proof.
  intros (s & -> & Hs). destruct s; [congruence|reflexivity].
Qed.

Lemma or_else_absent (a b : option jsstring) :
  ~ present a -> or_else a b = b.
Proof.
  intros H. destruct a as [[|c s]|]; try reflexivity.
  exfalso. apply H. exists (c :: s). split; [reflexivity|discriminate].
Qed.

End Projection.

(** C6.  Commit projection: [getCommitsForChangelog] returns a list of the
    same length as the raw list, in the same order, and the element at each
    position has the sha of the raw commit, the first line of its message
    (the text up to the first line feed), the author date if present and
    otherwise the committer date, and the author name. *)
Theorem commit_projection (commits : list RawCommit) :
  length (getCommitsForChangelog commits) = length commits
  /\ forall (i : nat) (raw : RawCommit),
       nth_error commits i = Some raw ->
       exists c,
         nth_error (getCommitsForChangelog commits) i = Some c
         /\ sha c = GitHub.sha raw
         /\ (exists rest,
               GitHub.message (GitHub.commit raw) = message c ++ rest
               /\ ~ In NL (message c)
               /\ (rest = [] \/ exists r, rest = NL :: r))
         /\ (present (GitHub.date (GitHub.author (GitHub.commit raw))) ->
             date c = GitHub.date (GitHub.author (GitHub.commit raw)))
         /\ (~ present (GitHub.date (GitHub.author (GitHub.commit raw))) ->
             date c = GitHub.date (GitHub.committer (GitHub.commit raw)))
         /\ author c = GitHub.name (GitHub.author (GitHub.commit raw)).
Proof.
  unfold getCommitsForChangelog. split; [apply length_map|].
  intros i raw Hi. eexists. split.
  - rewrite nth_error_map, Hi. reflexivity.
  - simpl. split; [reflexivity|]. split; [apply split_head|].
    split; [apply or_else_present|]. split; [apply or_else_absent|reflexivity].
Qed.

Lemma commit_projection_witness :
  nth_error Example.twoCommits 0
  = Some (Example.rawCommit "1111111aaaa" "fix bug\n\nlong text" "2024-01-07T10:00:00Z")
  /\ exists c,
       nth_error (getCommitsForChangelog Example.twoCommits) 0 = Some c
       /\ sha c = js "1111111aaaa"
       /\ (exists rest,
             js "fix bug\n\nlong text" = message c ++ rest
             /\ ~ In NL (message c)
             /\ (rest = [] \/ exists r, rest = NL :: r))
       /\ (present (Some (js "2024-01-07T10:00:00Z")) ->
           date c = Some (js "2024-01-07T10:00:00Z"))
       /\ (~ present (Some (js "2024-01-07T10:00:00Z")) ->
           date c = Some (js "2024-01-07T10:00:00Z"))
       /\ author c = Some (js "Ann").
Proof.
  split; [reflexivity|].
  exact (proj2 (commit_projection Example.twoCommits) 0
           (Example.rawCommit "1111111aaaa" "fix bug\n\nlong text"
              "2024-01-07T10:00:00Z") eq_refl).
Defined.

(** ** The Summarizer *)

Section SummarizerLemmas.

Variable P : Platform.

Lemma nth_error_last (A : Type) (x d : A) (l : list A) :
  nth_error (x :: l) (length (x :: l) - 1) = Some (last (x :: l) d).
Proof.
  replace (length (x :: l) - 1) with (length l) by (simpl; lia).
  revert x; induction l as [|y l IH]; intros x; [reflexivity|].
  exact (IH y).
Qed.

Lemma dateRange_cons (newest : Commit) (older : list Commit) :
  dateRange P (newest :: older)
  = Some (localDate P (date (last (newest :: older) newest))
          ++ js " - " ++ localDate P (date newest)).
Proof.
  unfold dateRange. rewrite (nth_error_last newest newest older). reflexivity.
Qed.

Lemma localDate_utc_day (d : jsstring) (day : Z) :
  (forall t, 0 <= LocalTZA P t < JSDate.msPerDay)%Z ->
  JSDate.newDate (parseFallback P) (Some d) = Some (day * JSDate.msPerDay)%Z ->
  localDate P (Some d)
  = (let '(y, m, dd) := JSDate.civilFromDays day in
     JSDate.pad2 dd ++ js "." ++ JSDate.pad2 m ++ js "."
     ++ digitsOfZ (if (y <=? 0)%Z then (1 - y)%Z else y)).
Proof.
  intros Htz Hd. unfold localDate. rewrite Hd.
  unfold JSDate.toLocaleDateString_plPL.
  replace ((day * JSDate.msPerDay + LocalTZA P (day * JSDate.msPerDay))
           / JSDate.msPerDay)%Z with day; [reflexivity|].
  specialize (Htz (day * JSDate.msPerDay)%Z).
  rewrite Z.div_add_l by (unfold JSDate.msPerDay; lia).
  rewrite Z.div_small by assumption. lia.
Qed.

(** The outcome of [generateChangelogWithAI], by cases. *)
Lemma generate_no_commits (commits : option (list Commit))
  (apiKey repoName : option jsstring) (tr : Trace) :
  commits = None \/ commits = Some [] ->
  generateChangelogWithAI P commits apiKey repoName tr
  = (tr, Rejected (newError "No commits provided for changelog generation")).
Proof. intros [-> | ->]; reflexivity. Qed.

Lemma generate_no_key (c : Commit) (cs : list Commit)
  (apiKey repoName : option jsstring) (tr : Trace) :
  truthy apiKey = false ->
  generateChangelogWithAI P (Some (c :: cs)) apiKey repoName tr
  = (tr, Rejected (newError "Google API key is required")).
Proof. destruct apiKey as [[|k key]|]; [reflexivity|discriminate|reflexivity]. Qed.

Lemma generate_call (c : Commit) (cs : list Commit) (k : N) (key : jsstring)
  (repoName : option jsstring) (tr : Trace) :
  exists dr,
    dateRange P (c :: cs) = Some dr /\
    generateChangelogWithAI P (Some (c :: cs)) (Some (k :: key)) repoName tr
    = match generateContent P (k :: key) (js "gemini-2.0-flash")
              (prompt (commitsText P (c :: cs)) dr) tr with
      | Resolved (Some text) =>
          (tr ++ [GenerateContent (js "gemini-2.0-flash")
                    (prompt (commitsText P (c :: cs)) dr)],
           Resolved (trim text))
      | Resolved None =>
          ((tr ++ [GenerateContent (js "gemini-2.0-flash")
                     (prompt (commitsText P (c :: cs)) dr)])
           ++ [ConsoleError (Some (js "Error during AI changelog generation:"))
                 noText],
           Rejected noText)
      | Rejected e =>
          ((tr ++ [GenerateContent (js "gemini-2.0-flash")
                     (prompt (commitsText P (c :: cs)) dr)])
           ++ [ConsoleError (Some (js "Error during AI changelog generation:")) e],
           Rejected e)
      end.
Proof.
  eexists. split; [apply dateRange_cons|].
  unfold generateChangelogWithAI. rewrite dateRange_cons.
  unfold tryCatch, bind, request, ret, emit, throw.
  destruct (generateContent P (k :: key) _ _ tr) as [[text|]|e]; reflexivity.
Qed.

Lemma serviceCalls_app (tr tr' : Trace) :
  serviceCalls (tr ++ tr') = serviceCalls tr + serviceCalls tr'.
Proof. unfold serviceCalls. now rewrite filter_app, length_app. Qed.

End SummarizerLemmas.

(** C5, the example as stated, fails in a local time zone behind UTC:
    five hours west, the two dates of the example fall on the previous
    local day. *)
Lemma date_range_west_of_utc :
  dateRange (Example.platformWest [] None None (js ""))
    [ {| sha := js "1111111aaaa"; message := js "fix bug";
         date := Some (js "2024-01-07"); author := Some (js "Ann") |};
      {| sha := js "2222222bbbb"; message := js "add feature";
         date := Some (js "2024-01-01"); author := Some (js "Ann") |} ]
  = Some (js "31.12.2023 - 06.01.2024")
  /\ dateRange (Example.platformWest [] None None (js ""))
       [ {| sha := js "1111111aaaa"; message := js "fix bug";
            date := Some (js "2024-01-07"); author := Some (js "Ann") |};
         {| sha := js "2222222bbbb"; message := js "add feature";
            date := Some (js "2024-01-01"); author := Some (js "Ann") |} ]
     <> Some (js "01.01.2024 - 07.01.2024").
Proof. split; vm_compute; [reflexivity|discriminate]. Qed.

(** C5, amended.  Date-range computation: for a commit sequence with a
    first (newest) element, the Summarizer computes the date range as the
    day-month-year formatting, in the local time zone, of the date of the
    last (oldest) element, then [" - "], then that of the first element,
    and puts that range into the prompt it sends.  For the two commits of
    the specification's example the range is [01.01.2024 - 07.01.2024]
    when the local time zone is at or ahead of UTC. *)
Theorem date_range_computation :
  (forall (P : Platform) (newest : Commit) (older : list Commit),
      dateRange P (newest :: older)
      = Some (localDate P (date (last (newest :: older) newest))
              ++ js " - " ++ localDate P (date newest)))
  /\ (forall (P : Platform) (newest : Commit) (older : list Commit)
        (k : N) (key : jsstring) (repoName : option jsstring) (tr : Trace),
         nth_error
           (fst (generateChangelogWithAI P (Some (newest :: older))
                   (Some (k :: key)) repoName tr))
           (length tr)
         = Some (GenerateContent (js "gemini-2.0-flash")
                   (prompt (commitsText P (newest :: older))
                      (localDate P (date (last (newest :: older) newest))
                       ++ js " - " ++ localDate P (date newest)))))
  /\ (forall (P : Platform) (sha1 sha2 : jsstring) (author1 author2 : option jsstring),
         (forall t, 0 <= LocalTZA P t < JSDate.msPerDay)%Z ->
         dateRange P
           [ {| sha := sha1; message := js "fix bug";
                date := Some (js "2024-01-07"); author := author1 |};
             {| sha := sha2; message := js "add feature";
                date := Some (js "2024-01-01"); author := author2 |} ]
         = Some (js "01.01.2024 - 07.01.2024")).
Proof.
  split; [intros; apply dateRange_cons|]. split.
  - intros P newest older k key repoName tr.
    destruct (generate_call P newest older k key repoName tr) as (dr & Hdr & ->).
    rewrite dateRange_cons in Hdr. injection Hdr as <-.
    destruct (generateContent P (k :: key) _ _ tr) as [[text|]|e]; simpl fst.
    + rewrite nth_error_app2, Nat.sub_diag by lia. reflexivity.
    + rewrite <- app_assoc, nth_error_app2, Nat.sub_diag by lia. reflexivity.
    + rewrite <- app_assoc, nth_error_app2, Nat.sub_diag by lia. reflexivity.
  - intros P sha1 sha2 author1 author2 Htz.
    rewrite dateRange_cons. cbn [last date].
    rewrite (localDate_utc_day P (js "2024-01-01") 19723 Htz eq_refl).
    rewrite (localDate_utc_day P (js "2024-01-07") 19729 Htz eq_refl).
    reflexivity.
Qed.
Lemma date_range_computation_witness :
  (forall t,
     0 <= LocalTZA (Example.platform [] None None (js "")) t < JSDate.msPerDay)%Z
  /\ dateRange (Example.platform [] None None (js ""))
       [ {| sha := js "1111111aaaa"; message := js "fix bug";
            date := Some (js "2024-01-07"); author := Some (js "Ann") |};
         {| sha := js "2222222bbbb"; message := js "add feature";
            date := Some (js "2024-01-01"); author := Some (js "Ann") |} ]
     = Some (js "01.01.2024 - 07.01.2024").
Proof.
  assert (H : forall t,
             (0 <= LocalTZA (Example.platform [] None None (js "")) t
              < JSDate.msPerDay)%Z)
    by (intros t; simpl; unfold JSDate.msPerDay; lia).
  split; [exact H|].
  exact (proj2 (proj2 date_range_computation)
           (Example.platform [] None None (js ""))
           (js "1111111aaaa") (js "2222222bbbb") (Some (js "Ann")) (Some (js "Ann")) H).
Defined.

(** C8, as stated, fails: [generateChangelogWithAI] also fails when the
    call of the model service succeeds and its response carries no text.
    Here there are two commits and a credential, the service answers, and
    the Summarizer rejects with the TypeError of [response.text.trim()],
    after logging it. *)
Lemma summarizer_fails_without_text :
  let P := Scenario.platformOf Scenario.modelSilent in
  let commits := Some (getCommitsForChangelog Example.twoCommits) in
  let apiKey := Some (js "google-key") in
  let result := generateChangelogWithAI P commits apiKey (Some (js "demo")) [] in
  snd result = Rejected noText
  /\ ~ (commits = None \/ commits = Some [])
  /\ truthy apiKey = true
  /\ (forall key contents tr,
        ~ rejected (generateContent P key (js "gemini-2.0-flash") contents tr))
  /\ serviceCalls (fst result) = 1
  /\ last (fst result) (ConsoleLog [])
     = ConsoleError (Some (js "Error during AI changelog generation:")) noText.
Proof.
  cbv zeta. split; [vm_compute; reflexivity|].
  split; [intros [H|H]; discriminate|]. split; [reflexivity|].
  split; [intros key contents tr [e He]; discriminate|].
  split; vm_compute; reflexivity.
Qed.

(** C8, amended.  Summarizer failure conditions:
    [generateChangelogWithAI] fails exactly when the commit sequence is
    missing or empty, the credential is absent (undefined or empty), the
    call of the model service fails, or the response of the service carries
    no text; in the first two cases it fails without any effect, so before
    any service call; and it never calls the service more than once. *)
Theorem summarizer_failure_conditions (P : Platform)
  (commits : option (list Commit)) (apiKey repoName : option jsstring)
  (tr : Trace) :
  let result := generateChangelogWithAI P commits apiKey repoName tr in
  let noCommits := commits = None \/ commits = Some [] in
  let noCredential := truthy apiKey = false in
  let serviceFails :=
    exists cs key dr,
      commits = Some cs /\ apiKey = Some key /\ dateRange P cs = Some dr
      /\ rejected (generateContent P key (js "gemini-2.0-flash")
                     (prompt (commitsText P cs) dr) tr) in
  let noTextAnswered :=
    exists cs key dr,
      commits = Some cs /\ apiKey = Some key /\ dateRange P cs = Some dr
      /\ generateContent P key (js "gemini-2.0-flash")
           (prompt (commitsText P cs) dr) tr = Resolved None in
  (rejected (snd result)
   <-> noCommits \/ noCredential \/ serviceFails \/ noTextAnswered)
  /\ (noCommits \/ noCredential -> fst result = tr)
  /\ serviceCalls (fst result) <= serviceCalls tr + 1.
Proof.
  cbv zeta.
  destruct commits as [[|c cs]|].
  - (* an empty sequence *)
    rewrite generate_no_commits by auto. simpl. repeat split; try lia; auto.
    intros _. now eexists.
  - destruct (truthy apiKey) eqn:Hkey.
    + (* commits and a credential: the service is called once *)
      destruct apiKey as [[|k key]|]; try discriminate.
      destruct (generate_call P c cs k key repoName tr) as (dr & Hdr & ->).
      destruct (generateContent P (k :: key) (js "gemini-2.0-flash")
                  (prompt (commitsText P (c :: cs)) dr) tr) as [[text|]|e] eqn:Hcall;
        simpl fst; simpl snd.
      * split; [|split].
        -- split.
           ++ intros [e He]. discriminate.
           ++ intros [[H|H]|[H|[H|H]]]; try discriminate.
              ** destruct H as (cs' & key' & dr' & [= <-] & [= <-] & Hdr' & [e He]).
                 rewrite Hdr in Hdr'. injection Hdr' as <-. congruence.
              ** destruct H as (cs' & key' & dr' & [= <-] & [= <-] & Hdr' & He).
                 rewrite Hdr in Hdr'. injection Hdr' as <-. congruence.
        -- intros [[H|H]|H]; discriminate.
        -- rewrite serviceCalls_app. cbn [serviceCalls filter isServiceCall length]. lia.
      * split; [|split].
        -- split; [|intros _; now exists noText].
           intros _. right. right. right. exists (c :: cs), (k :: key), dr.
           repeat split; assumption.
        -- intros [[H|H]|H]; discriminate.
        -- rewrite !serviceCalls_app. cbn [serviceCalls filter isServiceCall length]. lia.
      * split; [|split].
        -- split; [|intros _; now exists e].
           intros _. right. right. left. exists (c :: cs), (k :: key), dr.
           repeat split; try assumption. rewrite Hcall. now exists e.
        -- intros [[H|H]|H]; discriminate.
        -- rewrite !serviceCalls_app. cbn [serviceCalls filter isServiceCall length]. lia.
    + (* commits but no credential *)
      rewrite generate_no_key by assumption. simpl.
      repeat split; try lia; auto. intros _. now eexists.
  - (* no sequence at all *)
    rewrite generate_no_commits by auto. simpl. repeat split; try lia; auto.
    intros _. now eexists.
Qed.

Lemma summarizer_failure_conditions_witness :
  (((Some (@nil Commit) = None \/ Some (@nil Commit) = Some [])
    \/ truthy (Some (js "google-key")) = false)
   /\ fst (SumarizeChangelog.generateChangelogWithAI
             (Example.platform [] None None (js "")) (Some [])
             (Some (js "google-key")) (Some (js "demo")) [])
      = [])
  /\ (rejected
        (generateContent (Scenario.platformOf Scenario.modelFails) (js "google-key")
           (js "gemini-2.0-flash")
           (prompt (commitsText (Scenario.platformOf Scenario.modelFails)
                      (getCommitsForChangelog Example.twoCommits))
              (js "01.01.2024 - 07.01.2024")) [])
      /\ rejected
           (snd (SumarizeChangelog.generateChangelogWithAI
                   (Scenario.platformOf Scenario.modelFails)
                   (Some (getCommitsForChangelog Example.twoCommits))
                   (Some (js "google-key")) (Some (js "demo")) [])))
  /\ (generateContent (Scenario.platformOf Scenario.modelSilent) (js "google-key")
        (js "gemini-2.0-flash")
        (prompt (commitsText (Scenario.platformOf Scenario.modelSilent)
                   (getCommitsForChangelog Example.twoCommits))
           (js "01.01.2024 - 07.01.2024")) []
      = Resolved None
      /\ rejected
           (snd (SumarizeChangelog.generateChangelogWithAI
                   (Scenario.platformOf Scenario.modelSilent)
                   (Some (getCommitsForChangelog Example.twoCommits))
                   (Some (js "google-key")) (Some (js "demo")) []))).
Proof.
  split; [|split].
  - split; [left; right; reflexivity|].
    apply (proj1 (proj2 (summarizer_failure_conditions
                           (Example.platform [] None None (js "")) (Some [])
                           (Some (js "google-key")) (Some (js "demo")) []))).
    left. right. reflexivity.
  - assert (H : rejected
                  (generateContent (Scenario.platformOf Scenario.modelFails)
                     (js "google-key") (js "gemini-2.0-flash")
                     (prompt (commitsText (Scenario.platformOf Scenario.modelFails)
                                (getCommitsForChangelog Example.twoCommits))
                        (js "01.01.2024 - 07.01.2024")) []))
      by (now exists Scenario.serverError).
    split; [exact H|].
    apply (proj2 (proj1 (summarizer_failure_conditions
                           (Scenario.platformOf Scenario.modelFails)
                           (Some (getCommitsForChangelog Example.twoCommits))
                           (Some (js "google-key")) (Some (js "demo")) []))).
    right. right. left.
    exists (getCommitsForChangelog Example.twoCommits), (js "google-key"),
      (js "01.01.2024 - 07.01.2024").
    split; [reflexivity|]. split; [reflexivity|].
    split; [vm_compute; reflexivity|exact H].
  - split; [reflexivity|].
    apply (proj2 (proj1 (summarizer_failure_conditions
                           (Scenario.platformOf Scenario.modelSilent)
                           (Some (getCommitsForChangelog Example.twoCommits))
                           (Some (js "google-key")) (Some (js "demo")) []))).
    right. right. right.
    exists (getCommitsForChangelog Example.twoCommits), (js "google-key"),
      (js "01.01.2024 - 07.01.2024").
    split; [reflexivity|]. split; [reflexivity|].
    split; [vm_compute; reflexivity|reflexivity].
Defined.

(** ** The Publisher: branch creation *)

(** C7, amended.  Branch-exists tolerance: when the base ref is
    read and the creation of the branch ref is rejected with status 422,
    [createBranch] does not fail on that account: it reads the ref of the
    existing branch, and settles as that read does, with the sha of the
    existing branch when the read succeeds.  A rejection with any other
    status, 409 included, is reported and propagated. *)
Theorem branch_exists_tolerance (P : Platform) (token owner : jsstring)
  (repo : option jsstring) (branchName : jsstring) (baseBranch : option jsstring)
  (tr : Trace) (baseSha : jsstring) (e : JsError) :
  let api := getOctokit P token in
  let base := withDefault (js "main") baseBranch in
  let tr1 := tr ++ [ConsoleLog (js "Creating branch " ++ branchName
                                ++ js " from " ++ base)] in
  let tr2 := tr1 ++ [GetRef owner repo (js "heads/" ++ base)] in
  let tr3 := tr2 ++ [CreateRef owner repo (js "refs/heads/" ++ branchName) baseSha] in
  let tr4 := tr3 ++ [ConsoleLog (js "Branch " ++ branchName
                                 ++ js " already exists, using it")] in
  git_getRef api owner repo (js "heads/" ++ base) tr1 = Resolved baseSha ->
  git_createRef api owner repo (js "refs/heads/" ++ branchName) baseSha tr2
  = Rejected e ->
  (err_status e = Some 422%Z ->
   createBranch P token owner repo branchName baseBranch tr
   = (tr4 ++ [GetRef owner repo (js "heads/" ++ branchName)],
      git_getRef api owner repo (js "heads/" ++ branchName) tr4))
  /\ (err_status e <> Some 422%Z ->
      createBranch P token owner repo branchName baseBranch tr
      = (tr3 ++ [CoreError (js "Error creating branch: " ++ err_message e)],
         Rejected e)).
Proof.
  intros api base tr1 tr2 tr3 tr4 Hbase Hcreate.
  unfold createBranch, tryCatch, bind, request, emit, ret, throw.
  fold base. fold api. fold tr1. rewrite Hbase. fold tr2. rewrite Hcreate.
  fold tr3. split.
  - intros ->. rewrite Z.eqb_refl. fold tr4.
    destruct (git_getRef api owner repo (js "heads/" ++ branchName) tr4);
      reflexivity.
  - intros Hne. destruct (err_status e) as [st|]; [|reflexivity].
    destruct (Z.eqb_spec st 422) as [->|_]; [congruence|reflexivity].
Qed.

Lemma branch_exists_tolerance_witness :
  (git_getRef (getOctokit (Example.platform [] None (Some 422%Z) (js "")) (js "t"))
     (js "acme") (Some (js "demo")) (js "heads/main")
     [ConsoleLog (js "Creating branch changelog/update-20240101 from main")]
   = Resolved (js "sha-of-heads/main")
   /\ err_status (Example.alreadyExists 422) = Some 422%Z
   /\ snd (createBranch (Example.platform [] None (Some 422%Z) (js "")) (js "t")
             (js "acme") (Some (js "demo")) (js "changelog/update-20240101")
             (Some (js "main")) [])
      = Resolved (js "sha-of-heads/changelog/update-20240101"))
  /\ (err_status (Example.alreadyExists 409) <> Some 422%Z
      /\ snd (createBranch (Example.platform [] None (Some 409%Z) (js "")) (js "t")
                (js "acme") (Some (js "demo")) (js "changelog/update-20240101")
                (Some (js "main")) [])
         = Rejected (Example.alreadyExists 409)).
Proof.
  split.
  - split; [reflexivity|]. split; [reflexivity|].
    rewrite (proj1 (branch_exists_tolerance
                      (Example.platform [] None (Some 422%Z) (js "")) (js "t")
                      (js "acme") (Some (js "demo")) (js "changelog/update-20240101")
                      (Some (js "main")) []
                      (baseSha := js "sha-of-heads/main")
                      (e := Example.alreadyExists 422) eq_refl eq_refl) eq_refl).
    reflexivity.
  - assert (H : err_status (Example.alreadyExists 409) <> Some 422%Z)
      by discriminate.
    split; [exact H|].
    rewrite (proj2 (branch_exists_tolerance
                      (Example.platform [] None (Some 409%Z) (js "")) (js "t")
                      (js "acme") (Some (js "demo")) (js "changelog/update-20240101")
                      (Some (js "main")) []
                      (baseSha := js "sha-of-heads/main")
                      (e := Example.alreadyExists 409) eq_refl eq_refl) H).
    reflexivity.
Defined.

(** The claim as the specification states it fails at status 409: the
    creation is rejected with that status and the ref of the existing branch
    can be read, yet [createBranch] rejects. *)
Lemma branch_conflict_409_not_tolerated :
  git_createRef (getOctokit (Example.platform [] None (Some 409%Z) (js "")) (js "t"))
    (js "acme") (Some (js "demo")) (js "refs/heads/changelog/update-20240101")
    (js "sha-of-heads/main")
    [ConsoleLog (js "Creating branch changelog/update-20240101 from main");
     GetRef (js "acme") (Some (js "demo")) (js "heads/main")]
  = Rejected (Example.alreadyExists 409)
  /\ err_status (Example.alreadyExists 409) = Some 409%Z
  /\ git_getRef (getOctokit (Example.platform [] None (Some 409%Z) (js "")) (js "t"))
       (js "acme") (Some (js "demo")) (js "heads/changelog/update-20240101")
       [ConsoleLog (js "Creating branch changelog/update-20240101 from main");
        GetRef (js "acme") (Some (js "demo")) (js "heads/main");
        CreateRef (js "acme") (Some (js "demo"))
          (js "refs/heads/changelog/update-20240101") (js "sha-of-heads/main")]
     = Resolved (js "sha-of-heads/changelog/update-20240101")
  /\ createBranch (Example.platform [] None (Some 409%Z) (js "")) (js "t")
       (js "acme") (Some (js "demo")) (js "changelog/update-20240101")
       (Some (js "main")) []
     = ([ConsoleLog (js "Creating branch changelog/update-20240101 from main");
         GetRef (js "acme") (Some (js "demo")) (js "heads/main");
         CreateRef (js "acme") (Some (js "demo"))
           (js "refs/heads/changelog/update-20240101") (js "sha-of-heads/main");
         CoreError (js "Error creating branch: Reference already exists")],
        Rejected (Example.alreadyExists 409)).
Proof. repeat split. Qed.

(** ** The orchestration *)

Section RunLemmas.

Variable getRepoInfo : Env -> jsstring * option jsstring.
Variable getRecentCommits :
  jsstring -> jsstring -> option jsstring -> option jsstring ->
  option JsNumber -> Async (list RawCommit).
Variable createPR :
  jsstring -> jsstring -> option jsstring -> jsstring -> jsstring -> jsstring ->
  option jsstring -> Async PullRequest.
Variable updateOrCreateFile :
  jsstring -> jsstring -> option jsstring -> jsstring -> jsstring -> jsstring ->
  option jsstring -> Async unit.
Variable createBranch :
  jsstring -> jsstring -> option jsstring -> jsstring -> option jsstring ->
  Async jsstring.
Variable getFileContent :
  jsstring -> jsstring -> option jsstring -> jsstring -> option jsstring ->
  Async (option jsstring).
Variable generateChangelogWithAI :
  option (list Commit) -> option jsstring -> option jsstring -> Async jsstring.
Variable formatChangelogEntry : jsstring -> option jsstring -> jsstring.
Variable updateChangelogFile :
  jsstring -> option jsstring -> option jsstring -> Sync MergeResult.
Variable getCommitsForChangelog : list RawCommit -> list Commit.

Let run' :=
  run getRepoInfo getRecentCommits createPR updateOrCreateFile createBranch
    getFileContent generateChangelogWithAI formatChangelogEntry
    updateChangelogFile getCommitsForChangelog.

Lemma run_zero_commits (env : Env) (tr tr1 : Trace) :
  fetcherReturnsNone getRepoInfo getRecentCommits env tr tr1 ->
  run' env tr
  = (tr1 ++ [ConsoleLog (js "No commits found, skipping changelog generation")],
     Resolved tt).
Proof.
  intros (token & owner & repo & (Htok & Hne & Hkey & Hrepo) & Hfetch).
  unfold run', run, runBody, tryCatch. rewrite Htok, Hkey, Hrepo.
  destruct token as [|t token]; [congruence|].
  unfold bind, emit, ret. cbn [negb].
  unfold preamble in Hfetch. rewrite <- app_assoc. cbn [app].
  rewrite Hfetch. reflexivity.
Qed.

Lemma run_no_changes (env : Env) (tr tr3 said : Trace) :
  mergerReturnsNoChanges getRepoInfo getRecentCommits getFileContent
    generateChangelogWithAI formatChangelogEntry updateChangelogFile
    getCommitsForChangelog env tr tr3 said ->
  run' env tr
  = (tr3 ++ said
     ++ [ConsoleLog (js "No changes to CHANGELOG.md, skipping PR creation")],
     Resolved tt).
Proof.
  intros (token & owner & repo & commits & tr1 & ai & tr2 & fetched
          & (Htok & Hne & Hkey & Hrepo) & Hfetch & Hcs & Hgen & Hfile & Hmerge
          & ->).
  unfold run', run, runBody, tryCatch. rewrite Htok, Hkey, Hrepo.
  destruct token as [|t token]; [congruence|].
  unfold bind, emit, ret. cbn [negb].
  unfold preamble in Hfetch. rewrite <- app_assoc. cbn [app].
  rewrite Hfetch.
  assert (Hlen : (length commits =? 0) = false)
    by (destruct commits; [congruence|reflexivity]).
  rewrite Hlen. rewrite <- app_assoc. cbn [app].
  rewrite Hgen, Hfile. unfold perform. rewrite Hmerge. cbn [negb].
  now rewrite <- app_assoc.
Qed.

End RunLemmas.
(** ** The real stages before the Publisher change nothing *)

Section Quiet.

Variable P : Platform.

Lemma getRecentCommits_quiet (token owner : jsstring) (repo sha : option jsstring)
  (count : option JsNumber) :
  quietly (getRecentCommits P token owner repo sha count).
Proof.
  intros tr. unfold getRecentCommits, tryCatch, bind, request, emit, ret, throw.
  destruct (repos_listCommits _ _ _ _ _ _) as [data|e]; simpl fst;
    rewrite <- ?app_assoc; eexists; (split; [reflexivity|reflexivity]).
Qed.

Lemma generateChangelogWithAI_quiet (commits : option (list Commit))
  (apiKey repoName : option jsstring) :
  quietly (SumarizeChangelog.generateChangelogWithAI P commits apiKey repoName).
Proof.
  intros tr. destruct commits as [[|c cs]|].
  - exists []. now rewrite app_nil_r.
  - destruct apiKey as [[|k key]|].
    + exists []. now rewrite app_nil_r.
    + destruct (generate_call P c cs k key repoName tr) as (dr & _ & ->).
      destruct (generateContent P _ _ _ tr) as [[text|]|e]; simpl fst;
        rewrite <- ?app_assoc; eexists; (split; [reflexivity|reflexivity]).
    + exists []. now rewrite app_nil_r.
  - exists []. now rewrite app_nil_r.
Qed.

Lemma getFileContent_quiet (token owner : jsstring) (repo : option jsstring)
  (path : jsstring) (branch : option jsstring) :
  quietly (getFileContent P token owner repo path branch).
Proof.
  intros tr. unfold getFileContent, tryCatch, bind, request, emit, ret, throw.
  destruct (repos_getContent _ _ _ _ _ _) as [[c s| |]|e]; simpl fst;
    try (eexists; split; reflexivity).
  destruct (match err_status e with Some st => (st =? 404)%Z | None => false end);
    simpl fst; rewrite <- ?app_assoc; eexists; (split; [reflexivity|reflexivity]).
Qed.

Lemma quietly_result {A} (m : Async A) (tr tr' : Trace) (o : Outcome A) :
  quietly m -> m tr = (tr', o) ->
  exists added, tr' = tr ++ added /\ forallb quiet added = true.
Proof.
  intros Hq Hm. destruct (Hq tr) as (added & H1 & H2).
  rewrite Hm in H1. now exists added.
Qed.

Lemma main_zero_commits (env : Env) (tr tr1 : Trace) :
  fetcherReturnsNone getRepoInfo (getRecentCommits P) env tr tr1 ->
  exists added,
    main P env tr = (tr ++ added, Resolved tt) /\ forallb quiet added = true.
Proof.
  intros H. unfold main. erewrite run_zero_commits by exact H.
  destruct H as (token & owner & repo & _ & Hfetch).
  eapply quietly_result in Hfetch; [|apply getRecentCommits_quiet].
  destruct Hfetch as (a1 & -> & Ha1).
  eexists. rewrite <- !app_assoc. split; [reflexivity|].
  rewrite !forallb_app, Ha1. reflexivity.
Qed.

(** What the Merger logs: nothing when it reports a change, and that the
    entry is there already when it reports none. *)
Lemma updateChangelogFile_logs (newEntry : jsstring)
  (repoName existingContent : option jsstring) :
  logs (SumarizeChangelog.updateChangelogFile newEntry repoName existingContent)
  = if hasChanges
         (returned
            (SumarizeChangelog.updateChangelogFile newEntry repoName existingContent))
    then []
    else [ConsoleLog (js "Changelog entry for this date range already exists")].
Proof.
  unfold SumarizeChangelog.updateChangelogFile.
  destruct (match match_ newEntry dateRangePattern with
            | Some m => includes (withDefault (js "") existingContent) (group1 m)
            | None => false
            end); reflexivity.
Qed.

Lemma updateChangelogFile_quiet (newEntry : jsstring)
  (repoName existingContent : option jsstring) :
  forallb quiet
    (logs (SumarizeChangelog.updateChangelogFile newEntry repoName existingContent))
  = true.
Proof.
  rewrite updateChangelogFile_logs.
  now destruct (hasChanges _).
Qed.

Lemma main_no_changes (env : Env) (tr tr3 said : Trace) :
  mergerReturnsNoChanges getRepoInfo (getRecentCommits P) (getFileContent P)
    (SumarizeChangelog.generateChangelogWithAI P)
    SumarizeChangelog.formatChangelogEntry SumarizeChangelog.updateChangelogFile
    SumarizeChangelog.getCommitsForChangelog env tr tr3 said ->
  exists added,
    main P env tr = (tr ++ added, Resolved tt) /\ forallb quiet added = true.
Proof.
  intros H. unfold main. erewrite run_no_changes by exact H.
  destruct H as (token & owner & repo & commits & tr1 & ai & tr2 & fetched
                 & _ & Hfetch & _ & Hgen & Hfile & _ & ->).
  eapply quietly_result in Hfetch; [|apply getRecentCommits_quiet].
  destruct Hfetch as (a1 & -> & Ha1).
  eapply quietly_result in Hgen; [|apply generateChangelogWithAI_quiet].
  destruct Hgen as (a2 & -> & Ha2).
  eapply quietly_result in Hfile; [|apply getFileContent_quiet].
  destruct Hfile as (a3 & -> & Ha3).
  eexists. rewrite <- !app_assoc. split; [reflexivity|].
  rewrite !forallb_app, Ha1, Ha2, Ha3, updateChangelogFile_quiet. reflexivity.
Qed.

End Quiet.

(** C9.  Benign early exits.  Whatever the imported stages are and
    whatever they would log: when the Fetcher returns zero commits, [run]
    resolves right after it, having only logged that it skips the
    generation, so that neither the Summarizer, nor the Merger, nor the
    Publisher is called; and when the Merger returns [hasChanges = false],
    [run] resolves right after the Merger, adding to what the Merger
    logged only that it skips the pull request, so that no branch is
    created, no file written and no pull request opened.  With the real
    stages the Merger logs that the entry is there already, and in both
    cases the run resolves having added no branch creation, no file write,
    no pull request and no failure signal to the trace. *)
Theorem benign_early_exits :
  (forall getRepoInfo getRecentCommits createPR updateOrCreateFile createBranch
          getFileContent generateChangelogWithAI formatChangelogEntry
          updateChangelogFile getCommitsForChangelog
          (env : Env) (tr tr1 : Trace),
      fetcherReturnsNone getRepoInfo getRecentCommits env tr tr1 ->
      run getRepoInfo getRecentCommits createPR updateOrCreateFile createBranch
        getFileContent generateChangelogWithAI formatChangelogEntry
        updateChangelogFile getCommitsForChangelog env tr
      = (tr1 ++ [ConsoleLog (js "No commits found, skipping changelog generation")],
         Resolved tt))
  /\ (forall getRepoInfo getRecentCommits createPR updateOrCreateFile createBranch
             getFileContent generateChangelogWithAI formatChangelogEntry
             updateChangelogFile getCommitsForChangelog
             (env : Env) (tr tr3 said : Trace),
         mergerReturnsNoChanges getRepoInfo getRecentCommits getFileContent
           generateChangelogWithAI formatChangelogEntry updateChangelogFile
           getCommitsForChangelog env tr tr3 said ->
         run getRepoInfo getRecentCommits createPR updateOrCreateFile createBranch
           getFileContent generateChangelogWithAI formatChangelogEntry
           updateChangelogFile getCommitsForChangelog env tr
         = (tr3 ++ said
            ++ [ConsoleLog (js "No changes to CHANGELOG.md, skipping PR creation")],
            Resolved tt))
  /\ (forall (P : Platform) (env : Env) (tr tr3 said : Trace),
         mergerReturnsNoChanges GithubUtils.getRepoInfo
           (GithubUtils.getRecentCommits P) (GithubUtils.getFileContent P)
           (SumarizeChangelog.generateChangelogWithAI P)
           SumarizeChangelog.formatChangelogEntry
           SumarizeChangelog.updateChangelogFile
           SumarizeChangelog.getCommitsForChangelog env tr tr3 said ->
         main P env tr
         = (tr3
            ++ [ConsoleLog (js "Changelog entry for this date range already exists");
                ConsoleLog (js "No changes to CHANGELOG.md, skipping PR creation")],
            Resolved tt))
  /\ (forall (P : Platform) (env : Env) (tr tr' said : Trace),
         fetcherReturnsNone GithubUtils.getRepoInfo
           (GithubUtils.getRecentCommits P) env tr tr'
         \/ mergerReturnsNoChanges GithubUtils.getRepoInfo
              (GithubUtils.getRecentCommits P) (GithubUtils.getFileContent P)
              (SumarizeChangelog.generateChangelogWithAI P)
              SumarizeChangelog.formatChangelogEntry
              SumarizeChangelog.updateChangelogFile
              SumarizeChangelog.getCommitsForChangelog env tr tr' said ->
         exists added,
           main P env tr = (tr ++ added, Resolved tt)
           /\ forallb quiet added = true).
Proof.
  split; [|split; [|split]].
  - intros. now apply run_zero_commits.
  - intros. now apply run_no_changes.
  - intros P env tr tr3 said H. unfold main. erewrite run_no_changes by exact H.
    destruct H as (token & owner & repo & commits & tr1 & ai & tr2 & fetched
                   & _ & _ & _ & _ & _ & Hmerge & ->).
    rewrite updateChangelogFile_logs, Hmerge. reflexivity.
  - intros P env tr tr' said [H|H].
    + eapply main_zero_commits; eassumption.
    + eapply main_no_changes; eassumption.
Qed.

(** Settles [lhs = rhs] by evaluating [lhs]; [rhs] may still be unknown. *)
Ltac evaluate :=
  match goal with
  | |- ?lhs = _ =>
      let v := eval vm_compute in lhs in
      transitivity v; [vm_cast_no_check (eq_refl v) | reflexivity]
  end.

Lemma benign_early_exits_witness :
  (fetcherReturnsNone getRepoInfo (getRecentCommits Example.emptyRepo)
     Example.env []
     [ConsoleLog (js "Processing repository: acme/demo");
      ConsoleLog (js "Fetching last 5 commits...");
      ConsoleLog (js "Getting last 5 commits from acme/demo (main)");
      ListCommits (js "acme") (Some (js "demo")) (js "main") (Num 5);
      ConsoleLog (js "Retrieved 0 commits")]
   /\ main Example.emptyRepo Example.env []
      = ([ConsoleLog (js "Processing repository: acme/demo");
          ConsoleLog (js "Fetching last 5 commits...");
          ConsoleLog (js "Getting last 5 commits from acme/demo (main)");
          ListCommits (js "acme") (Some (js "demo")) (js "main") (Num 5);
          ConsoleLog (js "Retrieved 0 commits")]
         ++ [ConsoleLog (js "No commits found, skipping changelog generation")],
         Resolved tt))
  /\ (exists tr3 said,
        mergerReturnsNoChanges getRepoInfo (getRecentCommits Example.upToDate)
          (getFileContent Example.upToDate)
          (SumarizeChangelog.generateChangelogWithAI Example.upToDate)
          SumarizeChangelog.formatChangelogEntry
          SumarizeChangelog.updateChangelogFile
          SumarizeChangelog.getCommitsForChangelog Example.env [] tr3 said
        /\ said
           = [ConsoleLog (js "Changelog entry for this date range already exists")]
        /\ main Example.upToDate Example.env []
           = (tr3 ++ said
              ++ [ConsoleLog (js "No changes to CHANGELOG.md, skipping PR creation")],
              Resolved tt)
        /\ main Example.upToDate Example.env []
           = (tr3
              ++ [ConsoleLog (js "Changelog entry for this date range already exists");
                  ConsoleLog (js "No changes to CHANGELOG.md, skipping PR creation")],
              Resolved tt)
        /\ exists added,
             main Example.upToDate Example.env [] = ([] ++ added, Resolved tt)
             /\ forallb quiet added = true).
Proof.
  split.
  - assert (H : fetcherReturnsNone getRepoInfo (getRecentCommits Example.emptyRepo)
                  Example.env []
                  [ConsoleLog (js "Processing repository: acme/demo");
                   ConsoleLog (js "Fetching last 5 commits...");
                   ConsoleLog (js "Getting last 5 commits from acme/demo (main)");
                   ListCommits (js "acme") (Some (js "demo")) (js "main") (Num 5);
                   ConsoleLog (js "Retrieved 0 commits")]).
    { exists (js "ghs_token"), (js "acme"), (Some (js "demo")).
      split; [|reflexivity].
      split; [reflexivity|]. split; [discriminate|]. split; reflexivity. }
    split; [exact H|].
    exact (proj1 benign_early_exits _ _ _ _ _ _ _ _ _ _ _ _ _ H).
  - eassert (H : mergerReturnsNoChanges getRepoInfo
                   (getRecentCommits Example.upToDate)
                   (getFileContent Example.upToDate)
                   (SumarizeChangelog.generateChangelogWithAI Example.upToDate)
                   SumarizeChangelog.formatChangelogEntry
                   SumarizeChangelog.updateChangelogFile
                   SumarizeChangelog.getCommitsForChangelog Example.env [] _
                   [ConsoleLog (js "Changelog entry for this date range already exists")]).
    { exists (js "ghs_token"), (js "acme"), (Some (js "demo")), Example.twoCommits.
      do 4 eexists.
      split; [split; [reflexivity|split; [discriminate|split; reflexivity]]|].
      split; [evaluate|]. split; [discriminate|].
      split; [evaluate|]. split; [evaluate|]. split; [evaluate|].
      symmetry. evaluate. }
    do 2 eexists. split; [exact H|]. split; [reflexivity|]. split; [|split].
    + exact (proj1 (proj2 benign_early_exits) _ _ _ _ _ _ _ _ _ _ _ _ _ _ H).
    + exact (proj1 (proj2 (proj2 benign_early_exits)) _ _ _ _ _ H).
    + exact (proj2 (proj2 (proj2 benign_early_exits)) _ _ _ _ _ (or_intror H)).
Defined.

(** ** Further properties: [formatChangelogEntry] *)

Section FormatLemmas.

Lemma collapse_cons_other (c : N) (s : jsstring) :
  only NL c = false -> collapseNewlines (c :: s) = c :: collapseNewlines s.
Proof.
  intros H. rewrite collapseNewlines_cons. cbn [lead]. now rewrite H.
Qed.

Lemma lead_app_other (p : N -> bool) (s : jsstring) (c : N) :
  p c = false -> lead p (s ++ [c]) = lead p s.
Proof.
  intros H. induction s as [|x s IH]; simpl; [now rewrite H|].
  destruct (p x); [now rewrite IH|reflexivity].
Qed.

Lemma collapse_app_other (s : jsstring) (c : N) :
  only NL c = false -> collapseNewlines (s ++ [c]) = collapseNewlines s ++ [c].
Proof.
  intros Hc. remember (length s) as n eqn:Hn. revert s Hn.
  induction n as [n IH] using lt_wf_ind. intros s Hn.
  destruct s as [|x s].
  - simpl app. now rewrite collapse_cons_other.
  - change ((x :: s) ++ [c]) with (x :: s ++ [c]).
    rewrite !collapseNewlines_cons.
    change (x :: s ++ [c]) with ((x :: s) ++ [c]).
    rewrite lead_app_other by assumption.
    destruct (3 <=? lead (only NL) (x :: s)) eqn:E.
    + pose proof (lead_le_length (only NL) (x :: s)) as Hle.
      rewrite skipn_app.
      replace (lead (only NL) (x :: s) - length (x :: s)) with 0 by lia.
      cbn [skipn]. rewrite <- app_assoc. f_equal.
      apply (IH (length (skipn (lead (only NL) (x :: s)) (x :: s)))); [|reflexivity].
      rewrite length_skipn. apply Nat.leb_le in E. subst n. simpl length in *. lia.
    + cbn [app]. f_equal. apply (IH (length s)); [subst n; simpl; lia|reflexivity].
Qed.

Lemma noTriple_not_includes (s : jsstring) :
  noTriple s = true -> includes s (js "\n\n\n") = false.
Proof.
  intros H. destruct (includes s (js "\n\n\n")) eqn:E; [|reflexivity].
  apply includes_iff in E as (b & a & ->). exfalso.
  induction b as [|c b IH].
  - simpl in H. discriminate.
  - apply IH. simpl app in H. cbn [noTriple] in H.
    now apply andb_prop in H as [_ H].
Qed.

Lemma whitespace_NL (c : N) : isWhiteSpace c = false -> only NL c = false.
Proof.
  unfold only, NL. intros H. destruct (N.eqb_spec c 10) as [->|]; [|reflexivity].
  discriminate.
Qed.

Lemma dropWhile_head (p : N -> bool) (s : jsstring) (c : N) (r : jsstring) :
  dropWhile p s = c :: r -> p c = false.
Proof.
  induction s as [|x s IH]; simpl; [discriminate|].
  destruct (p x) eqn:E; [assumption|]. intros [= <- _]. assumption.
Qed.

Lemma dropWhile_suffix (p : N -> bool) (s : jsstring) :
  exists w, s = w ++ dropWhile p s /\ forallb p w = true.
Proof.
  induction s as [|x s (w & Hs & Hw)]; simpl.
  - now exists [].
  - destruct (p x) eqn:E.
    + exists (x :: w). simpl. rewrite E, Hw. split; [now rewrite <- Hs|reflexivity].
    + now exists [].
Qed.

(** A string is its own trim exactly when it is empty or begins and ends
    with a unit that is not white space. *)
Lemma trim_fixed (m : jsstring) (c l : N) :
  isWhiteSpace c = false -> isWhiteSpace l = false ->
  trim (c :: m ++ [l]) = c :: m ++ [l]
  /\ trim [c] = [c].
Proof.
  intros Hc Hl. unfold trim, trimStart. simpl dropWhile. rewrite Hc. split.
  - change (c :: m ++ [l]) with ((c :: m) ++ [l]). now apply trimEnd_last.
  - apply (trimEnd_last [] c Hc).
Qed.

Lemma trim_shape (s : jsstring) : trim s = [] \/ cleanEnds (trim s).
Proof.
  unfold trim, trimEnd, trimStart.
  destruct (dropWhile isWhiteSpace s) as [|c t] eqn:Es; [now left|].
  pose proof (dropWhile_head _ _ Es) as Hc. right. unfold cleanEnds.
  destruct (dropWhile isWhiteSpace (rev (c :: t))) as [|l u] eqn:Er.
  - exfalso. apply dropWhile_nil_iff in Er. rewrite forallb_rev in Er.
    simpl in Er. rewrite Hc in Er. discriminate.
  - pose proof (dropWhile_head _ _ Er) as Hl.
    destruct (dropWhile_suffix isWhiteSpace (rev (c :: t))) as (w & Hw & _).
    rewrite Er in Hw. apply (f_equal (@rev N)) in Hw.
    rewrite rev_involutive, rev_app_distr in Hw. simpl rev in Hw.
    simpl rev at 1.
    destruct (rev u) as [|c' m] eqn:Eu.
    + left. exists l. simpl. rewrite ?Eu. split; [reflexivity|assumption].
    + right. simpl in Hw. injection Hw as Hcc _. subst c'.
      exists c, m, l. simpl. rewrite ?Eu. auto.
Qed.

Lemma cleanEnds_trim (s : jsstring) : cleanEnds s -> trim s = s.
Proof.
  intros [(c & -> & Hc) | (c & m & l & -> & Hc & Hl)].
  - exact (proj2 (@trim_fixed [] c c Hc Hc)).
  - exact (proj1 (@trim_fixed m c l Hc Hl)).
Qed.

Lemma cleanEnds_collapse (s : jsstring) :
  cleanEnds s -> cleanEnds (collapseNewlines s).
Proof.
  intros [(c & -> & Hc) | (c & m & l & -> & Hc & Hl)].
  - left. exists c. rewrite collapse_cons_other by now apply whitespace_NL.
    auto.
  - right. exists c, (collapseNewlines m), l.
    rewrite collapse_cons_other, collapse_app_other by now apply whitespace_NL.
    auto.
Qed.

Lemma cleanEnds_prefix (s : jsstring) :
  cleanEnds s -> cleanEnds (js "### " ++ s).
Proof.
  intros [(c & -> & Hc) | (c & m & l & -> & Hc & Hl)]; right.
  - exists 35%N, (js "## "), c. auto.
  - exists 35%N, (js "## " ++ c :: m), l. rewrite <- app_assoc. auto.
Qed.

Lemma collapse_startsWith (e : jsstring) :
  startsWith e (js "###") = true ->
  startsWith (collapseNewlines e) (js "###") = true.
Proof.
  intros H. apply startsWith_inv in H as [r ->].
  change (js "###" ++ r) with (35%N :: 35%N :: 35%N :: r).
  rewrite !collapse_cons_other by reflexivity. reflexivity.
Qed.

(** The entry before the newlines are collapsed. *)
Lemma format_unfold (aiResponse : jsstring) (repoName : option jsstring) :
  formatChangelogEntry aiResponse repoName
  = collapseNewlines
      (if startsWith (trim aiResponse) (js "###") then trim aiResponse
       else js "### " ++ trim aiResponse).
Proof.
  unfold formatChangelogEntry, collapseNewlines.
  destruct (startsWith (trim aiResponse) (js "###")); reflexivity.
Qed.

Lemma format_startsWith (aiResponse : jsstring) (repoName : option jsstring) :
  startsWith (formatChangelogEntry aiResponse repoName) (js "###") = true.
Proof.
  rewrite format_unfold. apply collapse_startsWith.
  destruct (startsWith (trim aiResponse) (js "###")) eqn:E; [assumption|].
  reflexivity.
Qed.

Lemma format_no_triple (aiResponse : jsstring) (repoName : option jsstring) :
  includes (formatChangelogEntry aiResponse repoName) (js "\n\n\n") = false.
Proof.
  rewrite format_unfold. apply noTriple_not_includes, noTriple_collapse.
Qed.

Lemma format_blank (aiResponse : jsstring) (repoName : option jsstring) :
  forallb isWhiteSpace aiResponse = true ->
  formatChangelogEntry aiResponse repoName = js "### ".
Proof.
  intros H. apply trim_nil_iff in H. rewrite format_unfold, H. reflexivity.
Qed.

Lemma format_cleanEnds (aiResponse : jsstring) (repoName : option jsstring) :
  forallb isWhiteSpace aiResponse = false ->
  cleanEnds (formatChangelogEntry aiResponse repoName).
Proof.
  intros H. rewrite format_unfold. apply cleanEnds_collapse.
  destruct (trim_shape aiResponse) as [E|Hc].
  - apply trim_nil_iff in E. congruence.
  - destruct (startsWith (trim aiResponse) (js "###")); [assumption|].
    now apply cleanEnds_prefix.
Qed.

Lemma lead_three (s : jsstring) :
  3 <= lead (only NL) s -> exists r, s = js "\n\n\n" ++ r.
Proof.
  intros H.
  destruct s as [|a [|b [|c r]]]; simpl in H;
    repeat match type of H with
           | context [only NL ?x] =>
               let E := fresh "E" in
               destruct (only NL x) eqn:E; [apply N.eqb_eq in E; subst x|]
           end; try lia.
  now exists r.
Qed.

Lemma not_includes_noTriple (s : jsstring) :
  includes s (js "\n\n\n") = false -> noTriple s = true.
Proof.
  induction s as [|x s IH]; intros H; [reflexivity|].
  cbn [noTriple]. apply andb_true_intro. split.
  - apply Nat.ltb_lt. destruct (Nat.lt_ge_cases (lead (only NL) (x :: s)) 3) as [|Hge];
      [assumption|].
    apply lead_three in Hge as [r Hr]. rewrite Hr in H.
    assert (includes (js "\n\n\n" ++ r) (js "\n\n\n") = true)
      by (apply includes_iff; now exists [], r).
    congruence.
  - apply IH. destruct (includes s (js "\n\n\n")) eqn:E; [|reflexivity].
    apply (includes_cons x) in E. congruence.
Qed.

Lemma format_wellFormed (e : jsstring) (repoName : option jsstring) :
  wellFormedEntry e -> formatChangelogEntry e repoName = e.
Proof.
  intros (Ht & Hs & Hn). rewrite format_unfold, Ht, Hs.
  now apply collapse_noTriple, not_includes_noTriple.
Qed.

End FormatLemmas.

(** X1.  Whatever the model answers, the entry [formatChangelogEntry]
    returns starts with [###] and has no three line feeds in a row; when
    the answer is not blank the entry neither begins nor ends with white
    space, and a blank answer gives the bare marker [### ]. *)
Theorem format_entry_shape (aiResponse : jsstring) (repoName : option jsstring) :
  startsWith (formatChangelogEntry aiResponse repoName) (js "###") = true
  /\ includes (formatChangelogEntry aiResponse repoName) (js "\n\n\n") = false
  /\ (forallb isWhiteSpace aiResponse = false ->
      trim (formatChangelogEntry aiResponse repoName)
      = formatChangelogEntry aiResponse repoName)
  /\ (forallb isWhiteSpace aiResponse = true ->
      formatChangelogEntry aiResponse repoName = js "### ").
Proof.
  split; [apply format_startsWith|]. split; [apply format_no_triple|]. split.
  - intros H. now apply cleanEnds_trim, format_cleanEnds.
  - apply format_blank.
Qed.

Lemma format_entry_shape_witness :
  forallb isWhiteSpace (js "  Zmiany\n\n\n\n- fix \n") = false
  /\ trim (formatChangelogEntry (js "  Zmiany\n\n\n\n- fix \n") None)
     = formatChangelogEntry (js "  Zmiany\n\n\n\n- fix \n") None
  /\ forallb isWhiteSpace (js " \n") = true
  /\ formatChangelogEntry (js " \n") None = js "### ".
Proof.
  split; [reflexivity|]. split.
  - apply (proj1 (proj2 (proj2 (format_entry_shape
                                  (js "  Zmiany\n\n\n\n- fix \n") None)))).
    reflexivity.
  - split; [reflexivity|].
    apply (proj2 (proj2 (proj2 (format_entry_shape (js " \n") None)))).
    reflexivity.
Defined.

(** X2.  [formatChangelogEntry] leaves a well-formed entry (trimmed, headed
    by [###], no three line feeds in a row) as it is, and formatting twice
    is formatting once for every answer that is not blank.  For a blank
    answer it is not: the bare marker [### ] loses its space the second
    time. *)
Theorem format_entry_idempotent :
  (forall (e : jsstring) (repoName : option jsstring),
      wellFormedEntry e -> formatChangelogEntry e repoName = e)
  /\ (forall (aiResponse : jsstring) (repoName repoName' : option jsstring),
         forallb isWhiteSpace aiResponse = false ->
         formatChangelogEntry (formatChangelogEntry aiResponse repoName) repoName'
         = formatChangelogEntry aiResponse repoName)
  /\ (forall (aiResponse : jsstring) (repoName repoName' : option jsstring),
         forallb isWhiteSpace aiResponse = true ->
         formatChangelogEntry (formatChangelogEntry aiResponse repoName) repoName'
         = js "###").
Proof.
  split; [exact format_wellFormed|]. split.
  - intros aiResponse repoName repoName' H. apply format_wellFormed.
    split; [now apply cleanEnds_trim, format_cleanEnds|].
    split; [apply format_startsWith|apply format_no_triple].
  - intros aiResponse repoName repoName' H.
    rewrite (@format_blank aiResponse repoName H). reflexivity.
Qed.

Lemma format_entry_idempotent_witness :
  wellFormedEntry (js "### 01.01.2024 - 07.01.2024\n\n- fix")
  /\ formatChangelogEntry (js "### 01.01.2024 - 07.01.2024\n\n- fix") None
     = js "### 01.01.2024 - 07.01.2024\n\n- fix"
  /\ forallb isWhiteSpace (js " Zmiany\n\n\n- fix\n") = false
  /\ formatChangelogEntry (formatChangelogEntry (js " Zmiany\n\n\n- fix\n") None) None
     = formatChangelogEntry (js " Zmiany\n\n\n- fix\n") None.
Proof.
  assert (H : wellFormedEntry (js "### 01.01.2024 - 07.01.2024\n\n- fix"))
    by (unfold wellFormedEntry; repeat split).
  split; [exact H|].
  split; [exact (proj1 format_entry_idempotent _ None H)|].
  split; [reflexivity|].
  exact (proj1 (proj2 format_entry_idempotent) (js " Zmiany\n\n\n- fix\n")
           None None eq_refl).
Defined.

(** ** Further properties: [updateChangelogFile] *)

Section MergerMore.

Lemma includes_firstn_skipn (s : jsstring) (k n : nat) :
  includes s (firstn n (skipn k s)) = true.
Proof.
  apply includes_iff. exists (firstn k s), (skipn n (skipn k s)).
  now rewrite firstn_skipn, firstn_skipn.
Qed.

Lemma matchFrom_includes (re : regex) (s : jsstring) (i : nat) (m : MatchResult) :
  matchFrom re s i = Some m -> includes s (group1 m) = true.
Proof.
  revert i; induction s as [|x s IH]; intros i H; simpl in H.
  - destruct (matchHere re [] 0 0 0) as [[[e gs] ge]|]; [|discriminate].
    injection H as <-. apply includes_firstn_skipn.
  - destruct (matchHere re (x :: s) 0 0 0) as [[[e gs] ge]|].
    + injection H as <-. apply includes_firstn_skipn.
    + apply includes_cons. eapply IH. eassumption.
Qed.

(** The date range the pattern extracts is part of the entry. *)
Lemma dateRangeOf_includes (newEntry d : jsstring) :
  dateRangeOf newEntry = Some d -> includes newEntry d = true.
Proof.
  unfold dateRangeOf, match_.
  destruct (matchFrom dateRangePattern newEntry 0) as [m|] eqn:E; [|discriminate].
  intros [= <-]. eapply matchFrom_includes. eassumption.
Qed.

Lemma update_changed_fresh (newEntry : jsstring) (repoName : option jsstring)
  (existing : jsstring) :
  hasChanges (returned (updateChangelogFile newEntry repoName (Some existing))) = true ->
  forall d, dateRangeOf newEntry = Some d -> includes existing d = false.
Proof.
  intros H d Hd. destruct (includes existing d) eqn:E; [|reflexivity].
  rewrite (update_duplicate newEntry repoName existing Hd E) in H. discriminate.
Qed.

Lemma update_changed_shape (newEntry : jsstring) (repoName : option jsstring)
  (existing : jsstring) :
  hasChanges (returned (updateChangelogFile newEntry repoName (Some existing))) = true ->
  exists tail,
    content (returned (updateChangelogFile newEntry repoName (Some existing)))
    = header repoName ++ newEntry ++ tail
    /\ (tail = []
        \/ exists dropped kept,
             existing = dropped ++ kept /\ tail = js "\n\n" ++ kept).
Proof.
  intros H. pose proof (update_changed_fresh _ _ _ H) as Hfresh.
  rewrite (update_fresh _ repoName _ Hfresh). cbn [content].
  destruct (JS.eqb (trim existing) (js "")
            || negb (includes existing (headerLine repoName))).
  - exists []. rewrite app_nil_r. auto.
  - destruct (indexOf existing (header repoName)) as [i|] eqn:Ei.
    + eexists. split; [reflexivity|]. right.
      exists (firstn (i + length (header repoName)) existing),
             (skipn (i + length (header repoName)) existing).
      now rewrite firstn_skipn.
    + eexists. split; [reflexivity|]. right. now exists [], existing.
Qed.

Lemma update_unchanged_iff (newEntry : jsstring) (repoName : option jsstring)
  (existing : jsstring) :
  hasChanges (returned (updateChangelogFile newEntry repoName (Some existing))) = false
  <-> exists d, dateRangeOf newEntry = Some d /\ includes existing d = true.
Proof.
  split.
  - intros H. destruct (dateRangeOf newEntry) as [d|] eqn:Ed.
    + destruct (includes existing d) eqn:Ei; [now exists d|].
      rewrite update_fresh in H by (intros d' Hd'; congruence). discriminate.
    + rewrite update_fresh in H by (intros d' Hd'; congruence). discriminate.
  - intros (d & Hd & Hi). now rewrite (update_duplicate _ repoName _ Hd Hi).
Qed.

End MergerMore.

(** X3.  [updateChangelogFile] reports no change exactly when the pattern
    extracts a date range from the new entry and the existing document
    contains it, and then returns the existing document itself; a missing
    [existingContent] counts as the empty document. *)
Theorem merger_no_change_iff (newEntry : jsstring) (repoName : option jsstring)
  (existing : jsstring) :
  (hasChanges (returned (updateChangelogFile newEntry repoName (Some existing))) = false
   <-> exists d, dateRangeOf newEntry = Some d /\ includes existing d = true)
  /\ (hasChanges (returned (updateChangelogFile newEntry repoName (Some existing)))
      = false ->
      content (returned (updateChangelogFile newEntry repoName (Some existing)))
      = existing)
  /\ returned (updateChangelogFile newEntry repoName None)
     = returned (updateChangelogFile newEntry repoName (Some (js ""))).
Proof.
  pose proof (update_unchanged_iff newEntry repoName existing) as Hiff.
  split; [exact Hiff|]. split; [|reflexivity].
  intros H. apply Hiff in H as (d & Hd & Hi).
  now rewrite (update_duplicate _ repoName _ Hd Hi).
Qed.

Lemma merger_no_change_iff_witness :
  hasChanges (returned (updateChangelogFile (js "### 01.01.2024 - 07.01.2024\n- x") None
                (Some (js "notes on 01.01.2024 - 07.01.2024")))) = false
  /\ content (returned (updateChangelogFile (js "### 01.01.2024 - 07.01.2024\n- x") None
                (Some (js "notes on 01.01.2024 - 07.01.2024"))))
     = js "notes on 01.01.2024 - 07.01.2024".
Proof.
  assert (H : hasChanges
                (returned (updateChangelogFile (js "### 01.01.2024 - 07.01.2024\n- x") None
                   (Some (js "notes on 01.01.2024 - 07.01.2024")))) = false)
    by reflexivity.
  split; [exact H|].
  exact (proj1 (proj2 (merger_no_change_iff
                         (js "### 01.01.2024 - 07.01.2024\n- x") None
                         (js "notes on 01.01.2024 - 07.01.2024"))) H).
Defined.

(** X4.  Whenever [updateChangelogFile] reports a change, the content is
    the header, then the new entry, then either nothing or a blank line
    followed by a suffix of the existing document: what is kept of the old
    text is kept verbatim and below the new entry. *)
Theorem merger_insertion_shape (newEntry : jsstring) (repoName : option jsstring)
  (existing : jsstring) :
  hasChanges (returned (updateChangelogFile newEntry repoName (Some existing))) = true ->
  exists tail,
    content (returned (updateChangelogFile newEntry repoName (Some existing)))
    = header repoName ++ newEntry ++ tail
    /\ (tail = []
        \/ exists dropped kept,
             existing = dropped ++ kept /\ tail = js "\n\n" ++ kept).
Proof. apply update_changed_shape. Qed.

Lemma merger_insertion_shape_witness :
  hasChanges (returned (updateChangelogFile (js "### B\n- y") (Some (js "R"))
                (Some (js "old\n## R - Changelog\n\n### A\n- x\n")))) = true
  /\ exists tail,
       content (returned (updateChangelogFile (js "### B\n- y") (Some (js "R"))
                  (Some (js "old\n## R - Changelog\n\n### A\n- x\n"))))
       = header (Some (js "R")) ++ js "### B\n- y" ++ tail
       /\ (tail = []
           \/ exists dropped kept,
                js "old\n## R - Changelog\n\n### A\n- x\n" = dropped ++ kept
                /\ tail = js "\n\n" ++ kept).
Proof.
  assert (H : hasChanges
                (returned (updateChangelogFile (js "### B\n- y") (Some (js "R"))
                   (Some (js "old\n## R - Changelog\n\n### A\n- x\n")))) = true)
    by reflexivity.
  split; [exact H|].
  exact (merger_insertion_shape (js "### B\n- y") (Some (js "R"))
           (js "old\n## R - Changelog\n\n### A\n- x\n") H).
Defined.

(** X5.  Merging twice is merging once for an entry with a date range:
    when the pattern extracts a date range from the new entry, merging the
    entry into the content of its own merge reports no change and returns
    that content, whatever the existing document was. *)
Theorem merger_second_merge_unchanged (newEntry : jsstring)
  (repoName : option jsstring) (existing d : jsstring) :
  dateRangeOf newEntry = Some d ->
  returned (updateChangelogFile newEntry repoName
    (Some (content (returned (updateChangelogFile newEntry repoName (Some existing))))))
  = {| content :=
         content (returned (updateChangelogFile newEntry repoName (Some existing)));
       hasChanges := false |}.
Proof.
  intros Hd. apply update_duplicate with (d := d); [assumption|].
  destruct (hasChanges (returned (updateChangelogFile newEntry repoName (Some existing))))
    eqn:Hc.
  - destruct (update_changed_shape _ _ _ Hc) as (tail & -> & _).
    apply dateRangeOf_includes in Hd. apply includes_iff in Hd as (b & a & ->).
    apply includes_iff. exists (header repoName ++ b), (a ++ tail).
    now rewrite <- !app_assoc.
  - destruct (proj1 (update_unchanged_iff newEntry repoName existing) Hc)
      as (d' & Hd' & Hi).
    rewrite (update_duplicate _ repoName _ Hd' Hi). cbn [content].
    congruence.
Qed.

Lemma merger_second_merge_unchanged_witness :
  dateRangeOf (js "### 01.01.2024 - 07.01.2024\n- x")
  = Some (js "01.01.2024 - 07.01.2024")
  /\ returned (updateChangelogFile (js "### 01.01.2024 - 07.01.2024\n- x") (Some (js "R"))
       (Some (content (returned (updateChangelogFile (js "### 01.01.2024 - 07.01.2024\n- x")
                         (Some (js "R")) (Some (js "")))))))
     = {| content := js "## R - Changelog\n\n### 01.01.2024 - 07.01.2024\n- x";
          hasChanges := false |}.
Proof.
  split; [reflexivity|].
  exact (merger_second_merge_unchanged (js "### 01.01.2024 - 07.01.2024\n- x")
           (Some (js "R")) (js "") (d := js "01.01.2024 - 07.01.2024") eq_refl).
Defined.

(** X6.  A document that has the header line but not the header with its
    blank line (the line is followed by something else, or ends the file)
    is kept whole: the Merger puts a header of its own and the new entry
    above it, so that the result has the header line twice. *)
Theorem merger_second_header (newEntry : jsstring) (repoName : option jsstring)
  (existing : jsstring) :
  (forall d, dateRangeOf newEntry = Some d -> includes existing d = false) ->
  includes existing (headerLine repoName) = true ->
  includes existing (header repoName) = false ->
  exists before after,
    existing = before ++ headerLine repoName ++ after
    /\ content (returned (updateChangelogFile newEntry repoName (Some existing)))
       = headerLine repoName ++ js "\n\n" ++ newEntry ++ js "\n\n"
         ++ before ++ headerLine repoName ++ after
    /\ hasChanges (returned (updateChangelogFile newEntry repoName (Some existing)))
       = true.
Proof.
  intros Hfresh Hline Hno.
  rewrite (merger_prepends_to_other_header _ repoName _ Hfresh Hline Hno).
  apply includes_iff in Hline as (before & after & Hex).
  exists before, after. split; [assumption|]. split; [|reflexivity].
  cbn [content]. unfold header. rewrite <- app_assoc. now rewrite <- Hex.
Qed.

Lemma merger_second_header_witness :
  (forall d, dateRangeOf (js "### B\n- y") = Some d ->
     includes (js "## R - Changelog\n### A\n") d = false)
  /\ includes (js "## R - Changelog\n### A\n") (headerLine (Some (js "R"))) = true
  /\ includes (js "## R - Changelog\n### A\n") (header (Some (js "R"))) = false
  /\ exists before after,
       js "## R - Changelog\n### A\n" = before ++ headerLine (Some (js "R")) ++ after
       /\ content (returned (updateChangelogFile (js "### B\n- y") (Some (js "R"))
                     (Some (js "## R - Changelog\n### A\n"))))
          = headerLine (Some (js "R")) ++ js "\n\n" ++ js "### B\n- y" ++ js "\n\n"
            ++ before ++ headerLine (Some (js "R")) ++ after
       /\ hasChanges (returned (updateChangelogFile (js "### B\n- y") (Some (js "R"))
                        (Some (js "## R - Changelog\n### A\n")))) = true.
Proof.
  assert (H1 : forall d, dateRangeOf (js "### B\n- y") = Some d ->
                         includes (js "## R - Changelog\n### A\n") d = false)
    by (intros d Hd; discriminate Hd).
  split; [exact H1|]. split; [reflexivity|]. split; [reflexivity|].
  exact (merger_second_header (js "### B\n- y") (Some (js "R"))
           (js "## R - Changelog\n### A\n") H1 eq_refl eq_refl).
Defined.

(** X7.  Formatting then merging: whatever the model answers, when the
    Merger reports a change for the formatted entry, the new document
    starts with the header immediately followed by the marker [###] of the
    new entry. *)
Theorem formatted_entry_heads_document (aiResponse : jsstring)
  (repoName : option jsstring) (existing : jsstring) :
  hasChanges (returned (updateChangelogFile (formatChangelogEntry aiResponse repoName)
                repoName (Some existing))) = true ->
  startsWith
    (content (returned (updateChangelogFile (formatChangelogEntry aiResponse repoName)
                repoName (Some existing))))
    (header repoName ++ js "###") = true.
Proof.
  intros H. destruct (update_changed_shape _ _ _ H) as (tail & -> & _).
  pose proof (format_startsWith aiResponse repoName) as Hs.
  apply startsWith_inv in Hs as [r ->].
  rewrite <- !app_assoc, (app_assoc (header repoName)). apply startsWith_app.
Qed.

Lemma formatted_entry_heads_document_witness :
  hasChanges (returned (updateChangelogFile (formatChangelogEntry (js "Zmiany\n- x") None)
                None (Some (js "")))) = true
  /\ startsWith
       (content (returned (updateChangelogFile (formatChangelogEntry (js "Zmiany\n- x") None)
                   None (Some (js "")))))
       (header None ++ js "###") = true.
Proof.
  assert (H : hasChanges
                (returned (updateChangelogFile (formatChangelogEntry (js "Zmiany\n- x") None)
                   None (Some (js "")))) = true) by reflexivity.
  split; [exact H|].
  exact (formatted_entry_heads_document (js "Zmiany\n- x") None (js "") H).
Defined.

(** ** Further properties: the wrappers of github-utils.js *)

Section WrapperLemmas.

Lemma split_two (sep : N) (a b tail : jsstring) :
  ~ In sep a -> ~ In sep b ->
  tail = [] \/ (exists t, tail = sep :: t) ->
  exists more, split sep (a ++ sep :: b ++ tail) = a :: b :: more.
Proof.
  intros Ha Hb Htail. rewrite split_app_sep, (split_no_sep _ _ Ha). simpl.
  destruct Htail as [-> | [t ->]].
  - rewrite app_nil_r, (split_no_sep _ _ Hb). now exists [].
  - rewrite split_app_sep, (split_no_sep _ _ Hb). simpl. now eexists.
Qed.

End WrapperLemmas.

(** X8.  [getRepoInfo] splits GITHUB_REPOSITORY at its slashes: for
    [owner/repo], also when more segments follow, it gives that owner and
    that repo; for a value without a slash the repo is undefined; and for an
    unset or empty variable the owner is the empty string and the repo is
    undefined. *)
Theorem getRepoInfo_segments (env : Env) :
  (forall owner repo tail : jsstring,
      ~ In 47%N owner -> ~ In 47%N repo ->
      tail = [] \/ (exists t, tail = 47%N :: t) ->
      GITHUB_REPOSITORY env = Some (owner ++ js "/" ++ repo ++ tail) ->
      getRepoInfo env = (owner, Some repo))
  /\ (forall name : jsstring,
         ~ In 47%N name -> GITHUB_REPOSITORY env = Some name ->
         getRepoInfo env = (name, None))
  /\ (truthy (GITHUB_REPOSITORY env) = false -> getRepoInfo env = ([], None)).
Proof.
  unfold getRepoInfo. split; [|split].
  - intros owner repo tail Ho Hr Htail ->.
    destruct (@split_two 47%N owner repo tail Ho Hr Htail) as [more Hsplit].
    change (js "/" ++ repo ++ tail) with (47%N :: repo ++ tail).
    assert (Hv : or_else (Some (owner ++ 47%N :: repo ++ tail)) (Some (js ""))
                 = Some (owner ++ 47%N :: repo ++ tail))
      by (destruct owner; reflexivity).
    rewrite Hv. cbn [withDefault]. rewrite Hsplit. reflexivity.
  - intros name Hn ->. destruct name as [|c name]; [reflexivity|].
    cbn [or_else truthy withDefault]. rewrite (split_no_sep _ _ Hn). reflexivity.
  - intros H. destruct (GITHUB_REPOSITORY env) as [[|c s]|];
      [reflexivity|discriminate|reflexivity].
Qed.

Lemma getRepoInfo_segments_witness :
  ~ In 47%N (js "acme") /\ ~ In 47%N (js "demo")
  /\ GITHUB_REPOSITORY Example.env = Some (js "acme" ++ js "/" ++ js "demo" ++ [])
  /\ getRepoInfo Example.env = (js "acme", Some (js "demo")).
Proof.
  assert (H1 : ~ In 47%N (js "acme")) by (simpl; intuition discriminate).
  assert (H2 : ~ In 47%N (js "demo")) by (simpl; intuition discriminate).
  split; [exact H1|]. split; [exact H2|]. split; [reflexivity|].
  exact (proj1 (getRepoInfo_segments Example.env) (js "acme") (js "demo") []
           H1 H2 (or_introl eq_refl) eq_refl).
Defined.

(** X9.  [getFileContent] makes one request and settles by its answer: a
    file gives its decoded content; a directory listing or no data gives
    null; a rejection with status 404 gives null too, and nothing is
    logged; a rejection with any other status is logged with [core.error]
    and rethrown as it is.  So it never rejects with a 404. *)
Theorem getFileContent_outcomes (P : Platform) (token owner : jsstring)
  (repo : option jsstring) (path : jsstring) (branch : option jsstring)
  (tr : Trace) :
  let ref := withDefault (js "main") branch in
  let answer := repos_getContent (getOctokit P token) owner repo path ref tr in
  let asked := tr ++ [GetContent owner repo path ref] in
  (forall encoded file_sha, answer = Resolved (FileData encoded file_sha) ->
     getFileContent P token owner repo path branch tr
     = (asked, Resolved (Some (base64Decode P encoded))))
  /\ (answer = Resolved DirectoryListing \/ answer = Resolved NoData ->
      getFileContent P token owner repo path branch tr = (asked, Resolved None))
  /\ (forall e, answer = Rejected e -> err_status e = Some 404%Z ->
      getFileContent P token owner repo path branch tr = (asked, Resolved None))
  /\ (forall e, answer = Rejected e -> err_status e <> Some 404%Z ->
      getFileContent P token owner repo path branch tr
      = (asked ++ [CoreError (js "Error getting file content: " ++ err_message e)],
         Rejected e))
  /\ (forall e, snd (getFileContent P token owner repo path branch tr) = Rejected e ->
      err_status e <> Some 404%Z).
Proof.
  intros ref answer asked.
  assert (Hnot : forall e, err_status e <> Some 404%Z ->
            match err_status e with Some st => (st =? 404)%Z | None => false end
            = false).
  { intros e He. destruct (err_status e) as [st|]; [|reflexivity].
    destruct (Z.eqb_spec st 404); congruence. }
  unfold getFileContent, tryCatch, bind, request, emit, ret, throw.
  fold ref. fold answer. fold asked.
  split; [|split; [|split; [|split]]].
  - intros encoded file_sha ->. reflexivity.
  - intros [-> | ->]; reflexivity.
  - intros e -> ->. reflexivity.
  - intros e -> He. rewrite (Hnot e He). reflexivity.
  - intros e. destruct answer as [[enc s| |]|e'] eqn:Ea; try discriminate.
    destruct (err_status e') as [st|] eqn:Es.
    + destruct (Z.eqb_spec st 404) as [->|Hne]; [discriminate|].
      intros [= <-]. congruence.
    + intros [= <-]. congruence.
Qed.

Lemma getFileContent_outcomes_witness :
  repos_getContent (getOctokit Example.emptyRepo (js "t")) (js "acme")
    (Some (js "demo")) (js "CHANGELOG.md") (js "main") []
  = Rejected Example.notFound
  /\ err_status Example.notFound = Some 404%Z
  /\ getFileContent Example.emptyRepo (js "t") (js "acme") (Some (js "demo"))
       (js "CHANGELOG.md") None []
     = ([GetContent (js "acme") (Some (js "demo")) (js "CHANGELOG.md") (js "main")],
        Resolved None).
Proof.
  split; [reflexivity|]. split; [reflexivity|].
  exact (proj1 (proj2 (proj2 (getFileContent_outcomes Example.emptyRepo (js "t")
                                (js "acme") (Some (js "demo")) (js "CHANGELOG.md")
                                None [])))
           Example.notFound eq_refl eq_refl).
Defined.

(** X10.  [updateOrCreateFile] always attempts the write, whatever the
    read of the current file answers: a read that fails, with any status,
    is taken as an absent file.  The write carries the base64 encoding of
    the content and the sha of the current file when the read found one,
    and the call settles as the write does: it resolves when the write
    resolves and rejects, after [core.error], with the error of the write. *)
Theorem updateOrCreateFile_outcomes (P : Platform) (token owner : jsstring)
  (repo : option jsstring) (path content message : jsstring)
  (branch : option jsstring) (tr : Trace) :
  let ref := withDefault (js "main") branch in
  let api := getOctokit P token in
  let tr1 := tr ++ [ConsoleLog (js "Updating file " ++ path ++ js " on branch " ++ ref)] in
  let read := repos_getContent api owner repo path ref tr1 in
  let prior := match read with
               | Resolved (FileData _ file_sha) => Some file_sha
               | _ => None
               end in
  let tr2 := (tr1 ++ [GetContent owner repo path ref])
             ++ match read with
                | Rejected _ =>
                    [ConsoleLog (js "File " ++ path ++ js " doesn't exist, will create it")]
                | Resolved _ => []
                end in
  let written := CreateOrUpdateFileContents owner repo path message
                   (base64Encode P content) ref prior in
  let write := repos_createOrUpdateFileContents api owner repo path message
                 (base64Encode P content) ref prior tr2 in
  (write = Resolved tt ->
   updateOrCreateFile P token owner repo path content message branch tr
   = (tr2 ++ [written;
              ConsoleLog (js "Successfully "
                          ++ (if truthy prior then js "updated" else js "created")
                          ++ js " file " ++ path)],
      Resolved tt))
  /\ (forall e, write = Rejected e ->
      updateOrCreateFile P token owner repo path content message branch tr
      = (tr2 ++ [written; CoreError (js "Error updating file: " ++ err_message e)],
         Rejected e)).
Proof.
  intros ref api tr1 read prior tr2 written write.
  unfold updateOrCreateFile, tryCatch, bind, request, emit, ret, throw.
  fold ref. fold api. fold tr1. fold read.
  subst write written tr2 prior.
  destruct read as [[enc s| |]|e0]; rewrite ?app_nil_r;
    (split; [intros ->|intros e ->]); rewrite <- ?app_assoc; reflexivity.
Qed.

Lemma updateOrCreateFile_outcomes_witness :
  repos_createOrUpdateFileContents (getOctokit Example.emptyRepo (js "t"))
    (js "acme") (Some (js "demo")) (js "CHANGELOG.md") (js "msg")
    (base64Encode Example.emptyRepo (js "text")) (js "b") None
    [ConsoleLog (js "Updating file CHANGELOG.md on branch b");
     GetContent (js "acme") (Some (js "demo")) (js "CHANGELOG.md") (js "b");
     ConsoleLog (js "File CHANGELOG.md doesn't exist, will create it")]
  = Resolved tt
  /\ updateOrCreateFile Example.emptyRepo (js "t") (js "acme") (Some (js "demo"))
       (js "CHANGELOG.md") (js "text") (js "msg") (Some (js "b")) []
     = ([ConsoleLog (js "Updating file CHANGELOG.md on branch b");
         GetContent (js "acme") (Some (js "demo")) (js "CHANGELOG.md") (js "b");
         ConsoleLog (js "File CHANGELOG.md doesn't exist, will create it");
         CreateOrUpdateFileContents (js "acme") (Some (js "demo"))
           (js "CHANGELOG.md") (js "msg") (js "text") (js "b") None;
         ConsoleLog (js "Successfully created file CHANGELOG.md")],
        Resolved tt).
Proof.
  split; [reflexivity|].
  exact (proj1 (updateOrCreateFile_outcomes Example.emptyRepo (js "t") (js "acme")
                  (Some (js "demo")) (js "CHANGELOG.md") (js "text") (js "msg")
                  (Some (js "b")) []) eq_refl).
Defined.

(** ** Further properties: [createBranch] and the rejections of the wrappers *)

(** The catch block of [createBranch], for an outcome that rejects. *)
Ltac rejected_in_catch e H :=
  let Eg := fresh "Eg" in
  destruct (match err_status e with Some st => (st =? 422)%Z | None => false end);
  cbv beta iota in H;
  [ match type of H with
    | context [git_getRef ?a ?o ?r ?ref ?t] =>
        destruct (git_getRef a o r ref t) eqn:Eg
    end; [discriminate|];
    injection H as <- <-;
    right; eexists; split; [reflexivity|exact Eg]
  | injection H as <- <-; left; eexists; reflexivity ].

(** X11.  Whenever [createBranch] resolves, the sha it returns is one the
    hosting API has just answered for a ref, in one of three ways: the
    read of [heads/<baseBranch>] ([main] when no base is given) gave it and
    the ref [refs/heads/<branchName>] has been created at that very sha; or
    the creation of that ref was rejected with status 422 and the read of
    [heads/<branchName>] that follows gave it; or the read of the base ref
    itself was rejected with status 422 and the read of
    [heads/<branchName>] that follows gave it. *)
Theorem createBranch_resolves_with_read_sha (P : Platform) (token owner : jsstring)
  (repo : option jsstring) (branchName : jsstring) (baseBranch : option jsstring)
  (tr tr' : Trace) (sha : jsstring) :
  let api := getOctokit P token in
  let base := withDefault (js "main") baseBranch in
  let tr1 := tr ++ [ConsoleLog (js "Creating branch " ++ branchName
                                ++ js " from " ++ base)] in
  let tr2 := tr1 ++ [GetRef owner repo (js "heads/" ++ base)] in
  let alreadyThere := ConsoleLog (js "Branch " ++ branchName
                             ++ js " already exists, using it") in
  createBranch P token owner repo branchName baseBranch tr = (tr', Resolved sha) ->
  (git_getRef api owner repo (js "heads/" ++ base) tr1 = Resolved sha
   /\ git_createRef api owner repo (js "refs/heads/" ++ branchName) sha tr2
      = Resolved tt
   /\ tr' = tr2 ++ [CreateRef owner repo (js "refs/heads/" ++ branchName) sha;
                    ConsoleLog (js "Successfully created branch " ++ branchName)])
  \/ (exists baseSha e,
        let tr3 := tr2 ++ [CreateRef owner repo (js "refs/heads/" ++ branchName)
                             baseSha; alreadyThere] in
        git_getRef api owner repo (js "heads/" ++ base) tr1 = Resolved baseSha
        /\ git_createRef api owner repo (js "refs/heads/" ++ branchName) baseSha tr2
           = Rejected e
        /\ err_status e = Some 422%Z
        /\ git_getRef api owner repo (js "heads/" ++ branchName) tr3 = Resolved sha
        /\ tr' = tr3 ++ [GetRef owner repo (js "heads/" ++ branchName)])
  \/ (exists e,
        let tr3 := tr2 ++ [alreadyThere] in
        git_getRef api owner repo (js "heads/" ++ base) tr1 = Rejected e
        /\ err_status e = Some 422%Z
        /\ git_getRef api owner repo (js "heads/" ++ branchName) tr3 = Resolved sha
        /\ tr' = tr3 ++ [GetRef owner repo (js "heads/" ++ branchName)]).
Proof.
  intros api base tr1 tr2 alreadyThere H. revert H.
  unfold createBranch, tryCatch, bind, request, emit, ret, throw.
  fold base. fold api. fold tr1.
  destruct (git_getRef api owner repo (js "heads/" ++ base) tr1) as [baseSha|e] eqn:Eb.
  - fold tr2.
    destruct (git_createRef api owner repo _ baseSha tr2) as [[]|e] eqn:Ec.
    + intros H. injection H as <- <-. left.
      split; [reflexivity|]. split; [exact Ec|]. now rewrite <- app_assoc.
    + intros H. right. left. exists baseSha, e. cbv zeta.
      destruct (err_status e) as [st|] eqn:Es; [|discriminate].
      destruct (Z.eqb_spec st 422) as [->|_]; [|discriminate].
      cbv beta iota in H. fold alreadyThere in H.
      replace (tr2 ++ [CreateRef owner repo (js "refs/heads/" ++ branchName) baseSha;
                       alreadyThere])
        with ((tr2 ++ [CreateRef owner repo (js "refs/heads/" ++ branchName)
                         baseSha]) ++ [alreadyThere])
        by now rewrite <- app_assoc.
      destruct (git_getRef api owner repo (js "heads/" ++ branchName) _) as [s|e0]
        eqn:Eg; [|discriminate].
      injection H as <- <-. repeat split; assumption || reflexivity.
  - fold tr2. intros H. right. right. exists e. cbv zeta.
    destruct (err_status e) as [st|] eqn:Es; [|discriminate].
    destruct (Z.eqb_spec st 422) as [->|_]; [|discriminate].
    cbv beta iota in H. fold alreadyThere in H.
    destruct (git_getRef api owner repo (js "heads/" ++ branchName) _) as [s|e0]
      eqn:Eg; [|discriminate].
    injection H as <- <-. repeat split; assumption || reflexivity.
Qed.

Lemma createBranch_resolves_with_read_sha_witness :
  (createBranch Example.emptyRepo (js "t") (js "acme") (Some (js "demo")) (js "b")
     None []
   = ([ConsoleLog (js "Creating branch b from main");
       GetRef (js "acme") (Some (js "demo")) (js "heads/main");
       CreateRef (js "acme") (Some (js "demo")) (js "refs/heads/b")
         (js "sha-of-heads/main");
       ConsoleLog (js "Successfully created branch b")],
      Resolved (js "sha-of-heads/main"))
   /\ git_createRef (getOctokit Example.emptyRepo (js "t")) (js "acme")
        (Some (js "demo")) (js "refs/heads/b") (js "sha-of-heads/main")
        [ConsoleLog (js "Creating branch b from main");
         GetRef (js "acme") (Some (js "demo")) (js "heads/main")]
      = Resolved tt)
  /\ (createBranch (Example.platform [] None (Some 422%Z) (js "")) (js "t")
        (js "acme") (Some (js "demo")) (js "b") None []
      = ([ConsoleLog (js "Creating branch b from main");
          GetRef (js "acme") (Some (js "demo")) (js "heads/main");
          CreateRef (js "acme") (Some (js "demo")) (js "refs/heads/b")
            (js "sha-of-heads/main");
          ConsoleLog (js "Branch b already exists, using it");
          GetRef (js "acme") (Some (js "demo")) (js "heads/b")],
         Resolved (js "sha-of-heads/b"))
      /\ exists e,
           git_createRef (getOctokit (Example.platform [] None (Some 422%Z) (js ""))
                            (js "t")) (js "acme")
             (Some (js "demo")) (js "refs/heads/b") (js "sha-of-heads/main")
             [ConsoleLog (js "Creating branch b from main");
              GetRef (js "acme") (Some (js "demo")) (js "heads/main")]
           = Rejected e
           /\ err_status e = Some 422%Z).
Proof.
  split.
  - assert (H : createBranch Example.emptyRepo (js "t") (js "acme")
                  (Some (js "demo")) (js "b") None []
                = ([ConsoleLog (js "Creating branch b from main");
                    GetRef (js "acme") (Some (js "demo")) (js "heads/main");
                    CreateRef (js "acme") (Some (js "demo")) (js "refs/heads/b")
                      (js "sha-of-heads/main");
                    ConsoleLog (js "Successfully created branch b")],
                   Resolved (js "sha-of-heads/main"))) by reflexivity.
    split; [exact H|].
    destruct (createBranch_resolves_with_read_sha Example.emptyRepo (js "t")
                (js "acme") (Some (js "demo")) (js "b") None [] H)
      as [(_ & Hc & _)|[(baseSha & e & _ & Hc & _)|(e & Hb & _)]].
    + exact Hc.
    + discriminate Hc.
    + discriminate Hb.
  - assert (H : createBranch (Example.platform [] None (Some 422%Z) (js ""))
                  (js "t") (js "acme") (Some (js "demo")) (js "b") None []
                = ([ConsoleLog (js "Creating branch b from main");
                    GetRef (js "acme") (Some (js "demo")) (js "heads/main");
                    CreateRef (js "acme") (Some (js "demo")) (js "refs/heads/b")
                      (js "sha-of-heads/main");
                    ConsoleLog (js "Branch b already exists, using it");
                    GetRef (js "acme") (Some (js "demo")) (js "heads/b")],
                   Resolved (js "sha-of-heads/b"))) by reflexivity.
    split; [exact H|].
    destruct (createBranch_resolves_with_read_sha
                (Example.platform [] None (Some 422%Z) (js "")) (js "t")
                (js "acme") (Some (js "demo")) (js "b") None [] H)
      as [(_ & Hc & _)|[(baseSha & e & Hb & Hc & Hs & _)|(e & Hb & _)]].
    + discriminate Hc.
    + injection Hb as <-. exists e. split; [exact Hc|exact Hs].
    + discriminate Hb.
Defined.

(** X12.  When [createBranch] cannot read the base ref, no ref is created.
    A rejection of that read with a status other than 422 is logged and
    rethrown; one with status 422 is taken for the branch-exists case as
    well, and the call settles as the read of [heads/<branchName>] does. *)
Theorem createBranch_base_unreadable (P : Platform) (token owner : jsstring)
  (repo : option jsstring) (branchName : jsstring) (baseBranch : option jsstring)
  (tr : Trace) (e : JsError) :
  let api := getOctokit P token in
  let base := withDefault (js "main") baseBranch in
  let tr1 := tr ++ [ConsoleLog (js "Creating branch " ++ branchName
                                ++ js " from " ++ base)] in
  let tr2 := tr1 ++ [GetRef owner repo (js "heads/" ++ base)] in
  let tr3 := tr2 ++ [ConsoleLog (js "Branch " ++ branchName
                                 ++ js " already exists, using it")] in
  git_getRef api owner repo (js "heads/" ++ base) tr1 = Rejected e ->
  (err_status e <> Some 422%Z ->
   createBranch P token owner repo branchName baseBranch tr
   = (tr2 ++ [CoreError (js "Error creating branch: " ++ err_message e)],
      Rejected e))
  /\ (err_status e = Some 422%Z ->
      createBranch P token owner repo branchName baseBranch tr
      = (tr3 ++ [GetRef owner repo (js "heads/" ++ branchName)],
         git_getRef api owner repo (js "heads/" ++ branchName) tr3))
  /\ Forall (fun ev => match ev with CreateRef _ _ _ _ => False | _ => True end)
       (skipn (length tr)
          (fst (createBranch P token owner repo branchName baseBranch tr))).
Proof.
  intros api base tr1 tr2 tr3 Hbase.
  unfold createBranch, tryCatch, bind, request, emit, ret, throw.
  fold base. fold api. fold tr1. rewrite Hbase. fold tr2.
  destruct (err_status e) as [st|] eqn:Es.
  - destruct (Z.eqb_spec st 422) as [->|Hne].
    + fold tr3. split; [congruence|]. split.
      * intros _. destruct (git_getRef api owner repo _ tr3); reflexivity.
      * destruct (git_getRef api owner repo _ tr3); simpl fst;
          unfold tr3, tr2, tr1; rewrite <- !app_assoc, skipn_app, skipn_all,
            Nat.sub_diag; simpl; repeat constructor.
    + split; [reflexivity|]. split; [congruence|].
      simpl fst. unfold tr2, tr1.
      rewrite <- !app_assoc, skipn_app, skipn_all, Nat.sub_diag.
      simpl. repeat constructor.
  - split; [reflexivity|]. split; [discriminate|].
    simpl fst. unfold tr2, tr1.
    rewrite <- !app_assoc, skipn_app, skipn_all, Nat.sub_diag.
    simpl. repeat constructor.
Qed.

Lemma createBranch_base_unreadable_witness :
  git_getRef (getOctokit (Scenario.platformOf Scenario.refsFail) (js "t"))
    (js "acme") (Some (js "demo")) (js "heads/" ++ js "main")
    ([] ++ [ConsoleLog (js "Creating branch " ++ js "b" ++ js " from " ++ js "main")])
  = Rejected Scenario.serverError
  /\ err_status Scenario.serverError <> Some 422%Z
  /\ createBranch (Scenario.platformOf Scenario.refsFail) (js "t") (js "acme")
       (Some (js "demo")) (js "b") None []
     = ([ConsoleLog (js "Creating branch b from main");
         GetRef (js "acme") (Some (js "demo")) (js "heads/main");
         CoreError (js "Error creating branch: Server Error")],
        Rejected Scenario.serverError).
Proof.
  assert (H : err_status Scenario.serverError <> Some 422%Z) by discriminate.
  split; [reflexivity|]. split; [exact H|].
  exact (proj1 (createBranch_base_unreadable
                  (Scenario.platformOf Scenario.refsFail) (js "t") (js "acme")
                  (Some (js "demo")) (js "b") None [] eq_refl) H).
Defined.

(** X13.  A wrapper of github-utils.js that rejects has logged the error
    with [core.error] as the last thing it did, under its own heading and
    with the message of the error it rejects with: so for
    [getRecentCommits], [getFileContent] (which never rejects with status
    404), [updateOrCreateFile] and [createPR].  [createBranch] is the
    exception: it also rejects, without logging, with the error of the read
    of [heads/<branchName>] it makes after a rejection with status 422. *)
Theorem wrappers_log_rejections (P : Platform) (token owner : jsstring)
  (repo : option jsstring) (tr tr' : Trace) (e : JsError) :
  (forall sha count,
      getRecentCommits P token owner repo sha count tr = (tr', Rejected e) ->
      exists before,
        tr' = before ++ [CoreError (js "Error getting recent commits: "
                                    ++ err_message e)])
  /\ (forall path branch,
         getFileContent P token owner repo path branch tr = (tr', Rejected e) ->
         err_status e <> Some 404%Z
         /\ exists before,
              tr' = before ++ [CoreError (js "Error getting file content: "
                                          ++ err_message e)])
  /\ (forall path content message branch,
         updateOrCreateFile P token owner repo path content message branch tr
         = (tr', Rejected e) ->
         exists before,
           tr' = before ++ [CoreError (js "Error updating file: " ++ err_message e)])
  /\ (forall title body head base,
         createPR P token owner repo title body head base tr = (tr', Rejected e) ->
         exists before,
           tr' = before ++ [CoreError (js "Error creating PR: " ++ err_message e)])
  /\ (forall branchName baseBranch,
         createBranch P token owner repo branchName baseBranch tr
         = (tr', Rejected e) ->
         (exists before,
             tr' = before ++ [CoreError (js "Error creating branch: "
                                         ++ err_message e)])
         \/ (exists before,
                tr' = before ++ [GetRef owner repo (js "heads/" ++ branchName)]
                /\ git_getRef (getOctokit P token) owner repo
                     (js "heads/" ++ branchName) before
                   = Rejected e)).
Proof.
  split; [|split; [|split; [|split]]].
  - intros sha count.
    unfold getRecentCommits, tryCatch, bind, request, emit, ret, throw.
    destruct (repos_listCommits _ _ _ _ _ _) as [data|e0]; [discriminate|].
    intros H. injection H as <- <-. eexists. reflexivity.
  - intros path branch.
    unfold getFileContent, tryCatch, bind, request, emit, ret, throw.
    destruct (repos_getContent _ _ _ _ _ _) as [[c s| |]|e0]; try discriminate.
    destruct (err_status e0) as [st|] eqn:Es.
    + destruct (Z.eqb_spec st 404) as [->|Hne]; [discriminate|].
      intros H. injection H as <- <-. rewrite Es.
      split; [congruence|]. eexists. reflexivity.
    + intros H. injection H as <- <-. rewrite Es.
      split; [discriminate|]. eexists. reflexivity.
  - intros path content message branch.
    unfold updateOrCreateFile, tryCatch, bind, request, emit, ret, throw.
    destruct (repos_getContent _ _ _ _ _ _) as [[c s| |]|e0];
      destruct (repos_createOrUpdateFileContents _ _ _ _ _ _ _ _ _) as [[]|e1];
      try discriminate;
      intros H; injection H as <- <-; eexists; reflexivity.
  - intros title body head base.
    unfold createPR, tryCatch, bind, request, emit, ret, throw.
    destruct (pulls_create _ _ _ _ _ _ _ _) as [pr|e0]; [discriminate|].
    intros H. injection H as <- <-. eexists. reflexivity.
  - intros branchName baseBranch.
    unfold createBranch, tryCatch, bind, request, emit, ret, throw.
    set (api := getOctokit P token).
    destruct (git_getRef api owner repo _ _) as [baseSha|e0].
    + destruct (git_createRef api owner repo _ baseSha _) as [[]|e1];
        [discriminate|]. intros H. rejected_in_catch e1 H.
    + intros H. rejected_in_catch e0 H.
Qed.

Lemma wrappers_log_rejections_witness :
  createPR (Scenario.platformOf Scenario.pullFails) (js "t") (js "acme")
    (Some (js "demo")) (js "T") (js "B") (js "h") None []
  = ([ConsoleLog (js "Creating PR: T (h -> main)");
      PullsCreate (js "acme") (Some (js "demo")) (js "T") (js "B") (js "h")
        (js "main");
      CoreError (js "Error creating PR: Server Error")],
     Rejected Scenario.serverError)
  /\ exists before,
       [ConsoleLog (js "Creating PR: T (h -> main)");
        PullsCreate (js "acme") (Some (js "demo")) (js "T") (js "B") (js "h")
          (js "main");
        CoreError (js "Error creating PR: Server Error")]
       = before ++ [CoreError (js "Error creating PR: "
                               ++ err_message Scenario.serverError)].
Proof.
  assert (H : createPR (Scenario.platformOf Scenario.pullFails) (js "t") (js "acme")
                (Some (js "demo")) (js "T") (js "B") (js "h") None []
              = ([ConsoleLog (js "Creating PR: T (h -> main)");
                  PullsCreate (js "acme") (Some (js "demo")) (js "T") (js "B")
                    (js "h") (js "main");
                  CoreError (js "Error creating PR: Server Error")],
                 Rejected Scenario.serverError)) by reflexivity.
  split; [exact H|].
  exact (proj1 (proj2 (proj2 (proj2
           (wrappers_log_rejections (Scenario.platformOf Scenario.pullFails)
              (js "t") (js "acme") (Some (js "demo")) [] _ _))))
           (js "T") (js "B") (js "h") None H).
Defined.

(** ** Further properties: [run] *)

Section RunMore.

Variable getRepoInfo : Env -> jsstring * option jsstring.
Variable getRecentCommits :
  jsstring -> jsstring -> option jsstring -> option jsstring ->
  option JsNumber -> Async (list RawCommit).
Variable createPR :
  jsstring -> jsstring -> option jsstring -> jsstring -> jsstring -> jsstring ->
  option jsstring -> Async PullRequest.
Variable updateOrCreateFile :
  jsstring -> jsstring -> option jsstring -> jsstring -> jsstring -> jsstring ->
  option jsstring -> Async unit.
Variable createBranch :
  jsstring -> jsstring -> option jsstring -> jsstring -> option jsstring ->
  Async jsstring.
Variable getFileContent :
  jsstring -> jsstring -> option jsstring -> jsstring -> option jsstring ->
  Async (option jsstring).
Variable generateChangelogWithAI :
  option (list Commit) -> option jsstring -> option jsstring -> Async jsstring.
Variable formatChangelogEntry : jsstring -> option jsstring -> jsstring.
Variable updateChangelogFile :
  jsstring -> option jsstring -> option jsstring -> Sync MergeResult.
Variable getCommitsForChangelog : list RawCommit -> list Commit.

Local Open Scope async_scope.

Let body :=
  runBody getRepoInfo getRecentCommits createPR updateOrCreateFile createBranch
    getFileContent generateChangelogWithAI formatChangelogEntry
    updateChangelogFile getCommitsForChangelog.

Let run' :=
  run getRepoInfo getRecentCommits createPR updateOrCreateFile createBranch
    getFileContent generateChangelogWithAI formatChangelogEntry
    updateChangelogFile getCommitsForChangelog.

(** [run] is its body, with the failure report when the body rejects. *)
Lemma run_of_body (env : Env) (tr tr' : Trace) (o : Outcome unit) :
  body env tr = (tr', o) ->
  run' env tr
  = match o with
    | Resolved _ => (tr', Resolved tt)
    | Rejected e => (tr' ++ failureReport e, Resolved tt)
    end.
Proof.
  intros H. unfold run', run, tryCatch. fold body. rewrite H.
  destruct o as [[]|e]; [reflexivity|].
  unfold bind, emit, ret, failureReport. now rewrite <- app_assoc.
Qed.

Lemma body_no_token (env : Env) (tr : Trace) :
  truthy (GITHUB_TOKEN env) = false ->
  body env tr = (tr, Rejected (newError "GITHUB_TOKEN is required")).
Proof.
  intros H. unfold body, runBody.
  destruct (GITHUB_TOKEN env) as [[|c t]|]; [reflexivity|discriminate|reflexivity].
Qed.

Lemma body_no_key (env : Env) (tr : Trace) :
  truthy (GITHUB_TOKEN env) = true -> truthy (GOOGLE_API_KEY env) = false ->
  body env tr = (tr, Rejected (newError "GOOGLE_API_KEY is required")).
Proof.
  intros Ht Hk. unfold body, runBody. rewrite Hk.
  destruct (GITHUB_TOKEN env) as [[|c t]|]; [discriminate|reflexivity|discriminate].
Qed.

Lemma length_eqb_false (A : Type) (l : list A) :
  l <> [] -> (length l =? 0) = false.
Proof. destruct l; [congruence|reflexivity]. Qed.

Lemma body_fetch_rejected (env : Env) (token owner : jsstring)
  (repo : option jsstring) (tr tr' : Trace) (e : JsError) :
  configured getRepoInfo env token owner repo ->
  getRecentCommits token owner repo (Some (targetBranch env))
    (Some (commitCount env)) (tr ++ preamble env owner repo)
  = (tr', Rejected e) ->
  body env tr = (tr', Rejected e).
Proof.
  intros (Htok & Hne & Hkey & Hrepo) Hfetch.
  unfold body, runBody. rewrite Htok, Hkey, Hrepo.
  destruct token as [|t token]; [congruence|].
  unfold bind, emit, ret. cbn [negb]. unfold preamble in Hfetch.
  rewrite <- app_assoc. cbn [app]. now rewrite Hfetch.
Qed.

(** The body from the call of the Summarizer on. *)
Lemma body_fetched (env : Env) (token owner : jsstring) (repo : option jsstring)
  (tr : Trace) (commits : list RawCommit) (tr1 : Trace) :
  fetched getRepoInfo getRecentCommits env token owner repo tr commits tr1 ->
  body env tr
  = (aiChangelog <- generateChangelogWithAI
                      (Some (getCommitsForChangelog commits))
                      (GOOGLE_API_KEY env) repo ;;
     emit (ConsoleLog (js "Fetching existing CHANGELOG.md from repository...")) ;;
     existing <- getFileContent token owner repo (js "CHANGELOG.md")
                   (Some (targetBranch env)) ;;
     merged <- perform
                 (updateChangelogFile (formatChangelogEntry aiChangelog repo) repo
                    (or_else existing (Some (js "")))) ;;
     if negb (hasChanges merged) then
       emit (ConsoleLog (js "No changes to CHANGELOG.md, skipping PR creation")) ;;
       ret tt
     else
       emit (ConsoleLog (js "Creating branch: " ++ branchName env)) ;;
       createBranch token owner repo (branchName env) (Some (targetBranch env)) ;;
       emit (ConsoleLog (js "Updating CHANGELOG.md in repository...")) ;;
       updateOrCreateFile token owner repo (js "CHANGELOG.md") (content merged)
         (js "chore: update CHANGELOG.md with recent changes")
         (Some (branchName env)) ;;
       emit (ConsoleLog (js "Creating pull request...")) ;;
       pr <- createPR token owner repo (js "chore: Update CHANGELOG.md")
               (pullBody (length commits)) (branchName env)
               (Some (targetBranch env)) ;;
       emit (ConsoleLog (js "Successfully created PR #" ++ digitsOfZ (number pr)
                         ++ js ": " ++ html_url pr)) ;;
       emit (CoreSetOutput (js "pr_number") (OutNumber (number pr))) ;;
       emit (CoreSetOutput (js "pr_url") (OutString (html_url pr))) ;;
       ret tt)%async tr1.
Proof.
  intros ((Htok & Hne & Hkey & Hrepo) & Hcs & tr0 & Hfetch & ->).
  unfold body, runBody. rewrite Htok, Hkey, Hrepo.
  destruct token as [|t token]; [congruence|].
  cbn [negb]. unfold preamble in Hfetch.
  unfold bind at 1 2 3. unfold emit at 1 2. rewrite <- app_assoc. cbn [app].
  rewrite Hfetch, (length_eqb_false Hcs).
  unfold bind at 1 2. unfold emit at 1 2. rewrite <- app_assoc. reflexivity.
Qed.

Lemma body_summary_rejected (env : Env) (token owner : jsstring)
  (repo : option jsstring) (tr : Trace) (commits : list RawCommit)
  (tr1 tr' : Trace) (e : JsError) :
  fetched getRepoInfo getRecentCommits env token owner repo tr commits tr1 ->
  generateChangelogWithAI (Some (getCommitsForChangelog commits))
    (GOOGLE_API_KEY env) repo tr1 = (tr', Rejected e) ->
  body env tr = (tr', Rejected e).
Proof.
  intros H Hgen. rewrite (body_fetched H). unfold bind at 1. now rewrite Hgen.
Qed.

Lemma body_read_rejected (env : Env) (token owner : jsstring)
  (repo : option jsstring) (tr : Trace) (commits : list RawCommit)
  (aiChangelog : jsstring) (tr2 tr' : Trace) (e : JsError) :
  summarized getRepoInfo getRecentCommits generateChangelogWithAI
    getCommitsForChangelog env token owner repo tr commits aiChangelog tr2 ->
  getFileContent token owner repo (js "CHANGELOG.md") (Some (targetBranch env)) tr2
  = (tr', Rejected e) ->
  body env tr = (tr', Rejected e).
Proof.
  intros (tr1 & tr1' & H & Hgen & ->) Hread. rewrite (body_fetched H).
  unfold bind at 1. rewrite Hgen. unfold bind at 1 2. unfold emit at 1.
  now rewrite Hread.
Qed.

(** The body from the call of [createBranch] on. *)
Lemma body_merged (env : Env) (token owner : jsstring) (repo : option jsstring)
  (tr : Trace) (commits : list RawCommit) (content : jsstring) (tr3 : Trace) :
  merged getRepoInfo getRecentCommits getFileContent generateChangelogWithAI
    formatChangelogEntry updateChangelogFile getCommitsForChangelog
    env token owner repo tr commits content tr3 ->
  body env tr
  = (createBranch token owner repo (branchName env) (Some (targetBranch env)) ;;
     emit (ConsoleLog (js "Updating CHANGELOG.md in repository...")) ;;
     updateOrCreateFile token owner repo (js "CHANGELOG.md") content
       (js "chore: update CHANGELOG.md with recent changes")
       (Some (branchName env)) ;;
     emit (ConsoleLog (js "Creating pull request...")) ;;
     pr <- createPR token owner repo (js "chore: Update CHANGELOG.md")
             (pullBody (length commits)) (branchName env)
             (Some (targetBranch env)) ;;
     emit (ConsoleLog (js "Successfully created PR #" ++ digitsOfZ (number pr)
                       ++ js ": " ++ html_url pr)) ;;
     emit (CoreSetOutput (js "pr_number") (OutNumber (number pr))) ;;
     emit (CoreSetOutput (js "pr_url") (OutString (html_url pr))) ;;
     ret tt)%async tr3.
Proof.
  intros (ai & tr2 & tr2' & existing & (tr1 & tr1' & H & Hgen & ->)
          & Hread & Hmerge & ->).
  rewrite (body_fetched H).
  unfold bind at 1. rewrite Hgen. unfold bind at 1 2. unfold emit at 1.
  rewrite Hread. unfold bind at 1. unfold perform. rewrite Hmerge.
  cbn [hasChanges negb SumarizeChangelog.content].
  unfold bind at 1. unfold emit at 1. now rewrite <- app_assoc.
Qed.

Lemma body_branch_rejected (env : Env) (token owner : jsstring)
  (repo : option jsstring) (tr : Trace) (commits : list RawCommit)
  (content : jsstring) (tr3 tr' : Trace) (e : JsError) :
  merged getRepoInfo getRecentCommits getFileContent generateChangelogWithAI
    formatChangelogEntry updateChangelogFile getCommitsForChangelog
    env token owner repo tr commits content tr3 ->
  createBranch token owner repo (branchName env) (Some (targetBranch env)) tr3
  = (tr', Rejected e) ->
  body env tr = (tr', Rejected e).
Proof.
  intros H Hb. rewrite (body_merged H). unfold bind at 1. now rewrite Hb.
Qed.

Lemma body_write_rejected (env : Env) (token owner : jsstring)
  (repo : option jsstring) (tr : Trace) (commits : list RawCommit)
  (content : jsstring) (tr3 trB tr' : Trace) (tip : jsstring) (e : JsError) :
  merged getRepoInfo getRecentCommits getFileContent generateChangelogWithAI
    formatChangelogEntry updateChangelogFile getCommitsForChangelog
    env token owner repo tr commits content tr3 ->
  createBranch token owner repo (branchName env) (Some (targetBranch env)) tr3
  = (trB, Resolved tip) ->
  updateOrCreateFile token owner repo (js "CHANGELOG.md") content
    (js "chore: update CHANGELOG.md with recent changes") (Some (branchName env))
    (trB ++ [ConsoleLog (js "Updating CHANGELOG.md in repository...")])
  = (tr', Rejected e) ->
  body env tr = (tr', Rejected e).
Proof.
  intros H Hb Hw. rewrite (body_merged H). unfold bind at 1. rewrite Hb.
  unfold bind at 1 2. unfold emit at 1. now rewrite Hw.
Qed.

Lemma body_pull (env : Env) (token owner : jsstring)
  (repo : option jsstring) (tr : Trace) (commits : list RawCommit)
  (content : jsstring) (tr3 trB trW tr' : Trace) (tip : jsstring)
  (o : Outcome PullRequest) :
  merged getRepoInfo getRecentCommits getFileContent generateChangelogWithAI
    formatChangelogEntry updateChangelogFile getCommitsForChangelog
    env token owner repo tr commits content tr3 ->
  createBranch token owner repo (branchName env) (Some (targetBranch env)) tr3
  = (trB, Resolved tip) ->
  updateOrCreateFile token owner repo (js "CHANGELOG.md") content
    (js "chore: update CHANGELOG.md with recent changes") (Some (branchName env))
    (trB ++ [ConsoleLog (js "Updating CHANGELOG.md in repository...")])
  = (trW, Resolved tt) ->
  createPR token owner repo (js "chore: Update CHANGELOG.md")
    (pullBody (length commits)) (branchName env) (Some (targetBranch env))
    (trW ++ [ConsoleLog (js "Creating pull request...")])
  = (tr', o) ->
  body env tr
  = match o with
    | Resolved pr =>
        (tr' ++ [ConsoleLog (js "Successfully created PR #" ++ digitsOfZ (number pr)
                             ++ js ": " ++ html_url pr);
                 CoreSetOutput (js "pr_number") (OutNumber (number pr));
                 CoreSetOutput (js "pr_url") (OutString (html_url pr))],
         Resolved tt)
    | Rejected e => (tr', Rejected e)
    end.
Proof.
  intros H Hb Hw Hp. rewrite (body_merged H). unfold bind at 1. rewrite Hb.
  unfold bind at 1 2. unfold emit at 1. rewrite Hw.
  unfold bind at 1 2. unfold emit at 1. rewrite Hp.
  destruct o as [pr|e]; [|reflexivity].
  unfold bind, emit, ret. now rewrite <- !app_assoc.
Qed.

End RunMore.

(** X14.  Without its credentials [run] calls no stage at all: when
    GITHUB_TOKEN is unset or empty, and otherwise when GOOGLE_API_KEY is,
    it only reports the failure ([core.setFailed] with the message, then
    [console.error]) and resolves.  The token is checked first. *)
Theorem run_missing_credentials :
  forall getRepoInfo getRecentCommits createPR updateOrCreateFile createBranch
         getFileContent generateChangelogWithAI formatChangelogEntry
         updateChangelogFile getCommitsForChangelog (env : Env) (tr : Trace),
    (truthy (GITHUB_TOKEN env) = false ->
     run getRepoInfo getRecentCommits createPR updateOrCreateFile createBranch
       getFileContent generateChangelogWithAI formatChangelogEntry
       updateChangelogFile getCommitsForChangelog env tr
     = (tr ++ [CoreSetFailed (js "Action failed with error: GITHUB_TOKEN is required");
               ConsoleError None (newError "GITHUB_TOKEN is required")],
        Resolved tt))
    /\ (truthy (GITHUB_TOKEN env) = true -> truthy (GOOGLE_API_KEY env) = false ->
        run getRepoInfo getRecentCommits createPR updateOrCreateFile createBranch
          getFileContent generateChangelogWithAI formatChangelogEntry
          updateChangelogFile getCommitsForChangelog env tr
        = (tr ++ [CoreSetFailed (js "Action failed with error: GOOGLE_API_KEY is required");
                  ConsoleError None (newError "GOOGLE_API_KEY is required")],
           Resolved tt)).
Proof.
  intros. split.
  - intros H. exact (run_of_body _ _ _ _ _ _ _ _ _ _ _ _ (body_no_token _ _ _ _ _ _ _ _ _ _ _ tr H)).
  - intros Ht Hk.
    exact (run_of_body _ _ _ _ _ _ _ _ _ _ _ _ (body_no_key _ _ _ _ _ _ _ _ _ _ _ tr Ht Hk)).
Qed.

Lemma run_missing_credentials_witness :
  truthy (GITHUB_TOKEN Scenario.noToken) = false
  /\ main (Scenario.platformOf Scenario.allGood) Scenario.noToken []
     = ([] ++ [CoreSetFailed (js "Action failed with error: GITHUB_TOKEN is required");
               ConsoleError None (newError "GITHUB_TOKEN is required")],
        Resolved tt).
Proof.
  split; [reflexivity|]. unfold main.
  apply (proj1 (run_missing_credentials _ _ _ _ _ _ _ _ _ _ Scenario.noToken [])).
  reflexivity.
Defined.

(** X15.  [run] never rejects, and a stage that fails before anything is
    published ends the run: when the Fetcher, the Summarizer or the read of
    the existing file rejects, [run] adds the failure report for that very
    error ([core.setFailed] with its message, then [console.error]) to the
    trace the stage left and resolves, whatever the later stages are. *)
Theorem run_failure_is_reported :
  forall getRepoInfo getRecentCommits createPR updateOrCreateFile createBranch
         getFileContent generateChangelogWithAI formatChangelogEntry
         updateChangelogFile getCommitsForChangelog (env : Env) (tr : Trace),
    let run' :=
      run getRepoInfo getRecentCommits createPR updateOrCreateFile createBranch
        getFileContent generateChangelogWithAI formatChangelogEntry
        updateChangelogFile getCommitsForChangelog in
    snd (run' env tr) = Resolved tt
    /\ (forall token owner repo tr' e,
           configured getRepoInfo env token owner repo ->
           getRecentCommits token owner repo (Some (targetBranch env))
             (Some (commitCount env)) (tr ++ preamble env owner repo)
           = (tr', Rejected e) ->
           run' env tr = (tr' ++ failureReport e, Resolved tt))
    /\ (forall token owner repo commits tr1 tr' e,
           fetched getRepoInfo getRecentCommits env token owner repo tr commits tr1 ->
           generateChangelogWithAI (Some (getCommitsForChangelog commits))
             (GOOGLE_API_KEY env) repo tr1 = (tr', Rejected e) ->
           run' env tr = (tr' ++ failureReport e, Resolved tt))
    /\ (forall token owner repo commits aiChangelog tr2 tr' e,
           summarized getRepoInfo getRecentCommits generateChangelogWithAI
             getCommitsForChangelog env token owner repo tr commits aiChangelog tr2 ->
           getFileContent token owner repo (js "CHANGELOG.md")
             (Some (targetBranch env)) tr2 = (tr', Rejected e) ->
           run' env tr = (tr' ++ failureReport e, Resolved tt)).
Proof.
  intros. subst run'. split; [|split; [|split]].
  - unfold run, tryCatch. destruct (runBody _ _ _ _ _ _ _ _ _ _ env tr) as [tr' [[]|e]];
      reflexivity.
  - intros. erewrite run_of_body by (eapply body_fetch_rejected; eassumption).
    reflexivity.
  - intros. erewrite run_of_body by (eapply body_summary_rejected; eassumption).
    reflexivity.
  - intros. erewrite run_of_body by (eapply body_read_rejected; eassumption).
    reflexivity.
Qed.

Lemma run_failure_is_reported_witness :
  configured getRepoInfo Example.env (js "ghs_token") (js "acme") (Some (js "demo"))
  /\ getRecentCommits (Scenario.platformOf Scenario.commitsFail) (js "ghs_token")
       (js "acme") (Some (js "demo")) (Some (targetBranch Example.env))
       (Some (commitCount Example.env))
       ([] ++ preamble Example.env (js "acme") (Some (js "demo")))
     = ([ConsoleLog (js "Processing repository: acme/demo");
         ConsoleLog (js "Fetching last 5 commits...");
         ConsoleLog (js "Getting last 5 commits from acme/demo (main)");
         ListCommits (js "acme") (Some (js "demo")) (js "main") (Num 5);
         CoreError (js "Error getting recent commits: Server Error")],
        Rejected Scenario.serverError)
  /\ main (Scenario.platformOf Scenario.commitsFail) Example.env []
     = ([ConsoleLog (js "Processing repository: acme/demo");
         ConsoleLog (js "Fetching last 5 commits...");
         ConsoleLog (js "Getting last 5 commits from acme/demo (main)");
         ListCommits (js "acme") (Some (js "demo")) (js "main") (Num 5);
         CoreError (js "Error getting recent commits: Server Error")]
        ++ failureReport Scenario.serverError,
        Resolved tt).
Proof.
  assert (H : configured getRepoInfo Example.env (js "ghs_token") (js "acme")
                (Some (js "demo")))
    by (split; [reflexivity|split; [discriminate|split; reflexivity]]).
  split; [exact H|]. split; [reflexivity|].
  unfold main.
  apply (proj1 (proj2 (run_failure_is_reported _ _ _ _ _ _ _ _ _ _ Example.env []))
           (js "ghs_token") (js "acme") (Some (js "demo")) _ _ H).
  reflexivity.
Defined.

(** X16.  A failure of the Publisher ends the run where it happens and
    undoes nothing: when the Merger has reported a change and the creation
    of the branch rejects, no file is written and no pull request opened;
    when the branch is there and the write of the file rejects, no pull
    request is opened; when the pull request rejects, no output is set.
    Each time [run] adds only the failure report for that error to the
    trace the failing stage left, and resolves. *)
Theorem run_publish_failure :
  forall getRepoInfo getRecentCommits createPR updateOrCreateFile createBranch
         getFileContent generateChangelogWithAI formatChangelogEntry
         updateChangelogFile getCommitsForChangelog (env : Env) (tr : Trace)
         (token owner : jsstring) (repo : option jsstring)
         (commits : list RawCommit) (content : jsstring) (tr3 : Trace),
    let run' :=
      run getRepoInfo getRecentCommits createPR updateOrCreateFile createBranch
        getFileContent generateChangelogWithAI formatChangelogEntry
        updateChangelogFile getCommitsForChangelog in
    merged getRepoInfo getRecentCommits getFileContent generateChangelogWithAI
      formatChangelogEntry updateChangelogFile getCommitsForChangelog
      env token owner repo tr commits content tr3 ->
    (forall tr' e,
        createBranch token owner repo (branchName env) (Some (targetBranch env)) tr3
        = (tr', Rejected e) ->
        run' env tr = (tr' ++ failureReport e, Resolved tt))
    /\ (forall trB tip tr' e,
           createBranch token owner repo (branchName env) (Some (targetBranch env)) tr3
           = (trB, Resolved tip) ->
           updateOrCreateFile token owner repo (js "CHANGELOG.md") content
             (js "chore: update CHANGELOG.md with recent changes")
             (Some (branchName env))
             (trB ++ [ConsoleLog (js "Updating CHANGELOG.md in repository...")])
           = (tr', Rejected e) ->
           run' env tr = (tr' ++ failureReport e, Resolved tt))
    /\ (forall trB tip trW tr' e,
           createBranch token owner repo (branchName env) (Some (targetBranch env)) tr3
           = (trB, Resolved tip) ->
           updateOrCreateFile token owner repo (js "CHANGELOG.md") content
             (js "chore: update CHANGELOG.md with recent changes")
             (Some (branchName env))
             (trB ++ [ConsoleLog (js "Updating CHANGELOG.md in repository...")])
           = (trW, Resolved tt) ->
           createPR token owner repo (js "chore: Update CHANGELOG.md")
             (pullBody (length commits)) (branchName env) (Some (targetBranch env))
             (trW ++ [ConsoleLog (js "Creating pull request...")])
           = (tr', Rejected e) ->
           run' env tr = (tr' ++ failureReport e, Resolved tt)).
Proof.
  intros. subst run'. split; [|split].
  - intros. erewrite run_of_body by (eapply body_branch_rejected; eassumption).
    reflexivity.
  - intros. erewrite run_of_body by (eapply body_write_rejected; eassumption).
    reflexivity.
  - intros trB tip trW tr' e Hb Hw Hp.
    eapply body_pull in Hp; [|exact H|exact Hb|exact Hw].
    eapply run_of_body in Hp. exact Hp.
Qed.

Lemma run_publish_failure_witness :
  exists content tr3 trB tr',
    merged getRepoInfo (getRecentCommits (Scenario.platformOf Scenario.writeFails))
      (getFileContent (Scenario.platformOf Scenario.writeFails))
      (SumarizeChangelog.generateChangelogWithAI (Scenario.platformOf Scenario.writeFails))
      SumarizeChangelog.formatChangelogEntry SumarizeChangelog.updateChangelogFile
      SumarizeChangelog.getCommitsForChangelog
      Example.env (js "ghs_token") (js "acme") (Some (js "demo")) []
      Example.twoCommits content tr3
    /\ createBranch (Scenario.platformOf Scenario.writeFails) (js "ghs_token")
         (js "acme") (Some (js "demo")) (branchName Example.env)
         (Some (targetBranch Example.env)) tr3
       = (trB, Resolved (js "sha-of-heads/main"))
    /\ updateOrCreateFile (Scenario.platformOf Scenario.writeFails) (js "ghs_token")
         (js "acme") (Some (js "demo")) (js "CHANGELOG.md") content
         (js "chore: update CHANGELOG.md with recent changes")
         (Some (branchName Example.env))
         (trB ++ [ConsoleLog (js "Updating CHANGELOG.md in repository...")])
       = (tr', Rejected Scenario.serverError)
    /\ main (Scenario.platformOf Scenario.writeFails) Example.env []
       = (tr' ++ failureReport Scenario.serverError, Resolved tt).
Proof.
  eassert (H : merged getRepoInfo
                 (getRecentCommits (Scenario.platformOf Scenario.writeFails))
                 (getFileContent (Scenario.platformOf Scenario.writeFails))
                 (SumarizeChangelog.generateChangelogWithAI
                    (Scenario.platformOf Scenario.writeFails))
                 SumarizeChangelog.formatChangelogEntry
                 SumarizeChangelog.updateChangelogFile
                 SumarizeChangelog.getCommitsForChangelog
                 Example.env (js "ghs_token") (js "acme") (Some (js "demo")) []
                 Example.twoCommits _ _).
  { do 4 eexists. split.
    - do 2 eexists. split.
      + split; [split; [reflexivity|split; [discriminate|split; reflexivity]]|].
        split; [discriminate|]. eexists. split; [evaluate|reflexivity].
      + split; [evaluate|reflexivity].
    - split; [evaluate|]. split; [evaluate|reflexivity]. }
  lazymatch type of H with
  | merged _ _ _ _ _ _ _ _ _ _ _ _ _ ?content ?tr3 =>
      eassert (Hb : createBranch (Scenario.platformOf Scenario.writeFails) (js "ghs_token")
                      (js "acme") (Some (js "demo")) (branchName Example.env)
                      (Some (targetBranch Example.env)) tr3
                    = (_, Resolved (js "sha-of-heads/main"))) by evaluate;
      lazymatch type of Hb with
      | _ = (?trB, _) =>
          eassert (Hw : updateOrCreateFile (Scenario.platformOf Scenario.writeFails)
                          (js "ghs_token") (js "acme") (Some (js "demo"))
                          (js "CHANGELOG.md") content
                          (js "chore: update CHANGELOG.md with recent changes")
                          (Some (branchName Example.env))
                          (trB ++ [ConsoleLog (js "Updating CHANGELOG.md in repository...")])
                        = (_, Rejected Scenario.serverError)) by evaluate
      end
  end.
  do 4 eexists. split; [exact H|]. split; [exact Hb|]. split; [exact Hw|].
  unfold main.
  exact (proj1 (proj2 (run_publish_failure _ _ _ H)) _ _ _ _ Hb Hw).
Defined.

(** X17.  When every stage succeeds and the Merger reports a change, [run]
    creates the branch [changelog/update-<date>] from the target branch,
    writes the merged content to CHANGELOG.md on that branch, opens the
    pull request from that branch into the target branch with a body that
    names the number of commits, and then sets the outputs [pr_number] and
    [pr_url] from the pull request it got, in this order, and resolves. *)
Theorem run_publishes :
  forall getRepoInfo getRecentCommits createPR updateOrCreateFile createBranch
         getFileContent generateChangelogWithAI formatChangelogEntry
         updateChangelogFile getCommitsForChangelog (env : Env) (tr : Trace)
         (token owner : jsstring) (repo : option jsstring)
         (commits : list RawCommit) (content : jsstring)
         (tr3 trB trW trP : Trace) (tip : jsstring) (pr : PullRequest),
    merged getRepoInfo getRecentCommits getFileContent generateChangelogWithAI
      formatChangelogEntry updateChangelogFile getCommitsForChangelog
      env token owner repo tr commits content tr3 ->
    createBranch token owner repo (branchName env) (Some (targetBranch env)) tr3
    = (trB, Resolved tip) ->
    updateOrCreateFile token owner repo (js "CHANGELOG.md") content
      (js "chore: update CHANGELOG.md with recent changes") (Some (branchName env))
      (trB ++ [ConsoleLog (js "Updating CHANGELOG.md in repository...")])
    = (trW, Resolved tt) ->
    createPR token owner repo (js "chore: Update CHANGELOG.md")
      (pullBody (length commits)) (branchName env) (Some (targetBranch env))
      (trW ++ [ConsoleLog (js "Creating pull request...")])
    = (trP, Resolved pr) ->
    run getRepoInfo getRecentCommits createPR updateOrCreateFile createBranch
      getFileContent generateChangelogWithAI formatChangelogEntry
      updateChangelogFile getCommitsForChangelog env tr
    = (trP ++ [ConsoleLog (js "Successfully created PR #" ++ digitsOfZ (number pr)
                           ++ js ": " ++ html_url pr);
               CoreSetOutput (js "pr_number") (OutNumber (number pr));
               CoreSetOutput (js "pr_url") (OutString (html_url pr))],
       Resolved tt).
Proof.
  intros * H Hb Hw Hp.
  eapply body_pull in Hp; [|exact H|exact Hb|exact Hw].
  eapply run_of_body in Hp. exact Hp.
Qed.

Lemma run_publishes_witness :
  exists content tr3 trB trW trP,
    merged getRepoInfo (getRecentCommits (Scenario.platformOf Scenario.allGood))
      (getFileContent (Scenario.platformOf Scenario.allGood))
      (SumarizeChangelog.generateChangelogWithAI (Scenario.platformOf Scenario.allGood))
      SumarizeChangelog.formatChangelogEntry SumarizeChangelog.updateChangelogFile
      SumarizeChangelog.getCommitsForChangelog
      Example.env (js "ghs_token") (js "acme") (Some (js "demo")) []
      Example.twoCommits content tr3
    /\ createBranch (Scenario.platformOf Scenario.allGood) (js "ghs_token")
         (js "acme") (Some (js "demo")) (branchName Example.env)
         (Some (targetBranch Example.env)) tr3
       = (trB, Resolved (js "sha-of-heads/main"))
    /\ updateOrCreateFile (Scenario.platformOf Scenario.allGood) (js "ghs_token")
         (js "acme") (Some (js "demo")) (js "CHANGELOG.md") content
         (js "chore: update CHANGELOG.md with recent changes")
         (Some (branchName Example.env))
         (trB ++ [ConsoleLog (js "Updating CHANGELOG.md in repository...")])
       = (trW, Resolved tt)
    /\ createPR (Scenario.platformOf Scenario.allGood) (js "ghs_token")
         (js "acme") (Some (js "demo")) (js "chore: Update CHANGELOG.md")
         (pullBody (length Example.twoCommits)) (branchName Example.env)
         (Some (targetBranch Example.env))
         (trW ++ [ConsoleLog (js "Creating pull request...")])
       = (trP, Resolved Scenario.pull7)
    /\ main (Scenario.platformOf Scenario.allGood) Example.env []
       = (trP ++ [ConsoleLog (js "Successfully created PR #"
                             ++ digitsOfZ (number Scenario.pull7)
                             ++ js ": " ++ html_url Scenario.pull7);
                 CoreSetOutput (js "pr_number") (OutNumber (number Scenario.pull7));
                 CoreSetOutput (js "pr_url") (OutString (html_url Scenario.pull7))],
          Resolved tt).
Proof.
  eassert (H : merged getRepoInfo
                 (getRecentCommits (Scenario.platformOf Scenario.allGood))
                 (getFileContent (Scenario.platformOf Scenario.allGood))
                 (SumarizeChangelog.generateChangelogWithAI
                    (Scenario.platformOf Scenario.allGood))
                 SumarizeChangelog.formatChangelogEntry
                 SumarizeChangelog.updateChangelogFile
                 SumarizeChangelog.getCommitsForChangelog
                 Example.env (js "ghs_token") (js "acme") (Some (js "demo")) []
                 Example.twoCommits _ _).
  { do 4 eexists. split.
    - do 2 eexists. split.
      + split; [split; [reflexivity|split; [discriminate|split; reflexivity]]|].
        split; [discriminate|]. eexists. split; [evaluate|reflexivity].
      + split; [evaluate|reflexivity].
    - split; [evaluate|]. split; [evaluate|reflexivity]. }
  lazymatch type of H with
  | merged _ _ _ _ _ _ _ _ _ _ _ _ _ ?content ?tr3 =>
      eassert (Hb : createBranch (Scenario.platformOf Scenario.allGood) (js "ghs_token")
                      (js "acme") (Some (js "demo")) (branchName Example.env)
                      (Some (targetBranch Example.env)) tr3
                    = (_, Resolved (js "sha-of-heads/main"))) by evaluate;
      lazymatch type of Hb with
      | _ = (?trB, _) =>
          eassert (Hw : updateOrCreateFile (Scenario.platformOf Scenario.allGood)
                          (js "ghs_token") (js "acme") (Some (js "demo"))
                          (js "CHANGELOG.md") content
                          (js "chore: update CHANGELOG.md with recent changes")
                          (Some (branchName Example.env))
                          (trB ++ [ConsoleLog (js "Updating CHANGELOG.md in repository...")])
                        = (_, Resolved tt)) by evaluate
      end
  end.
  lazymatch type of Hw with
  | _ = (?trW, _) =>
      eassert (Hp : createPR (Scenario.platformOf Scenario.allGood) (js "ghs_token")
                      (js "acme") (Some (js "demo")) (js "chore: Update CHANGELOG.md")
                      (pullBody (length Example.twoCommits)) (branchName Example.env)
                      (Some (targetBranch Example.env))
                      (trW ++ [ConsoleLog (js "Creating pull request...")])
                    = (_, Resolved Scenario.pull7)) by evaluate
  end.
  do 5 eexists. split; [exact H|]. split; [exact Hb|]. split; [exact Hw|].
  split; [exact Hp|]. unfold main.
  eapply run_publishes; [exact H|exact Hb|exact Hw|exact Hp].
Defined.

(** ** Further properties: the courses of a run *)

Section Courses.

Lemma marks_app (a b : Trace) : marks (a ++ b) = marks a ++ marks b.
Proof.
  induction a as [|ev a IH]; [reflexivity|].
  cbn [app marks]. rewrite IH. now destruct (mark ev).
Qed.

Variable P : Platform.

Lemma getRecentCommits_leaves (token owner : jsstring) (repo sha : option jsstring)
  (count : option JsNumber) :
  leaves (getRecentCommits P token owner repo sha count) [[]].
Proof.
  intros tr. unfold getRecentCommits, tryCatch, bind, request, emit, ret, throw.
  destruct (repos_listCommits _ _ _ _ _ _) as [data|e]; simpl fst;
    rewrite <- ?app_assoc; eexists; (split; [reflexivity|now left]).
Qed.

Lemma generateChangelogWithAI_leaves (commits : option (list Commit))
  (apiKey repoName : option jsstring) :
  leaves (SumarizeChangelog.generateChangelogWithAI P commits apiKey repoName) [[]].
Proof.
  intros tr. destruct commits as [[|c cs]|].
  - exists []. split; [now rewrite app_nil_r|now left].
  - destruct apiKey as [[|k key]|].
    + exists []. split; [now rewrite app_nil_r|now left].
    + destruct (generate_call P c cs k key repoName tr) as (dr & _ & ->).
      destruct (generateContent P _ _ _ tr) as [[text|]|e]; simpl fst;
        rewrite <- ?app_assoc; eexists; (split; [reflexivity|now left]).
    + exists []. split; [now rewrite app_nil_r|now left].
  - exists []. split; [now rewrite app_nil_r|now left].
Qed.

Lemma getFileContent_leaves (token owner : jsstring) (repo : option jsstring)
  (path : jsstring) (branch : option jsstring) :
  leaves (getFileContent P token owner repo path branch) [[]].
Proof.
  intros tr. unfold getFileContent, tryCatch, bind, request, emit, ret, throw.
  destruct (repos_getContent _ _ _ _ _ _) as [[c s| |]|e]; simpl fst;
    try (eexists; split; [reflexivity|now left]).
  destruct (match err_status e with Some st => (st =? 404)%Z | None => false end);
    simpl fst; rewrite <- ?app_assoc; eexists; (split; [reflexivity|now left]).
Qed.

Lemma updateChangelogFile_leaves (newEntry : jsstring)
  (repoName existingContent : option jsstring) :
  leaves
    (perform
       (SumarizeChangelog.updateChangelogFile newEntry repoName existingContent))
    [[]].
Proof.
  intros tr. unfold perform. simpl fst. eexists. split; [reflexivity|].
  rewrite updateChangelogFile_logs. destruct (hasChanges _); now left.
Qed.

Lemma createBranch_leaves (token owner : jsstring) (repo : option jsstring)
  (branchName : jsstring) (baseBranch : option jsstring) :
  leaves (createBranch P token owner repo branchName baseBranch) [[]; [Branch]].
Proof.
  intros tr. unfold createBranch, tryCatch, bind, request, emit, ret, throw.
  destruct (git_getRef _ _ _ _ _) as [baseSha|e].
  - destruct (git_createRef _ _ _ _ _ _) as [[]|e].
    + simpl fst. rewrite <- ?app_assoc. eexists. split; [reflexivity|now right; left].
    + destruct (match err_status e with Some st => (st =? 422)%Z | None => false end).
      * destruct (git_getRef _ _ _ _ _); simpl fst; rewrite <- ?app_assoc;
          eexists; (split; [reflexivity|now right; left]).
      * simpl fst. rewrite <- ?app_assoc. eexists.
        split; [reflexivity|now right; left].
  - destruct (match err_status e with Some st => (st =? 422)%Z | None => false end).
    + destruct (git_getRef _ _ _ _ _); simpl fst; rewrite <- ?app_assoc;
        eexists; (split; [reflexivity|now left]).
    + simpl fst. rewrite <- ?app_assoc. eexists. split; [reflexivity|now left].
Qed.

Lemma updateOrCreateFile_leaves (token owner : jsstring) (repo : option jsstring)
  (path content message : jsstring) (branch : option jsstring) :
  leaves (updateOrCreateFile P token owner repo path content message branch)
    [[File]].
Proof.
  intros tr. unfold updateOrCreateFile, tryCatch, bind, request, emit, ret, throw.
  destruct (repos_getContent _ _ _ _ _ _) as [[c s| |]|e];
    destruct (repos_createOrUpdateFileContents _ _ _ _ _ _ _ _ _) as [[]|e1];
    simpl fst; rewrite <- ?app_assoc; eexists; (split; [reflexivity|now left]).
Qed.

Lemma createPR_leaves (token owner : jsstring) (repo : option jsstring)
  (title body head : jsstring) (base : option jsstring) :
  leaves (createPR P token owner repo title body head base) [[Pull]].
Proof.
  intros tr. unfold createPR, tryCatch, bind, request, emit, ret, throw.
  destruct (pulls_create _ _ _ _ _ _ _ _) as [pr|e]; simpl fst;
    rewrite <- ?app_assoc; eexists; (split; [reflexivity|now left]).
Qed.

End Courses.

(** What a stage has added, as an equation on the trace it returns. *)
Lemma leaves_result {A} (m : Async A) (options : list (list Mark))
  (tr tr' : Trace) (o : Outcome A) :
  leaves m options -> m tr = (tr', o) ->
  exists added, tr' = tr ++ added /\ In (marks added) options.
Proof.
  intros Hl Hm. destruct (Hl tr) as (added & H1 & H2).
  rewrite Hm in H1. now exists added.
Qed.

(** Closes a course of [run]: the trace is the initial one and what was
    added, and the marks of what was added are among the courses. *)
Ltac course :=
  repeat match goal with
         | H : _ \/ _ |- _ => destruct H as [H|H]
         | H : False |- _ => destruct H
         end;
  (eexists; split;
   [ rewrite <- ?app_assoc; reflexivity
   | rewrite ?marks_app;
     repeat match goal with
            | H : _ = marks _ |- _ => rewrite <- H; clear H
            end;
     cbn [marks mark app]; unfold courses; cbn [In]; tauto ]).

(** Settles the next call of a stage, of which [fact] says what it leaves. *)
Ltac stage fact :=
  match goal with
  | |- context [match ?call with pair _ _ => _ end] =>
      let added := fresh "added" in
      let E := fresh "E" in
      let tr' := fresh "tr'" in
      let o := fresh "o" in
      destruct call as [tr' o] eqn:E;
      eapply leaves_result in E; [|apply fact];
      destruct E as (added & -> & E); cbn [In] in E;
      destruct o; cbv beta iota zeta
  end.

(** X18.  Every run of the action resolves, and what it adds to the trace
    shows one of nine courses of requests and signals: nothing at all; the
    failure signal alone, or after the request to create the branch, or
    after the request to write the file (preceded or not by the request to
    create the branch), or after the request for the pull request as well;
    or the two outputs, after the requests to write the file and for the
    pull request.  So the pull request is never requested unless the write
    of the file was requested before it, outputs are never set in a run
    that signals failure, the failure signal comes last, and no request is
    made twice. *)
Theorem run_takes_one_course (P : Platform) (env : Env) (tr : Trace) :
  exists added,
    main P env tr = (tr ++ added, Resolved tt) /\ In (marks added) courses.
Proof.
  unfold main, run, runBody, tryCatch.
  destruct (GITHUB_TOKEN env) as [[|c token]|].
  1, 3: unfold throw, bind, emit, ret; cbv beta iota zeta; course.
  destruct (truthy (GOOGLE_API_KEY env)); cbn [negb];
    [|unfold throw, bind, emit, ret; cbv beta iota zeta; course].
  destruct (getRepoInfo env) as [owner repo].
  unfold bind, emit, ret, throw. cbv beta iota zeta.
  stage getRecentCommits_leaves; [|course].
  destruct (length _ =? 0)%nat; [course|].
  stage generateChangelogWithAI_leaves; [|course].
  stage getFileContent_leaves; [|course].
  stage updateChangelogFile_leaves; [|course].
  destruct (hasChanges _); cbn [negb]; [|course].
  stage createBranch_leaves; [|course].
  stage updateOrCreateFile_leaves; [|course].
  stage createPR_leaves; course.
Qed.

(** ** Further properties: the inputs of [run] and the name of its branch *)

Section Inputs.

(** Replacing every [c] by nothing removes the code units [c]. *)
Lemma replaceAll_chr_empty (c : N) (s : jsstring) :
  replaceAll s [Chr c] [] = filter (fun x => negb (x =? c)%N) s.
Proof.
  unfold replaceAll. induction s as [|x s IH]; [reflexivity|].
  cbn [replaceFrom matchHere filter].
  destruct (x =? c)%N; cbn [negb matchHere app]; now rewrite IH.
Qed.

Lemma split_first (sep : N) (a b : jsstring) :
  ~ In sep a -> nth 0 (split sep (a ++ sep :: b)) [] = a.
Proof.
  intros H. rewrite split_app_sep. erewrite split_no_sep by exact H. reflexivity.
Qed.

Lemma digits_of_uint (u : Decimal.uint) :
  forallb isDigit (js (NilEmpty.string_of_uint u)) = true.
Proof. induction u; simpl; auto. Qed.

Lemma digitsValue_of_uint (u : Decimal.uint) (acc : nat) :
  JSDate.digitsValue (Z.of_nat acc) (js (NilEmpty.string_of_uint u))
  = Some (Z.of_nat (Nat.of_uint_acc u acc)).
Proof.
  revert acc; induction u as [|u IH|u IH|u IH|u IH|u IH|u IH|u IH|u IH|u IH|u IH];
    intros acc; [reflexivity|..];
    cbn [NilEmpty.string_of_uint js JSDate.digitsValue Nat.of_uint_acc];
    rewrite Nat.tail_mul_spec; unfold JSDate.digitValue;
    match goal with
    | |- context [isDigit (N_of_ascii ?a)] =>
        change (isDigit (N_of_ascii a)) with true;
        let v := eval vm_compute in (Z.of_N (N_of_ascii a) - 48)%Z in
        change (Z.of_N (N_of_ascii a) - 48)%Z with v
    end;
    cbv iota;
    match goal with
    | |- JSDate.digitsValue ?z _ = Some (Z.of_nat (Nat.of_uint_acc _ ?k)) =>
        replace z with (Z.of_nat k) by lia
    end; apply IH.
Qed.

Lemma takeWhile_all (p : N -> bool) (s : jsstring) :
  forallb p s = true -> takeWhile p s = s.
Proof.
  induction s as [|c s IH]; [reflexivity|]. simpl.
  intros H. apply andb_prop in H as [Hc Hs]. now rewrite Hc, IH.
Qed.

Lemma isDigit_not_sign (c : N) :
  isDigit c = true -> (c =? 45)%N = false /\ (c =? 43)%N = false.
Proof.
  unfold isDigit. intros H. apply andb_prop in H as [H1 _].
  apply N.leb_le in H1. split; apply N.eqb_neq; lia.
Qed.

(** [parseInt] on a string of decimal digits. *)
Lemma parseInt_digits (s : jsstring) (v : Z) :
  s <> [] -> forallb isDigit s = true -> JSDate.digitsValue 0 s = Some v ->
  parseInt s = JSNumber.ofInteger v.
Proof.
  intros Hne Hd Hv. destruct s as [|c s]; [congruence|].
  pose proof Hd as Hd'. cbn [forallb] in Hd'. apply andb_prop in Hd' as [Hc _].
  destruct (isDigit_not_sign _ Hc) as [Hm Hp].
  unfold parseInt, trimStart. cbn [dropWhile].
  rewrite (isDigit_not_space _ Hc), Hm, Hp, (takeWhile_all _ _ Hd), Hv.
  reflexivity.
Qed.

Lemma parseInt_digitsOfNat (n : nat) :
  parseInt (digitsOfNat n) = JSNumber.ofInteger (Z.of_nat n).
Proof.
  unfold digitsOfNat.
  assert (Hv : forall u,
             JSDate.digitsValue 0 (js (NilEmpty.string_of_uint u))
             = Some (Z.of_nat (Nat.of_uint u))).
  { intros u. exact (digitsValue_of_uint u 0). }
  rewrite <- (DecimalNat.Unsigned.of_to n) at 2.
  destruct (Nat.to_uint n) as [|u|u|u|u|u|u|u|u|u|u] eqn:E;
    [reflexivity|..];
    (apply parseInt_digits;
     [discriminate
     |exact (digits_of_uint _)
     |exact (Hv _)]).
Qed.

(** The integers up to 2^53 are doubles. *)
Lemma ofInteger_exact (v : Z) :
  (0 <= v <= 2 ^ 53)%Z -> JSNumber.ofInteger v = Num v.
Proof.
  intros [H0 H1]. unfold JSNumber.ofInteger.
  rewrite Z.abs_eq by assumption.
  replace (v <? 0)%Z with false by (symmetry; apply Z.ltb_ge; lia).
  assert (Hn : JSNumber.nearestDouble v = v).
  { unfold JSNumber.nearestDouble.
    destruct (Z.ltb_spec v (2 ^ 53)) as [Hlt|Hge]; [reflexivity|].
    assert (v = 2 ^ 53)%Z as -> by lia. reflexivity. }
  rewrite Hn.
  replace (2 ^ 1024 <=? v)%Z with false; [reflexivity|].
  symmetry. apply Z.leb_gt.
  apply Z.le_lt_trans with (2 ^ 53)%Z; [assumption|].
  apply Z.pow_lt_mono_r; lia.
Qed.

End Inputs.

(** X19.  The number of commits [run] asks for is [parseInt] of
    [INPUT_COMMIT_COUNT]: the decimal rendering of [n] is read back as the
    double nearest to [n], which is [n] itself up to 2^53 and not beyond
    (9007199254740993 is read as 9007199254740992); it is 10 when the
    input is unset or empty; and it is NaN when the input starts with
    neither white space, nor a sign, nor a digit. *)
Theorem commitCount_of_input (env : Env) :
  (forall n : nat,
      INPUT_COMMIT_COUNT env = Some (digitsOfNat n) ->
      commitCount env = JSNumber.ofInteger (Z.of_nat n)
      /\ ((Z.of_nat n <= 2 ^ 53)%Z -> commitCount env = Num (Z.of_nat n)))
  /\ (INPUT_COMMIT_COUNT env = Some (js "9007199254740993") ->
      commitCount env = Num 9007199254740992)
  /\ (truthy (INPUT_COMMIT_COUNT env) = false -> commitCount env = Num 10)
  /\ (forall (c : N) (s : jsstring),
         INPUT_COMMIT_COUNT env = Some (c :: s) ->
         isWhiteSpace c = false -> isDigit c = false ->
         c <> 43%N -> c <> 45%N ->
         commitCount env = NaN).
Proof.
  unfold commitCount. split; [|split; [|split]].
  - intros n ->. unfold or_else.
    assert (H : parseInt (withDefault (js "10")
                            (if truthy (Some (digitsOfNat n))
                             then Some (digitsOfNat n) else Some (js "10")))
                = JSNumber.ofInteger (Z.of_nat n)).
    { destruct (truthy (Some (digitsOfNat n))) eqn:E.
      - apply parseInt_digitsOfNat.
      - unfold digitsOfNat in E. destruct (Nat.to_uint n); discriminate. }
    split; [exact H|].
    intros Hn. rewrite H. apply ofInteger_exact. lia.
  - intros ->. vm_compute. reflexivity.
  - intros H. unfold or_else. rewrite H. vm_compute. reflexivity.
  - intros c s -> Hw Hd Hp Hm. unfold or_else. cbn [truthy withDefault].
    unfold parseInt, trimStart. cbn [dropWhile]. rewrite Hw.
    apply N.eqb_neq in Hp, Hm. rewrite Hm, Hp. cbn [takeWhile]. now rewrite Hd.
Qed.

Lemma commitCount_of_input_witness :
  INPUT_COMMIT_COUNT Example.env = Some (digitsOfNat 5)
  /\ (Z.of_nat 5 <= 2 ^ 53)%Z
  /\ commitCount Example.env = Num (Z.of_nat 5).
Proof.
  assert (H : (Z.of_nat 5 <= 2 ^ 53)%Z) by (apply Z.leb_le; reflexivity).
  split; [reflexivity|]. split; [exact H|].
  exact (proj2 (proj1 (commitCount_of_input Example.env) 5 eq_refl) H).
Defined.

(** X20.  The branch [run] works on is the input [INPUT_BRANCH] when it is
    set and not empty, otherwise [GITHUB_BASE_REF] when that is set and not
    empty, otherwise [main]; so it is never empty. *)
Theorem targetBranch_precedence (env : Env) :
  (forall b, INPUT_BRANCH env = Some b -> b <> [] -> targetBranch env = b)
  /\ (forall b, truthy (INPUT_BRANCH env) = false ->
                GITHUB_BASE_REF env = Some b -> b <> [] -> targetBranch env = b)
  /\ (truthy (INPUT_BRANCH env) = false -> truthy (GITHUB_BASE_REF env) = false ->
      targetBranch env = js "main")
  /\ targetBranch env <> [].
Proof.
  unfold targetBranch, or_else. split; [|split; [|split]].
  - intros b -> Hb. destruct b; [congruence|reflexivity].
  - intros b -> -> Hb. destruct b; [congruence|reflexivity].
  - intros -> ->. reflexivity.
  - destruct (INPUT_BRANCH env) as [[|c b]|]; cbn [truthy withDefault];
      try discriminate;
      destruct (GITHUB_BASE_REF env) as [[|c' b']|]; cbn [truthy withDefault];
      discriminate.
Qed.

Lemma targetBranch_precedence_witness :
  truthy (INPUT_BRANCH Example.env) = false
  /\ truthy (GITHUB_BASE_REF Example.env) = false
  /\ targetBranch Example.env = js "main".
Proof.
  split; [reflexivity|]. split; [reflexivity|].
  exact (proj1 (proj2 (proj2 (targetBranch_precedence Example.env)))
           eq_refl eq_refl).
Defined.

(** X21.  The branch of the pull request is named after the date part of
    the time stamp alone: [changelog/update-] followed by what stands
    before the first [T] of [new Date().toISOString()], without its
    hyphens.  For the time stamp [YYYY-MM-DDTHH:mm:ss.sssZ] that is
    [changelog/update-YYYYMMDD], whatever the time of the day. *)
Theorem branchName_of_timestamp (env : Env) (day time : jsstring) :
  now_toISOString env = day ++ 84%N :: time ->
  ~ In 84%N day ->
  branchName env
  = js "changelog/update-" ++ filter (fun c => negb (c =? 45)%N) day
  /\ (forall y1 y2 y3 y4 m1 m2 d1 d2,
         day = [y1; y2; y3; y4; 45; m1; m2; 45; d1; d2]%N ->
         forallb isDigit [y1; y2; y3; y4; m1; m2; d1; d2] = true ->
         branchName env
         = js "changelog/update-" ++ [y1; y2; y3; y4; m1; m2; d1; d2]).
Proof.
  intros Hnow Hday.
  assert (H : branchName env
              = js "changelog/update-" ++ filter (fun c => negb (c =? 45)%N) day).
  { unfold branchName. rewrite Hnow.
    erewrite split_first by exact Hday.
    change (SumarizeChangelog.lit "-") with [Chr 45]. change (js "") with (@nil N).
    now rewrite replaceAll_chr_empty. }
  split; [exact H|].
  intros y1 y2 y3 y4 m1 m2 d1 d2 -> Hd. rewrite H. f_equal.
  cbn [forallb] in Hd.
  repeat match type of Hd with
         | (_ && _)%bool = true => apply andb_prop in Hd as [? Hd]
         end.
  cbn [filter]. change (45 =? 45)%N with true. cbn [negb].
  repeat match goal with
         | Hx : isDigit ?x = true |- _ =>
             rewrite (proj1 (isDigit_not_sign x Hx)); clear Hx
         end.
  reflexivity.
Qed.

Lemma branchName_of_timestamp_witness :
  now_toISOString Example.env = js "2024-01-08" ++ 84%N :: js "09:30:00.000Z"
  /\ ~ In 84%N (js "2024-01-08")
  /\ branchName Example.env
     = js "changelog/update-"
       ++ filter (fun c => negb (c =? 45)%N) (js "2024-01-08").
Proof.
  assert (H : ~ In 84%N (js "2024-01-08"))
    by (cbn; intros H; decompose [or] H; try discriminate; assumption).
  split; [reflexivity|]. split; [exact H|].
  exact (proj1 (branchName_of_timestamp Example.env (js "2024-01-08")
                  (js "09:30:00.000Z") eq_refl H)).
Defined.

(** ** Further properties: the Summarizer *)

Section SummarizerMore.

Variable P : Platform.

Lemma includes_head (t r : jsstring) : includes (t ++ r) t = true.
Proof. apply includes_iff. now exists [], r. Qed.

Lemma includes_refl (t : jsstring) : includes t t = true.
Proof. apply includes_iff. exists [], []. now rewrite app_nil_r. Qed.

Lemma includes_after (p s t : jsstring) :
  includes s t = true -> includes (p ++ s) t = true.
Proof.
  rewrite !includes_iff. intros (b & a & ->). exists (p ++ b), a.
  now rewrite <- app_assoc.
Qed.

Lemma includes_before (s r t : jsstring) :
  includes s t = true -> includes (s ++ r) t = true.
Proof.
  rewrite !includes_iff. intros (b & a & ->). exists b, (a ++ r).
  now rewrite <- !app_assoc.
Qed.

Lemma join_includes (sep p : jsstring) (parts : list jsstring) :
  In p parts -> includes (join sep parts) p = true.
Proof.
  induction parts as [|q parts IH]; [intros []|].
  intros [->|Hin].
  - destruct parts; [apply includes_refl|apply includes_head].
  - specialize (IH Hin). destruct parts as [|q' parts]; [destruct Hin|].
    change (join sep (q :: q' :: parts)) with (q ++ sep ++ join sep (q' :: parts)).
    now apply includes_after, includes_after.
Qed.

(** The line of a commit in the prompt. *)
Lemma commitsText_includes (commits : list Commit) (x : Commit) :
  In x commits ->
  includes (commitsText P commits)
    (js "- " ++ localDate P (date x) ++ js ": " ++ message x
     ++ js " (" ++ substring (sha x) 0 7 ++ js ")") = true.
Proof.
  intros H. unfold commitsText. apply join_includes.
  apply (in_map (fun c => js "- " ++ localDate P (date c) ++ js ": " ++ message c
                          ++ js " (" ++ substring (sha c) 0 7 ++ js ")")).
  exact H.
Qed.

Lemma prompt_includes_commits (ct dr : jsstring) : includes (prompt ct dr) ct = true.
Proof.
  unfold prompt. do 6 apply includes_after. apply includes_head.
Qed.

Lemma prompt_includes_heading (ct dr : jsstring) :
  includes (prompt ct dr) (js "### " ++ dr) = true.
Proof.
  unfold prompt. do 11 apply includes_after.
  change (js "           ### ") with (js "           " ++ js "### ").
  rewrite <- app_assoc. apply includes_after.
  rewrite app_assoc. apply includes_head.
Qed.

End SummarizerMore.

(** X22.  With commits and a credential, [generateChangelogWithAI] first
    makes its request to the model [gemini-2.0-flash], and the text it
    sends asks for the heading [### <date range>] and has, for every commit
    it was given, the line [- <local date>: <message> (<sha, 7 units>)]. *)
Theorem summarizer_asks_about_every_commit (P : Platform) (c : Commit)
  (cs : list Commit) (k : N) (key : jsstring) (repoName : option jsstring)
  (tr : Trace) :
  exists contents dr rest,
    dateRange P (c :: cs) = Some dr
    /\ fst (generateChangelogWithAI P (Some (c :: cs)) (Some (k :: key)) repoName tr)
       = tr ++ GenerateContent (js "gemini-2.0-flash") contents :: rest
    /\ includes contents (js "### " ++ dr) = true
    /\ forall x, In x (c :: cs) ->
         includes contents
           (js "- " ++ localDate P (date x) ++ js ": " ++ message x
            ++ js " (" ++ substring (sha x) 0 7 ++ js ")") = true.
Proof.
  destruct (generate_call P c cs k key repoName tr) as (dr & Hdr & ->).
  exists (prompt (commitsText P (c :: cs)) dr), dr.
  destruct (generateContent P (k :: key) _ _ tr) as [[text|]|e]; eexists;
    (split; [exact Hdr|]);
    (split; [simpl fst; rewrite <- ?app_assoc; reflexivity|]);
    (split; [apply prompt_includes_heading|]);
    intros x Hx;
    exact (includes_trans _ _ _ (prompt_includes_commits _ dr)
             (commitsText_includes P (c :: cs) x Hx)).
Qed.

(** X23.  The text the Summarizer returns is the answer of the model
    service trimmed, and trimming it again changes nothing, so that
    [formatChangelogEntry] gives for it the entry it gives for the answer
    itself. *)
Theorem summarizer_result_trimmed (P : Platform) (commits : option (list Commit))
  (apiKey repoName : option jsstring) (tr tr' : Trace) (result : jsstring) :
  generateChangelogWithAI P commits apiKey repoName tr = (tr', Resolved result) ->
  trim result = result
  /\ exists cs key dr text,
       commits = Some cs /\ apiKey = Some key /\ dateRange P cs = Some dr
       /\ generateContent P key (js "gemini-2.0-flash")
            (prompt (commitsText P cs) dr) tr = Resolved (Some text)
       /\ result = trim text
       /\ forall repo repo',
            formatChangelogEntry result repo = formatChangelogEntry text repo'.
Proof.
  intros H.
  assert (Hidem : forall t, trim (trim t) = trim t).
  { intros t. destruct (trim_shape t) as [->|Hc]; [reflexivity|].
    now apply cleanEnds_trim. }
  destruct commits as [[|c cs]|]; try discriminate.
  destruct apiKey as [[|k key]|]; try discriminate.
  destruct (generate_call P c cs k key repoName tr) as (dr & Hdr & E).
  rewrite E in H.
  destruct (generateContent P (k :: key) _ _ tr) as [[text|]|e] eqn:Eg;
    try discriminate.
  injection H as <- <-. split; [apply Hidem|].
  exists (c :: cs), (k :: key), dr, text.
  repeat (split; [reflexivity || assumption|]).
  intros repo repo'. unfold formatChangelogEntry. now rewrite Hidem.
Qed.

Lemma summarizer_result_trimmed_witness :
  generateChangelogWithAI (Scenario.platformOf Scenario.allGood)
    (Some (getCommitsForChangelog Example.twoCommits)) (Some (js "google-key"))
    (Some (js "demo")) []
  = (fst (generateChangelogWithAI (Scenario.platformOf Scenario.allGood)
            (Some (getCommitsForChangelog Example.twoCommits))
            (Some (js "google-key")) (Some (js "demo")) []),
     Resolved (js "### 01.01.2024 - 07.01.2024\n\n- fix"))
  /\ trim (js "### 01.01.2024 - 07.01.2024\n\n- fix")
     = js "### 01.01.2024 - 07.01.2024\n\n- fix".
Proof.
  assert (H : generateChangelogWithAI (Scenario.platformOf Scenario.allGood)
                (Some (getCommitsForChangelog Example.twoCommits))
                (Some (js "google-key")) (Some (js "demo")) []
              = (fst (generateChangelogWithAI (Scenario.platformOf Scenario.allGood)
                        (Some (getCommitsForChangelog Example.twoCommits))
                        (Some (js "google-key")) (Some (js "demo")) []),
                 Resolved (js "### 01.01.2024 - 07.01.2024\n\n- fix")))
    by (vm_compute; reflexivity).
  split; [exact H|].
  exact (proj1 (summarizer_result_trimmed _ _ _ _ _ H)).
Defined.
